(** * Safe-Sound: the per-frame cloud and drone simulation of [Blenderscript.py]

    A shallow embedding of the simulation core of [src/Blenderscript.py]
    (the handlers [move_clouds], [move_drone] and [update_scene], and the
    set-up loops that create hospitals, clouds and drones), and the
    properties of it that the specification states.

    Numbers.  The script computes with Python floats and with the
    single-precision components of [mathutils.Vector].  Here every number
    is a real number of the Standard Library: rounding, overflow and NaN
    are not modelled.  [Vector.normalized] returns the zero vector for a
    vector of length zero, as mathutils does.

    Objects.  A Blender object is represented by the fields the script
    reads and writes.  Hospitals are compared by identity in the script
    ([h != current_hospital]); a hospital carries the rank of its creation
    as its identity.

    Randomness.  The generator of the [random] module is an oracle: two
    streams, one of the values [random.random()] returns and one of raw
    integers from which [random.choice] takes its index.  The theorems
    quantify over the oracle; the sample scenes fix one. *)

From Stdlib Require Import Reals Lra List Bool Arith Lia.
Import ListNotations.

Open Scope R_scope.

(** ** Vectors ([mathutils.Vector], three components) *)

Record Vector : Type := mkVector { x : R; y : R; z : R }.

Declare Scope vec_scope.
Delimit Scope vec_scope with V.
Bind Scope vec_scope with Vector.

(** [Vector()] *)
Definition vzero : Vector := mkVector 0 0 0.

(** [a + b] *)
Definition vadd (a b : Vector) : Vector :=
  mkVector (x a + x b) (y a + y b) (z a + z b).

(** [a - b] *)
Definition vsub (a b : Vector) : Vector :=
  mkVector (x a - x b) (y a - y b) (z a - z b).

(** [a * s] *)
Definition vscale (a : Vector) (s : R) : Vector :=
  mkVector (x a * s) (y a * s) (z a * s).

Notation "a + b" := (vadd a b) : vec_scope.
Notation "a - b" := (vsub a b) : vec_scope.
Notation "a * s" := (vscale a s) : vec_scope.

(** [a.length] *)
Definition vlength (a : Vector) : R :=
  sqrt (x a * x a + y a * y a + z a * z a).

(** Comparisons of floats, as booleans. *)
Definition Rltb (a b : R) : bool := if Rlt_dec a b then true else false.
Definition Rgtb (a b : R) : bool := Rltb b a.

Infix "<?" := Rltb (at level 70, no associativity) : R_scope.
Infix ">?" := Rgtb (at level 70, no associativity) : R_scope.

(** [a.normalized()]: the vector scaled to length one, and the zero vector
    when the length is zero. *)
Definition normalized (a : Vector) : Vector :=
  if vlength a >? 0
  then mkVector (x a / vlength a) (y a / vlength a) (z a / vlength a)
  else vzero.

(** [v.z = c] on a copy of [v]. *)
Definition set_z (v : Vector) (c : R) : Vector := mkVector (x v) (y v) c.

(** ** Configuration settings *)

Definition CITY_GRID_SIZE : R := 20.
Definition BUILDING_SPACING : R := 5.

Definition HOSPITAL_RADIUS : R := 2.
Definition HOSPITAL_HEIGHT : R := 8.

Definition CLOUD_RADIUS : R := 3.
Definition CLOUD_ALTITUDE : R := 10.
Definition CLOUD_SPEED : R := 1 / 10.

Definition DRONE_ALTITUDE : R := CLOUD_ALTITUDE.
Definition DRONE_SPEED : R := 15 / 100.
Definition DRONE_AVOIDANCE_RADIUS : R := CLOUD_RADIUS + 3.

Definition CITY_BOUNDARY_X : R := CITY_GRID_SIZE * BUILDING_SPACING / 2.
Definition CITY_BOUNDARY_Y : R := CITY_GRID_SIZE * BUILDING_SPACING / 2.

(** ** Scene objects *)

(** A hospital: its identity and its [location]. *)
Record Hospital : Type := mkHospital {
  hospital_id : nat;
  hospital_location : Vector
}.

(** [h != h'] on hospital objects. *)
Definition hospital_neqb (h h' : Hospital) : bool :=
  negb (Nat.eqb (hospital_id h) (hospital_id h')).

(** A rain cloud: its [location] and its custom property ["direction"]. *)
Record Cloud : Type := mkCloud {
  cloud_location : Vector;
  cloud_direction : Vector
}.

(** A drone body: its [location]. *)
Record Drone : Type := mkDrone {
  drone_location : Vector
}.

(** An entry of the list [drones]: [(drone, target, current_hospital)]. *)
Definition DroneEntry : Type := (Drone * Vector * Hospital)%type.

Definition entry_drone (e : DroneEntry) : Drone := fst (fst e).
Definition entry_target (e : DroneEntry) : Vector := snd (fst e).
Definition entry_hospital (e : DroneEntry) : Hospital := snd e.

(** ** [move_clouds] *)

(** The generator expression of [near_hospital], for one hospital. *)
Definition hospital_is_near (new_pos : Vector) (h : Hospital) : bool :=
  vlength (mkVector (x (hospital_location h)) (y (hospital_location h))
                    CLOUD_ALTITUDE - new_pos)
  <? CLOUD_RADIUS + HOSPITAL_RADIUS.

(** The body of the loop of [move_clouds], for one cloud. *)
Definition move_cloud (hospitals : list Hospital) (cloud : Cloud) : Cloud :=
  let direction := cloud_direction cloud in
  let new_pos := (cloud_location cloud + direction * CLOUD_SPEED)%V in
  let near_hospital := existsb (hospital_is_near new_pos) hospitals in
  let direction :=
    if (Rabs (x new_pos) >? CITY_BOUNDARY_X) || near_hospital
    then mkVector (x direction * -1) (y direction) (z direction)
    else direction in
  let direction :=
    if (Rabs (y new_pos) >? CITY_BOUNDARY_Y) || near_hospital
    then mkVector (x direction) (y direction * -1) (z direction)
    else direction in
  mkCloud (cloud_location cloud + direction * CLOUD_SPEED)%V direction.

Definition move_clouds (hospitals : list Hospital) (clouds : list Cloud)
  : list Cloud :=
  map (move_cloud hospitals) clouds.

(** ** [move_drone] *)

(** The body of the loop over the clouds: what one cloud adds to
    [repulsion]. *)
Definition repel (current_pos : Vector) (repulsion : Vector) (cloud : Cloud)
  : Vector :=
  let cloud_pos :=
    mkVector (x (cloud_location cloud)) (y (cloud_location cloud)) 0 in
  let drone_pos_2d := mkVector (x current_pos) (y current_pos) 0 in
  let distance := vlength (cloud_pos - drone_pos_2d) in
  if distance <? DRONE_AVOIDANCE_RADIUS
  then
    let direction := normalized (drone_pos_2d - cloud_pos) in
    let strength :=
      (15 / 10) * (DRONE_AVOIDANCE_RADIUS - distance)
      / DRONE_AVOIDANCE_RADIUS in
    (repulsion + direction * strength)%V
  else repulsion.

Definition move_drone (drone : Drone) (target : Vector) (clouds : list Cloud)
  : Drone :=
  let current_pos := drone_location drone in
  let target_vector := (target - current_pos)%V in
  let attraction :=
    if vlength target_vector >? 0 then normalized target_vector else vzero in
  let repulsion := fold_left (repel current_pos) clouds vzero in
  let movement := (attraction + repulsion)%V in
  let movement :=
    if vlength movement >? 0 then normalized movement else movement in
  let new_pos := (current_pos + movement * DRONE_SPEED)%V in
  let new_pos := set_z new_pos DRONE_ALTITUDE in
  mkDrone new_pos.

(** ** Exceptions and the random generator *)

Inductive Exception : Type := IndexError.

Inductive Outcome (A : Type) : Type :=
| Returned (a : A)
| Raised (e : Exception).

Arguments Returned {A} a.
Arguments Raised {A} e.

(** The state of the generator: what the following calls of
    [random.random()] return, and the raw integers the following calls of
    [random.choice] reduce to an index. *)
Record Random : Type := mkRandom {
  floats : nat -> R;
  ints : nat -> nat
}.

(** A computation that draws random numbers and may raise. *)
Definition M (A : Type) : Type := Random -> Outcome A * Random.

Definition ret {A : Type} (a : A) : M A := fun g => (Returned a, g).

Definition raise {A : Type} (e : Exception) : M A := fun g => (Raised e, g).

Definition bind {A B : Type} (c : M A) (k : A -> M B) : M B :=
  fun g =>
    match c g with
    | (Returned a, g') => k a g'
    | (Raised e, g') => (Raised e, g')
    end.

Notation "v <- c ;; k" := (bind c (fun v => k))
  (at level 61, c at next level, right associativity).

(** [random.random()]: the value, and the generator afterwards. *)
Definition random (g : Random) : R * Random :=
  (floats g 0%nat, mkRandom (fun n => floats g (S n)) (ints g)).

(** [random.uniform(a, b)], which is [a + (b - a) * random()]. *)
Definition uniform (a b : R) (g : Random) : R * Random :=
  match random g with
  | (u, g') => (a + (b - a) * u, g')
  end.

(** [random.choice(seq)]: raises [IndexError] on an empty sequence. *)
Definition choice {A : Type} (seq : list A) : M A :=
  match seq with
  | [] => raise IndexError
  | a :: _ =>
      fun g => (Returned (nth (ints g 0%nat mod length seq) seq a),
                mkRandom (floats g) (fun n => ints g (S n)))
  end.

(** ** [update_scene] *)

(** The global lists of the script. *)
Record Scene : Type := mkScene {
  hospitals : list Hospital;
  clouds : list Cloud;
  drones : list DroneEntry
}.

(** The test of [update_scene]: the target is reached. *)
Definition target_reached (e : DroneEntry) : bool :=
  vlength (drone_location (entry_drone e) - entry_target e) <? DRONE_SPEED * 2.

(** The body of the loop of [update_scene], for the entry [drones[idx]];
    the result is the entry the list holds at [idx] afterwards. *)
Definition update_drone (hospitals : list Hospital) (clouds : list Cloud)
  (e : DroneEntry) : M DroneEntry :=
  let '(drone, target, current_hospital) := e in
  if target_reached e
  then
    new_hospital <-
      choice (filter (fun h => hospital_neqb h current_hospital) hospitals) ;;
    let new_target := set_z (hospital_location new_hospital) DRONE_ALTITUDE in
    let departure_point :=
      set_z (hospital_location current_hospital) DRONE_ALTITUDE in
    ret (mkDrone departure_point, new_target, new_hospital)
  else
    ret (move_drone drone target clouds, target, current_hospital).

(** The loop of [update_scene] over [drones].  An exception leaves the
    loop: the entries before it are updated, the others are as they
    were. *)
Fixpoint update_drones (hospitals : list Hospital) (clouds : list Cloud)
  (drones : list DroneEntry) (g : Random)
  : list DroneEntry * option Exception * Random :=
  match drones with
  | [] => ([], None, g)
  | e :: rest =>
      match update_drone hospitals clouds e g with
      | (Raised exn, g') => (e :: rest, Some exn, g')
      | (Returned e', g') =>
          let '(rest', r, g'') := update_drones hospitals clouds rest g' in
          (e' :: rest', r, g'')
      end
  end.

(** One call of the handler: the scene afterwards, the exception that left
    it (if any), and the generator afterwards. *)
Definition update_scene (s : Scene) (g : Random)
  : Scene * option Exception * Random :=
  let clouds' := move_clouds (hospitals s) (clouds s) in
  let '(drones', r, g') := update_drones (hospitals s) clouds' (drones s) g in
  (mkScene (hospitals s) clouds' drones', r, g').

Definition scene_after (t : Scene * option Exception * Random) : Scene :=
  fst (fst t).
Definition exception_of (t : Scene * option Exception * Random)
  : option Exception := snd (fst t).
Definition random_after (t : Scene * option Exception * Random) : Random :=
  snd t.

(** [n] frames: the host calls the handler once per frame, whether or not
    an earlier call raised. *)
Fixpoint run_frames (n : nat) (s : Scene) (g : Random) : Scene * Random :=
  match n with
  | O => (s, g)
  | S k =>
      let t := update_scene s g in
      run_frames k (scene_after t) (random_after t)
  end.

(** One more frame, from the scene and the generator of the frame before. *)
Definition update_scene_frame (sg : Scene * Random) : Scene * Random :=
  (scene_after (update_scene (fst sg) (snd sg)),
   random_after (update_scene (fst sg) (snd sg))).

(** ** Set-up: hospitals, clouds and drones

    [NUM_DRONES] and [NUM_HOSPITALS] are drawn once when the script starts
    ([random.randint(3, 7)] and [random.randint(5, 10)]); the set-up loops
    take them as parameters.

    The two placement searches are [while True] loops with no bound and no
    [raise].  Their models take a number of iterations to follow, [fuel]:
    the result is [None] when the loop is still running after [fuel]
    iterations. *)

(** The test that leaves the search of a hospital position. *)
Definition hospital_fits (pos : Vector) (hospital_positions : list Vector)
  : bool :=
  forallb (fun p => vlength (pos - p) >? HOSPITAL_RADIUS * 2)
          hospital_positions.

(** The [while True] loop that searches a hospital position. *)
Fixpoint place_hospital (fuel : nat) (hospital_positions : list Vector)
  (g : Random) : option (Vector * Random) :=
  match fuel with
  | O => None
  | S fuel' =>
      match uniform (- CITY_BOUNDARY_X) CITY_BOUNDARY_X g with
      | (px, g1) =>
          match uniform (- CITY_BOUNDARY_Y) CITY_BOUNDARY_Y g1 with
          | (py, g2) =>
              let pos := mkVector px py (HOSPITAL_HEIGHT / 2) in
              if hospital_fits pos hospital_positions
              then Some (pos, g2)
              else place_hospital fuel' hospital_positions g2
          end
      end
  end.

(** The loop [for _ in range(NUM_HOSPITALS)]. *)
Fixpoint create_hospitals (fuel : nat) (n : nat) (hospitals : list Hospital)
  (hospital_positions : list Vector) (g : Random)
  : option (list Hospital * list Vector * Random) :=
  match n with
  | O => Some (hospitals, hospital_positions, g)
  | S n' =>
      match place_hospital fuel hospital_positions g with
      | None => None
      | Some (pos, g') =>
          create_hospitals fuel n'
            (hospitals ++ [mkHospital (length hospitals) pos])
            (hospital_positions ++ [pos]) g'
      end
  end.

(** The test that leaves the search of a cloud position. *)
Definition cloud_fits (pos : Vector) (clouds : list Cloud)
  (hospital_positions : list Vector) : bool :=
  forallb (fun p => vlength (pos - p) >? CLOUD_RADIUS * 2)
          (map cloud_location clouds)
  && forallb (fun p => vlength (pos - p) >? CLOUD_RADIUS + HOSPITAL_RADIUS)
             hospital_positions.

(** The [while True] loop that searches a cloud position. *)
Fixpoint place_cloud (fuel : nat) (clouds : list Cloud)
  (hospital_positions : list Vector) (g : Random)
  : option (Vector * Random) :=
  match fuel with
  | O => None
  | S fuel' =>
      match uniform (- CITY_BOUNDARY_X) CITY_BOUNDARY_X g with
      | (px, g1) =>
          match uniform (- CITY_BOUNDARY_Y) CITY_BOUNDARY_Y g1 with
          | (py, g2) =>
              let pos := mkVector px py CLOUD_ALTITUDE in
              if cloud_fits pos clouds hospital_positions
              then Some (pos, g2)
              else place_cloud fuel' clouds hospital_positions g2
          end
      end
  end.

(** The heading of a new cloud (line 231). *)
Definition cloud_heading (g : Random) : Vector * Random :=
  match uniform (-1) 1 g with
  | (dx, g1) =>
      match uniform (-1) 1 g1 with
      | (dy, g2) => (normalized (mkVector dx dy 0), g2)
      end
  end.

(** The loop [for _ in range(NUM_CLOUDS)]. *)
Fixpoint create_clouds (fuel : nat) (n : nat) (clouds : list Cloud)
  (hospital_positions : list Vector) (g : Random)
  : option (list Cloud * Random) :=
  match n with
  | O => Some (clouds, g)
  | S n' =>
      match place_cloud fuel clouds hospital_positions g with
      | None => None
      | Some (pos, g') =>
          match cloud_heading g' with
          | (direction, g'') =>
              create_clouds fuel n' (clouds ++ [mkCloud pos direction])
                            hospital_positions g''
          end
      end
  end.

(** The body of the loop that initializes the drones. *)
Definition create_drone_entry (hospitals : list Hospital) : M DroneEntry :=
  start_hospital <- choice hospitals ;;
  let start := set_z (hospital_location start_hospital) DRONE_ALTITUDE in
  end_hospital <-
    choice (filter (fun h => hospital_neqb h start_hospital) hospitals) ;;
  let end_ := set_z (hospital_location end_hospital) DRONE_ALTITUDE in
  ret (mkDrone start, end_, start_hospital).

(** The loop [for _ in range(NUM_DRONES)]. *)
Fixpoint create_drones (n : nat) (hospitals : list Hospital)
  (drones : list DroneEntry) : M (list DroneEntry) :=
  match n with
  | O => ret drones
  | S n' =>
      e <- create_drone_entry hospitals ;;
      create_drones n' hospitals (drones ++ [e])
  end.

(** The set-up of the script, from the hospitals to the drones.  The handler
    is registered after it: an exception here ends the script before any
    frame is simulated. *)
Definition setup (fuel : nat) (NUM_DRONES NUM_HOSPITALS : nat) (g : Random)
  : option (Outcome Scene * Random) :=
  let NUM_CLOUDS := (NUM_HOSPITALS * 2)%nat in
  match create_hospitals fuel NUM_HOSPITALS [] [] g with
  | None => None
  | Some (hospitals, hospital_positions, g1) =>
      match create_clouds fuel NUM_CLOUDS [] hospital_positions g1 with
      | None => None
      | Some (clouds, g2) =>
          match create_drones NUM_DRONES hospitals [] g2 with
          | (Returned drones, g3) =>
              Some (Returned (mkScene hospitals clouds drones), g3)
          | (Raised e, g3) => Some (Raised e, g3)
          end
      end
  end.

(** ** The navigation rule in the words of the specification (4.2)

    The second definition of the drone controller, step by step as the
    specification words it; [move_drone] is compared with it below. *)

(** The planar part of a position. *)
Definition planar (v : Vector) : Vector := mkVector (x v) (y v) 0.

Definition planar_distance (a b : Vector) : R :=
  vlength (planar a - planar b).

Definition vector_eq_dec (a b : Vector) : {a = b} + {a <> b}.
Proof.
  destruct a as [ax ay az], b as [bx by_ bz].
  destruct (Req_dec_T ax bx) as [Hx | Hx];
    [ | right; intros H; apply Hx; congruence ].
  destruct (Req_dec_T ay by_) as [Hy | Hy];
    [ | right; intros H; apply Hy; congruence ].
  destruct (Req_dec_T az bz) as [Hz | Hz];
    [ | right; intros H; apply Hz; congruence ].
  left; congruence.
Defined.

(** The sum of a list of vectors. *)
Definition vsum (l : list Vector) : Vector := fold_right vadd vzero l.

(** Step 1. *)
Definition spec_attraction (position target : Vector) : Vector :=
  if vector_eq_dec target position then vzero
  else normalized (target - position).

(** Step 2: the clouds that repel, and what each of them contributes. *)
Definition spec_repels (position : Vector) (avoidance_radius : R) (c : Cloud)
  : bool :=
  planar_distance position (cloud_location c) <? avoidance_radius.

Definition spec_contribution (position : Vector) (avoidance_radius : R)
  (c : Cloud) : Vector :=
  (normalized (planar position - planar (cloud_location c))
   * ((15 / 10)
      * (avoidance_radius - planar_distance position (cloud_location c))
      / avoidance_radius))%V.

Definition spec_repulsion (position : Vector) (avoidance_radius : R)
  (clouds : list Cloud) : Vector :=
  vsum (map (spec_contribution position avoidance_radius)
            (filter (spec_repels position avoidance_radius) clouds)).

(** Step 3. *)
Definition spec_movement (position target : Vector) (avoidance_radius : R)
  (clouds : list Cloud) : Vector :=
  let movement :=
    (spec_attraction position target
     + spec_repulsion position avoidance_radius clouds)%V in
  if vector_eq_dec movement vzero then vzero else normalized movement.

(** Step 4. *)
Definition spec_advance_drone (position target : Vector)
  (clouds : list Cloud) (step_size avoidance_radius drone_altitude : R)
  : Vector :=
  set_z (position
         + spec_movement position target avoidance_radius clouds * step_size)%V
        drone_altitude.

(** ** The candidates of the placement searches *)

(** The position the search of a hospital position samples in its
    iteration [k] (from zero), with the generator [g] at the start of the
    search: every iteration calls [random.uniform] twice. *)
Definition hospital_candidate (g : Random) (k : nat) : Vector :=
  mkVector
    (- CITY_BOUNDARY_X
     + (CITY_BOUNDARY_X - - CITY_BOUNDARY_X) * floats g (2 * k)%nat)
    (- CITY_BOUNDARY_Y
     + (CITY_BOUNDARY_Y - - CITY_BOUNDARY_Y) * floats g (2 * k + 1)%nat)
    (HOSPITAL_HEIGHT / 2).

(** The same for the search of a cloud position. *)
Definition cloud_candidate (g : Random) (k : nat) : Vector :=
  mkVector
    (- CITY_BOUNDARY_X
     + (CITY_BOUNDARY_X - - CITY_BOUNDARY_X) * floats g (2 * k)%nat)
    (- CITY_BOUNDARY_Y
     + (CITY_BOUNDARY_Y - - CITY_BOUNDARY_Y) * floats g (2 * k + 1)%nat)
    CLOUD_ALTITUDE.

(** The generator after [n] calls of [random.random()]. *)
Definition after_floats (n : nat) (g : Random) : Random :=
  mkRandom (fun i => floats g (n + i)%nat) (ints g).

(** ** Conditions on a scene *)

(** The hospitals are distinct objects, and there are at least two. *)
Definition two_hospitals (hs : list Hospital) : Prop :=
  NoDup (map hospital_id hs) /\ (2 <= length hs)%nat.

(** The hospital a drone most recently departed from, followed through one
    pass of the loop of [update_scene].  A drone departs from the hospital
    at whose position it is placed: [start_hospital] when it is created
    (lines 237-239), and [current_hospital] when it is reset on arrival
    (lines 261-263).  A pass that only moves the drone leaves it as it
    was. *)
Definition departed_after (e : DroneEntry) (departed : Hospital) : Hospital :=
  if target_reached e then entry_hospital e else departed.

(** ** Sample scenes *)

(** A generator whose every [random()] is one half and whose every raw
    integer is zero. *)
Definition steady : Random := mkRandom (fun _ => 1 / 2) (fun _ => 0%nat).

(** The scenario of the specification (section 8): hospital A at the
    origin, hospital B at [(10, 0)], and a drone at [(9.9, 0)] on its way
    to B, which left from A. *)
Definition hospital_A : Hospital :=
  mkHospital 0 (mkVector 0 0 (HOSPITAL_HEIGHT / 2)).
Definition hospital_B : Hospital :=
  mkHospital 1 (mkVector 10 0 (HOSPITAL_HEIGHT / 2)).

Definition arriving_entry : DroneEntry :=
  (mkDrone (mkVector (99 / 10) 0 DRONE_ALTITUDE),
   mkVector 10 0 DRONE_ALTITUDE, hospital_A).

(** A drone that has just left A for B. *)
Definition leaving_entry : DroneEntry :=
  (mkDrone (mkVector 0 0 DRONE_ALTITUDE),
   mkVector 10 0 DRONE_ALTITUDE, hospital_A).

(** A cloud north of the origin, heading south. *)
Definition south_cloud : Cloud :=
  mkCloud (mkVector 0 (605 / 100) CLOUD_ALTITUDE) (mkVector 0 (-1) 0).

(** A cloud right above the drone of [leaving_entry]. *)
Definition overhead_cloud : Cloud :=
  mkCloud (mkVector 0 0 CLOUD_ALTITUDE) (mkVector 0 (-1) 0).

(** A cloud at planar distance three from the drone of [leaving_entry]. *)
Definition near_cloud : Cloud :=
  mkCloud (mkVector 0 3 CLOUD_ALTITUDE) (mkVector 0 (-1) 0).

(** A generator whose first search candidate collides with a hospital at
    the origin and whose second candidate is free. *)
Definition second_try : Random :=
  mkRandom (fun i => match i with
                     | 0%nat | 1%nat => 1 / 2
                     | _ => 3 / 4
                     end)
           (fun _ => 0%nat).

Definition arrival_scene : Scene :=
  mkScene [hospital_A; hospital_B] [south_cloud] [arriving_entry].

Definition leaving_scene : Scene :=
  mkScene [hospital_A; hospital_B] [south_cloud] [leaving_entry].

(** ** The rest of the script: the counts, the city grid, the drone model *)

Definition MIN_FLOORS : R := 2.
Definition MAX_FLOORS : R := 12.
Definition DRONE_SIZE : R := 15 / 10.

(** [CITY_GRID_SIZE] as the bound of [range(CITY_GRID_SIZE)]. *)
Definition CITY_GRID_CELLS : nat := 20.

(** [random.randint(a, b)], which is [a + _randbelow(b - a + 1)]. *)
Definition randint (a b : nat) (g : Random) : nat * Random :=
  ((a + ints g 0%nat mod (b - a + 1))%nat,
   mkRandom (floats g) (fun n => ints g (S n))).

(** A building: the [location] and [scale] of its cube, and the base colour
    of its material. *)
Record Building : Type := mkBuilding {
  building_location : Vector;
  building_scale : Vector;
  building_color : Vector
}.

(** [create_building]: the cube is added at [location], scaled, raised to
    [height / 2], and given a material of a random colour. *)
Definition create_building (location : Vector) (width depth height : R)
  (g : Random) : Building * Random :=
  match uniform (3 / 10) (6 / 10) g with
  | (red, g1) =>
      match uniform (3 / 10) (6 / 10) g1 with
      | (green, g2) =>
          match uniform (3 / 10) (6 / 10) g2 with
          | (blue, g3) =>
              (mkBuilding (set_z location (height / 2))
                          (mkVector width depth (height / 2))
                          (mkVector red green blue), g3)
          end
      end
  end.

(** The body of the two loops that create the city grid, for the cell
    [(x, y)]. *)
Definition create_grid_building (cell : nat * nat) (g : Random)
  : Building * Random :=
  match uniform 1 3 g with
  | (width, g1) =>
      match uniform 1 3 g1 with
      | (depth, g2) =>
          match uniform MIN_FLOORS MAX_FLOORS g2 with
          | (height, g3) =>
              let pos_x :=
                (INR (fst cell) - CITY_GRID_SIZE / 2) * BUILDING_SPACING in
              let pos_y :=
                (INR (snd cell) - CITY_GRID_SIZE / 2) * BUILDING_SPACING in
              create_building (mkVector pos_x pos_y 0) width depth height g3
          end
      end
  end.

(** A [for] loop whose body draws random numbers: the results in order, and
    the generator afterwards. *)
Fixpoint for_each {A B : Type} (body : A -> Random -> B * Random)
  (l : list A) (g : Random) : list B * Random :=
  match l with
  | [] => ([], g)
  | a :: l' =>
      match body a g with
      | (b, g1) =>
          match for_each body l' g1 with
          | (bs, g2) => (b :: bs, g2)
          end
      end
  end.

(** The loops [for x in range(CITY_GRID_SIZE): for y in
    range(CITY_GRID_SIZE)]. *)
Definition create_city_grid (g : Random) : list Building * Random :=
  for_each create_grid_building
    (list_prod (seq 0 CITY_GRID_CELLS) (seq 0 CITY_GRID_CELLS)) g.

(** [math.radians]. *)
Definition radians (degrees : R) : R := degrees * PI / 180.

(** The location of propeller [i] of a drone created at [location]. *)
Definition propeller_location (location : Vector) (i : nat) : Vector :=
  let angle := radians (90 * INR i) in
  let propeller_offset :=
    (mkVector (cos angle) (sin angle) 0 * DRONE_SIZE * (5 / 10))%V in
  (location + propeller_offset)%V.

(** [create_drone]: the body, which is what the function returns and what
    the handler moves, and the locations of the four propellers, which are
    objects of their own. *)
Definition create_drone (location : Vector) : Drone * list Vector :=
  (mkDrone location, map (propeller_location location) (seq 0 4)).

(** The script from its first line to the registration of the handler: the
    counts, the city grid, the set-up. *)
Definition script (fuel : nat) (g : Random)
  : option (Outcome (list Building * Scene) * Random) :=
  match randint 3 7 g with
  | (NUM_DRONES, g1) =>
      match randint 5 10 g1 with
      | (NUM_HOSPITALS, g2) =>
          match create_city_grid g2 with
          | (buildings, g3) =>
              match setup fuel NUM_DRONES NUM_HOSPITALS g3 with
              | None => None
              | Some (Returned s, g4) => Some (Returned (buildings, s), g4)
              | Some (Raised e, g4) => Some (Raised e, g4)
              end
          end
      end
  end.

(** ** Conditions on placements and generators *)

(** Any two hospitals of the list are more than [2 * HOSPITAL_RADIUS]
    apart. *)
Definition hospitals_apart (hs : list Hospital) : Prop :=
  ForallOrdPairs
    (fun h h' =>
       vlength (hospital_location h - hospital_location h')
       > HOSPITAL_RADIUS * 2) hs.

(** Any two clouds of the list are more than [2 * CLOUD_RADIUS] apart. *)
Definition clouds_apart (cs : list Cloud) : Prop :=
  ForallOrdPairs
    (fun c c' =>
       vlength (cloud_location c - cloud_location c') > CLOUD_RADIUS * 2) cs.

(** A position within the boundary of the city. *)
Definition within_boundary (v : Vector) : Prop :=
  Rabs (x v) <= CITY_BOUNDARY_X /\ Rabs (y v) <= CITY_BOUNDARY_Y.

(** [random.random()] returns numbers of the unit interval. *)
Definition unit_floats (g : Random) : Prop :=
  forall i, 0 <= floats g i <= 1.

(** The test of the search of a cloud position without its second half,
    the test against the hospitals. *)
Definition cloud_fits_clouds (pos : Vector) (clouds : list Cloud) : bool :=
  forallb (fun p => vlength (pos - p) >? CLOUD_RADIUS * 2)
          (map cloud_location clouds).

(** The candidate of a cloud is near a hospital (the test of
    [move_clouds]). *)
Definition bounces_off_hospital (hs : list Hospital) (c : Cloud) : bool :=
  existsb
    (hospital_is_near
       (cloud_location c + cloud_direction c * CLOUD_SPEED)%V) hs.

(** ** More sample scenes *)

(** A generator whose first forty numbers grow by one fortieth: successive
    candidates of the placement searches are far apart. *)
Definition spread : Random :=
  mkRandom (fun i => (INR (Nat.min i 39) + 1) / 40) (fun _ => 0%nat).

(** Two hospitals, no cloud, and the drone that has just left A for B. *)
Definition open_sky_scene : Scene :=
  mkScene [hospital_A; hospital_B] [] [leaving_entry].


(** One hospital only: a drone on its way and two that have arrived. *)
Definition one_hospital_scene : Scene :=
  mkScene [hospital_A] [south_cloud]
          [leaving_entry; arriving_entry; arriving_entry].

(** * Properties *)

(** ** Comparisons and lengths *)

Lemma Rltb_true (a b : R) : (a <? b) = true <-> a < b.
Proof.
  unfold Rltb. destruct (Rlt_dec a b); split; intros; auto; discriminate.
Qed.

Lemma Rltb_false (a b : R) : (a <? b) = false <-> ~ a < b.
Proof.
  unfold Rltb. destruct (Rlt_dec a b); split; intros; auto;
    try discriminate; contradiction.
Qed.

Lemma Rgtb_true (a b : R) : (a >? b) = true <-> a > b.
Proof. unfold Rgtb. rewrite Rltb_true. unfold Rgt. tauto. Qed.

Lemma Rgtb_false (a b : R) : (a >? b) = false <-> ~ a > b.
Proof. unfold Rgtb. rewrite Rltb_false. unfold Rgt. tauto. Qed.

Lemma vector_eq (a b : Vector) :
  x a = x b -> y a = y b -> z a = z b -> a = b.
Proof. destruct a, b; simpl; intros; subst; reflexivity. Qed.

Lemma sum_squares_nonneg (a b c : R) : 0 <= a * a + b * b + c * c.
Proof. nra. Qed.

Lemma vlength_nonneg (a : Vector) : 0 <= vlength a.
Proof. apply sqrt_pos. Qed.

Lemma vlength_vzero : vlength vzero = 0.
Proof.
  unfold vlength, vzero; simpl.
  replace (0 * 0 + 0 * 0 + 0 * 0) with 0 by ring. apply sqrt_0.
Qed.

Lemma vlength_zero_inv (a : Vector) : vlength a = 0 -> a = vzero.
Proof.
  unfold vlength. intros H.
  apply sqrt_eq_0 in H; [ | apply sum_squares_nonneg ].
  apply vector_eq; simpl; nra.
Qed.

Lemma vlength_pos (a : Vector) : a <> vzero <-> vlength a > 0.
Proof.
  split.
  - intros Ha. destruct (Rle_lt_or_eq_dec _ _ (vlength_nonneg a)) as [H | H].
    + exact H.
    + exfalso. apply Ha. apply vlength_zero_inv. symmetry. exact H.
  - intros H Ha. rewrite Ha, vlength_vzero in H. lra.
Qed.

Lemma vlength_sub_sym (a b : Vector) : vlength (a - b) = vlength (b - a).
Proof. unfold vlength; simpl. f_equal. ring. Qed.

(** Scaling a vector scales its length. *)
Lemma vlength_scale (a : Vector) (s : R) :
  vlength (a * s) = vlength a * Rabs s.
Proof.
  unfold vlength; simpl.
  replace (x a * s * (x a * s) + y a * s * (y a * s) + z a * s * (z a * s))
    with ((x a * x a + y a * y a + z a * z a) * (s * s)) by ring.
  rewrite sqrt_mult_alt by apply sum_squares_nonneg.
  f_equal. change (s * s) with (Rsqr s). apply sqrt_Rsqr_abs.
Qed.

Lemma normalized_vzero : normalized vzero = vzero.
Proof.
  unfold normalized.
  destruct (vlength vzero >? 0) eqn:H; [ | reflexivity ].
  apply Rgtb_true in H. rewrite vlength_vzero in H. lra.
Qed.

Lemma normalized_scale (a : Vector) :
  a <> vzero -> normalized a = (a * / vlength a)%V.
Proof.
  intros Ha. unfold normalized.
  destruct (vlength a >? 0) eqn:H.
  - reflexivity.
  - apply Rgtb_false in H. apply vlength_pos in Ha. contradiction.
Qed.

(** A vector that is not zero is normalized to a unit vector. *)
Lemma vlength_normalized (a : Vector) :
  a <> vzero -> vlength (normalized a) = 1.
Proof.
  intros Ha. rewrite normalized_scale by exact Ha. rewrite vlength_scale.
  pose proof (proj1 (vlength_pos a) Ha) as Hpos.
  rewrite Rabs_pos_eq by (left; apply Rinv_0_lt_compat; exact Hpos).
  field. lra.
Qed.

Lemma vadd_assoc (a b c : Vector) : (a + (b + c))%V = (a + b + c)%V.
Proof. apply vector_eq; simpl; ring. Qed.

Lemma vadd_vzero_l (a : Vector) : (vzero + a)%V = a.
Proof. apply vector_eq; simpl; ring. Qed.

Lemma vadd_vzero_r (a : Vector) : (a + vzero)%V = a.
Proof. apply vector_eq; simpl; ring. Qed.

(** ** The cloud controller *)

Lemma hospital_is_near_exists (hs : list Hospital) (new_pos : Vector) :
  existsb (hospital_is_near new_pos) hs = true <->
  exists h, In h hs /\
    vlength (set_z (hospital_location h) CLOUD_ALTITUDE - new_pos)
    < CLOUD_RADIUS + HOSPITAL_RADIUS.
Proof.
  rewrite existsb_exists. unfold hospital_is_near.
  split; intros (h & Hin & H); exists h; split; auto;
    apply Rltb_true; exact H.
Qed.

Lemma move_clouds_nth (hs : list Hospital) (cs : list Cloud) (i : nat)
  (c : Cloud) :
  nth_error cs i = Some c ->
  nth_error (move_clouds hs cs) i = Some (move_cloud hs c).
Proof. intros H. unfold move_clouds. apply map_nth_error. exact H. Qed.

Lemma move_clouds_length (hs : list Hospital) (cs : list Cloud) :
  length (move_clouds hs cs) = length cs.
Proof. unfold move_clouds. apply length_map. Qed.

(** C2.  For every cloud of the list, [move_clouds] computes the candidate
    [location + direction * CLOUD_SPEED]; the x component of the direction
    changes sign exactly when the candidate is beyond the boundary in x or
    within [CLOUD_RADIUS + HOSPITAL_RADIUS] of a hospital taken at cloud
    altitude, the y component exactly when the candidate is beyond the
    boundary in y or that same proximity holds; the new location is the old
    location plus the new direction times [CLOUD_SPEED], and the new
    direction is the one stored for the next call. *)
Theorem move_clouds_bounce (hs : list Hospital) (cs : list Cloud) (i : nat)
  (c : Cloud) :
  nth_error cs i = Some c ->
  let candidate := (cloud_location c + cloud_direction c * CLOUD_SPEED)%V in
  let near_protected :=
    exists h, In h hs /\
      vlength (set_z (hospital_location h) CLOUD_ALTITUDE - candidate)
      < CLOUD_RADIUS + HOSPITAL_RADIUS in
  exists c',
    nth_error (move_clouds hs cs) i = Some c' /\
    (Rabs (x candidate) > CITY_BOUNDARY_X \/ near_protected ->
     x (cloud_direction c') = - x (cloud_direction c)) /\
    (~ (Rabs (x candidate) > CITY_BOUNDARY_X \/ near_protected) ->
     x (cloud_direction c') = x (cloud_direction c)) /\
    (Rabs (y candidate) > CITY_BOUNDARY_Y \/ near_protected ->
     y (cloud_direction c') = - y (cloud_direction c)) /\
    (~ (Rabs (y candidate) > CITY_BOUNDARY_Y \/ near_protected) ->
     y (cloud_direction c') = y (cloud_direction c)) /\
    z (cloud_direction c') = z (cloud_direction c) /\
    cloud_location c'
    = (cloud_location c + cloud_direction c' * CLOUD_SPEED)%V.
Proof.
  intros Hc candidate near_protected.
  exists (move_cloud hs c). split; [ apply move_clouds_nth; exact Hc | ].
  unfold move_cloud. fold candidate.
  assert (Hnear : existsb (hospital_is_near candidate) hs = true
                  <-> near_protected) by apply hospital_is_near_exists.
  assert (Hx : (Rabs (x candidate) >? CITY_BOUNDARY_X)
               || existsb (hospital_is_near candidate) hs = true
               <-> Rabs (x candidate) > CITY_BOUNDARY_X \/ near_protected).
  { rewrite orb_true_iff, Rgtb_true, Hnear. tauto. }
  assert (Hy : (Rabs (y candidate) >? CITY_BOUNDARY_Y)
               || existsb (hospital_is_near candidate) hs = true
               <-> Rabs (y candidate) > CITY_BOUNDARY_Y \/ near_protected).
  { rewrite orb_true_iff, Rgtb_true, Hnear. tauto. }
  destruct ((Rabs (x candidate) >? CITY_BOUNDARY_X)
            || existsb (hospital_is_near candidate) hs) eqn:Ex;
    destruct ((Rabs (y candidate) >? CITY_BOUNDARY_Y)
              || existsb (hospital_is_near candidate) hs) eqn:Ey;
    simpl; repeat split; intros; try reflexivity; try ring;
    try (exfalso; tauto);
    match goal with
    | H : _ \/ _ |- _ =>
        first [ apply Hx in H; discriminate | apply Hy in H; discriminate ]
    end.
Qed.

(** ** The drone controller against the specification's wording *)

Lemma attraction_spec (position target : Vector) :
  (if vlength (target - position) >? 0
   then normalized (target - position) else vzero)
  = spec_attraction position target.
Proof.
  unfold spec_attraction.
  destruct (vector_eq_dec target position) as [Heq | Hneq].
  - subst target.
    replace (position - position)%V with vzero
      by (apply vector_eq; simpl; ring).
    rewrite normalized_vzero. destruct (vlength vzero >? 0); reflexivity.
  - destruct (vlength (target - position) >? 0) eqn:H; [ reflexivity | ].
    exfalso. apply Rgtb_false in H. apply H. apply vlength_pos.
    intros Hz. apply Hneq.
    apply (f_equal x) in Hz as Hx. apply (f_equal y) in Hz as Hy.
    apply (f_equal z) in Hz as Hzz. simpl in Hx, Hy, Hzz.
    apply vector_eq; lra.
Qed.

Lemma repel_spec (position repulsion : Vector) (c : Cloud) :
  repel position repulsion c
  = if spec_repels position DRONE_AVOIDANCE_RADIUS c
    then (repulsion + spec_contribution position DRONE_AVOIDANCE_RADIUS c)%V
    else repulsion.
Proof.
  unfold repel, spec_repels, spec_contribution, planar_distance, planar.
  rewrite (vlength_sub_sym
             (mkVector (x (cloud_location c)) (y (cloud_location c)) 0)).
  reflexivity.
Qed.

Lemma repulsion_spec (position : Vector) (cs : list Cloud) (acc : Vector) :
  fold_left (repel position) cs acc
  = (acc + spec_repulsion position DRONE_AVOIDANCE_RADIUS cs)%V.
Proof.
  revert acc. unfold spec_repulsion.
  induction cs as [ | c cs IH]; intros acc; simpl.
  - symmetry. apply vadd_vzero_r.
  - rewrite IH, repel_spec.
    destruct (spec_repels position DRONE_AVOIDANCE_RADIUS c); simpl.
    + symmetry. apply vadd_assoc.
    + reflexivity.
Qed.

Lemma movement_spec (m : Vector) :
  (if vlength m >? 0 then normalized m else m)
  = if vector_eq_dec m vzero then vzero else normalized m.
Proof.
  destruct (vector_eq_dec m vzero) as [Heq | Hneq].
  - subst m. rewrite normalized_vzero.
    destruct (vlength vzero >? 0); reflexivity.
  - destruct (vlength m >? 0) eqn:H; [ reflexivity | ].
    exfalso. apply Rgtb_false in H. apply H. apply vlength_pos. exact Hneq.
Qed.

(** [move_drone] places the drone where the four steps of the
    specification place it. *)
Lemma move_drone_spec (drone : Drone) (target : Vector) (cs : list Cloud) :
  drone_location (move_drone drone target cs)
  = spec_advance_drone (drone_location drone) target cs
      DRONE_SPEED DRONE_AVOIDANCE_RADIUS DRONE_ALTITUDE.
Proof.
  unfold move_drone, spec_advance_drone, spec_movement. simpl.
  rewrite attraction_spec, repulsion_spec, vadd_vzero_l, movement_spec.
  reflexivity.
Qed.

(** ** The loop of [update_scene] *)

Lemma choice_returned {A : Type} (l : list A) (g : Random) :
  l <> [] ->
  exists a g', choice l g = (Returned a, g') /\ In a l.
Proof.
  destruct l as [ | a l]; intros Hl; [ contradiction | ].
  unfold choice. eexists. eexists. split; [ reflexivity | ].
  apply nth_In. apply Nat.mod_upper_bound. simpl. discriminate.
Qed.

Lemma choice_empty {A : Type} (g : Random) :
  choice (@nil A) g = (Raised IndexError, g).
Proof. reflexivity. Qed.

Lemma hospital_neqb_true (h h' : Hospital) :
  hospital_neqb h h' = true <-> hospital_id h <> hospital_id h'.
Proof.
  unfold hospital_neqb. rewrite negb_true_iff, Nat.eqb_neq. tauto.
Qed.

(** With two distinct hospitals, some hospital differs from any given
    one. *)
Lemma other_hospital_exists (hs : list Hospital) (cur : Hospital) :
  two_hospitals hs ->
  filter (fun h => hospital_neqb h cur) hs <> [].
Proof.
  intros [Hnd Hlen].
  destruct hs as [ | h1 [ | h2 rest]]; simpl in Hlen; try lia.
  simpl in Hnd. inversion Hnd as [ | ? ? Hnotin _]; subst.
  assert (H12 : hospital_id h1 <> hospital_id h2).
  { intros Heq. apply Hnotin. left. symmetry. exact Heq. }
  simpl.
  destruct (hospital_neqb h1 cur) eqn:E1; [ discriminate | ].
  destruct (hospital_neqb h2 cur) eqn:E2; [ discriminate | ].
  exfalso. unfold hospital_neqb in E1, E2.
  apply negb_false_iff, Nat.eqb_eq in E1.
  apply negb_false_iff, Nat.eqb_eq in E2. congruence.
Qed.

(** A drone that has not reached its target is moved by [move_drone]; its
    target and its hospital stay. *)
Lemma update_drone_moving (hs : list Hospital) (cs : list Cloud)
  (e : DroneEntry) (g : Random) :
  target_reached e = false ->
  update_drone hs cs e g
  = (Returned (move_drone (entry_drone e) (entry_target e) cs,
               entry_target e, entry_hospital e), g).
Proof.
  intros H. destruct e as [[drone target] current_hospital].
  unfold update_drone. rewrite H. reflexivity.
Qed.

(** A drone that has reached its target: what the entry holds when the
    choice of the new hospital returns. *)
Lemma update_drone_reached (hs : list Hospital) (cs : list Cloud)
  (e e' : DroneEntry) (g g' : Random) :
  target_reached e = true ->
  update_drone hs cs e g = (Returned e', g') ->
  entry_drone e'
  = mkDrone (set_z (hospital_location (entry_hospital e)) DRONE_ALTITUDE)
  /\ entry_target e'
     = set_z (hospital_location (entry_hospital e')) DRONE_ALTITUDE
  /\ In (entry_hospital e') hs
  /\ hospital_id (entry_hospital e') <> hospital_id (entry_hospital e).
Proof.
  intros H Hup. destruct e as [[drone target] current_hospital].
  unfold update_drone in Hup. rewrite H in Hup. unfold bind in Hup.
  destruct (filter (fun h => hospital_neqb h current_hospital) hs)
    as [ | h l] eqn:Hf.
  - simpl in Hup. discriminate.
  - destruct (choice_returned (h :: l) g) as (a & g1 & Hc & Hin);
      [ discriminate | ].
    rewrite Hc in Hup. unfold ret in Hup. inversion Hup; subst e' g'.
    rewrite <- Hf in Hin. apply filter_In in Hin. destruct Hin as [Hin Hne].
    apply hospital_neqb_true in Hne.
    unfold entry_drone, entry_target, entry_hospital; simpl. auto.
Qed.

(** With two distinct hospitals the body of the loop never raises. *)
Lemma update_drone_returns (hs : list Hospital) (cs : list Cloud)
  (e : DroneEntry) (g : Random) :
  two_hospitals hs ->
  exists e' g', update_drone hs cs e g = (Returned e', g').
Proof.
  intros Hhs. destruct (target_reached e) eqn:H.
  - destruct e as [[drone target] current_hospital].
    unfold update_drone. rewrite H. unfold bind.
    destruct (choice_returned
                (filter (fun h => hospital_neqb h current_hospital) hs) g
                (other_hospital_exists hs current_hospital Hhs))
      as (a & g1 & Hc & _).
    rewrite Hc. unfold ret. eexists. eexists. reflexivity.
  - rewrite update_drone_moving by exact H. eexists. eexists. reflexivity.
Qed.

(** With two distinct hospitals the loop passes over every entry: no
    exception leaves it, and the entry at [idx] afterwards is what the body
    returned for the entry at [idx] before. *)
Lemma update_drones_nth (hs : list Hospital) (cs : list Cloud)
  (ds : list DroneEntry) (g : Random) (idx : nat) (e : DroneEntry) :
  two_hospitals hs ->
  nth_error ds idx = Some e ->
  snd (fst (update_drones hs cs ds g)) = None /\
  exists e' gi gi',
    update_drone hs cs e gi = (Returned e', gi') /\
    nth_error (fst (fst (update_drones hs cs ds g))) idx = Some e'.
Proof.
  intros Hhs. revert g idx.
  assert (Hnone : forall l g0, snd (fst (update_drones hs cs l g0)) = None).
  { intros l. induction l as [ | d l' IH]; intros g0; simpl;
      [ reflexivity | ].
    destruct (update_drone_returns hs cs d g0 Hhs) as (d' & g1 & Hd).
    rewrite Hd. specialize (IH g1).
    destruct (update_drones hs cs l' g1) as [[rest' r] g2]. exact IH. }
  induction ds as [ | d ds' IH]; intros g idx Hn.
  - destruct idx; discriminate.
  - split; [ apply Hnone | ].
    simpl. destruct (update_drone_returns hs cs d g Hhs) as (d' & g1 & Hd).
    rewrite Hd.
    destruct idx as [ | idx'].
    + simpl in Hn. inversion Hn; subst d.
      exists d', g, g1. split; [ exact Hd | ].
      destruct (update_drones hs cs ds' g1) as [[rest' r] g2]. reflexivity.
    + simpl in Hn. destruct (IH g1 idx' Hn) as (_ & e' & gi & gi' & He & Hnth).
      exists e', gi, gi'. split; [ exact He | ].
      destruct (update_drones hs cs ds' g1) as [[rest' r] g2]. exact Hnth.
Qed.

Lemma update_scene_clouds (s : Scene) (g : Random) :
  clouds (scene_after (update_scene s g))
  = move_clouds (hospitals s) (clouds s).
Proof.
  unfold update_scene, scene_after.
  destruct (update_drones (hospitals s)
              (move_clouds (hospitals s) (clouds s)) (drones s) g)
    as [[ds r] g']. reflexivity.
Qed.

Lemma update_scene_hospitals (s : Scene) (g : Random) :
  hospitals (scene_after (update_scene s g)) = hospitals s.
Proof.
  unfold update_scene, scene_after.
  destruct (update_drones (hospitals s)
              (move_clouds (hospitals s) (clouds s)) (drones s) g)
    as [[ds r] g']. reflexivity.
Qed.

Lemma update_scene_drones (s : Scene) (g : Random) :
  (drones (scene_after (update_scene s g)),
   exception_of (update_scene s g), random_after (update_scene s g))
  = update_drones (hospitals s) (clouds (scene_after (update_scene s g)))
      (drones s) g.
Proof.
  rewrite update_scene_clouds.
  unfold update_scene, scene_after, exception_of, random_after.
  destruct (update_drones (hospitals s)
              (move_clouds (hospitals s) (clouds s)) (drones s) g)
    as [[ds r] g']. reflexivity.
Qed.

(** The entry at [idx] after one call of the handler, with two distinct
    hospitals. *)
Lemma update_scene_nth (s : Scene) (g : Random) (idx : nat) (e : DroneEntry) :
  two_hospitals (hospitals s) ->
  nth_error (drones s) idx = Some e ->
  exception_of (update_scene s g) = None /\
  exists e' gi gi',
    update_drone (hospitals s) (clouds (scene_after (update_scene s g))) e gi
    = (Returned e', gi') /\
    nth_error (drones (scene_after (update_scene s g))) idx = Some e'.
Proof.
  intros Hhs Hn.
  pose proof (update_scene_drones s g) as Hd.
  destruct (update_drones_nth (hospitals s)
              (clouds (scene_after (update_scene s g))) (drones s) g idx e
              Hhs Hn) as (Hnone & e' & gi & gi' & He & Hnth).
  rewrite <- Hd in Hnone, Hnth. simpl in Hnone, Hnth.
  split; [ exact Hnone | ]. exists e', gi, gi'. auto.
Qed.

(** ** Arrival and retargeting *)

(** C1.  With the hospitals the set-up creates (distinct, at least two),
    one call of [update_scene] passes over every drone without an
    exception.  A drone whose distance to its target is below
    [DRONE_SPEED * 2] is placed at its stored hospital's position with z
    set to [DRONE_ALTITUDE], and its target becomes the position, z set to
    [DRONE_ALTITUDE], of a hospital of the list other than the stored one;
    [move_drone] is not applied to it.  Any other drone is moved by
    [move_drone], and its stored hospital stays. *)
Theorem update_scene_retargets (s : Scene) (g : Random) (idx : nat)
  (e : DroneEntry) :
  two_hospitals (hospitals s) ->
  nth_error (drones s) idx = Some e ->
  let after := scene_after (update_scene s g) in
  let distance := vlength (drone_location (entry_drone e) - entry_target e) in
  exception_of (update_scene s g) = None /\
  exists e',
    nth_error (drones after) idx = Some e' /\
    (distance < DRONE_SPEED * 2 ->
     drone_location (entry_drone e')
     = set_z (hospital_location (entry_hospital e)) DRONE_ALTITUDE /\
     exists new_hospital,
       In new_hospital (hospitals s) /\
       hospital_id new_hospital <> hospital_id (entry_hospital e) /\
       entry_target e'
       = set_z (hospital_location new_hospital) DRONE_ALTITUDE) /\
    (~ distance < DRONE_SPEED * 2 ->
     entry_drone e'
     = move_drone (entry_drone e) (entry_target e) (clouds after) /\
     entry_target e' = entry_target e /\
     entry_hospital e' = entry_hospital e).
Proof.
  intros Hhs Hn after distance.
  destruct (update_scene_nth s g idx e Hhs Hn)
    as (Hnone & e' & gi & gi' & He & Hnth).
  split; [ exact Hnone | ]. exists e'. split; [ exact Hnth | ]. split.
  - intros Hd. apply Rltb_true in Hd.
    destruct (update_drone_reached _ _ _ _ _ _ Hd He)
      as (Hdrone & Htarget & Hin & Hne).
    split; [ rewrite Hdrone; reflexivity | ].
    exists (entry_hospital e'). auto.
  - intros Hd. apply Rltb_false in Hd.
    rewrite (update_drone_moving _ _ _ _ Hd) in He.
    inversion He; subst e'. auto.
Qed.

(** C3, as amended.  With the hospitals the set-up creates, a drone that
    has not reached its target is placed, by the same call of
    [update_scene], where the four steps of the specification place it: the
    position plus the movement times [DRONE_SPEED], z set to
    [DRONE_ALTITUDE]; the movement is the normalized sum (zero when the sum
    is zero) of the attraction and the repulsion; the attraction is the
    normalized vector to the target, and zero when the target is the
    position; the repulsion is the sum, over the clouds at planar distance
    below [DRONE_AVOIDANCE_RADIUS], of the normalized planar vector from
    the cloud to the drone times
    [1.5 * (DRONE_AVOIDANCE_RADIUS - distance) / DRONE_AVOIDANCE_RADIUS].
    The attraction is a unit vector when the target is not the position.
    The normalized vector from a cloud is the unit vector from the cloud to
    the drone when the planar distance to the cloud is not zero; when it is
    zero there is no such unit vector, the normalized vector is the zero
    vector, and the cloud, though in range, adds the zero vector. *)
Theorem update_scene_moves_as_specified (s : Scene) (g : Random) (idx : nat)
  (e : DroneEntry) :
  two_hospitals (hospitals s) ->
  nth_error (drones s) idx = Some e ->
  ~ vlength (drone_location (entry_drone e) - entry_target e)
    < DRONE_SPEED * 2 ->
  let after := scene_after (update_scene s g) in
  let position := drone_location (entry_drone e) in
  (exists e',
      nth_error (drones after) idx = Some e' /\
      drone_location (entry_drone e')
      = spec_advance_drone position (entry_target e) (clouds after)
          DRONE_SPEED DRONE_AVOIDANCE_RADIUS DRONE_ALTITUDE) /\
  (entry_target e <> position ->
   vlength (spec_attraction position (entry_target e)) = 1) /\
  (forall c,
      0 < planar_distance position (cloud_location c) ->
      vlength (normalized (planar position - planar (cloud_location c))) = 1)
  /\
  (forall c,
      planar_distance position (cloud_location c) = 0 ->
      normalized (planar position - planar (cloud_location c)) = vzero /\
      spec_contribution position DRONE_AVOIDANCE_RADIUS c = vzero).
Proof.
  intros Hhs Hn Hd after position. split; [ | split; [ | split ] ].
  - destruct (update_scene_nth s g idx e Hhs Hn)
      as (_ & e' & gi & gi' & He & Hnth).
    exists e'. split; [ exact Hnth | ].
    apply Rltb_false in Hd.
    rewrite (update_drone_moving _ _ _ _ Hd) in He.
    inversion He; subst e'. apply move_drone_spec.
  - intros Ht. unfold spec_attraction.
    destruct (vector_eq_dec (entry_target e) position) as [E | E];
      [ contradiction | ].
    apply vlength_normalized. intros Hz. apply E.
    apply (f_equal x) in Hz as Hx. apply (f_equal y) in Hz as Hy.
    apply (f_equal z) in Hz as Hzz. simpl in Hx, Hy, Hzz.
    apply vector_eq; lra.
  - intros c Hc. apply vlength_normalized.
    apply vlength_pos. exact Hc.
  - intros c Hc.
    assert (H0 : (planar position - planar (cloud_location c))%V = vzero)
      by (apply vlength_zero_inv; exact Hc).
    unfold spec_contribution. rewrite H0, normalized_vzero.
    split; [ reflexivity | apply vector_eq; simpl; ring ].
Qed.

(** C4, as amended.  The hospital stored in a drone's entry is the one
    excluded when the next target is picked, and on arrival the drone is
    placed at that stored hospital's position, z set to [DRONE_ALTITUDE].
    The entry then stores the newly picked hospital, whose position at
    [DRONE_ALTITUDE] is the new target: after an arrival the stored
    hospital is the hospital the drone flies to, and it stays so until the
    next arrival. *)
Theorem stored_hospital_is_next_target (s : Scene) (g : Random) (idx : nat)
  (e : DroneEntry) :
  two_hospitals (hospitals s) ->
  nth_error (drones s) idx = Some e ->
  let after := scene_after (update_scene s g) in
  exists e',
    nth_error (drones after) idx = Some e' /\
    (target_reached e = true ->
     In (entry_hospital e') (hospitals s) /\
     hospital_id (entry_hospital e') <> hospital_id (entry_hospital e) /\
     drone_location (entry_drone e')
     = set_z (hospital_location (entry_hospital e)) DRONE_ALTITUDE /\
     entry_target e'
     = set_z (hospital_location (entry_hospital e')) DRONE_ALTITUDE) /\
    (target_reached e = false ->
     entry_hospital e' = entry_hospital e /\
     entry_target e' = entry_target e) /\
    (entry_target e
     = set_z (hospital_location (entry_hospital e)) DRONE_ALTITUDE ->
     entry_target e'
     = set_z (hospital_location (entry_hospital e')) DRONE_ALTITUDE).
Proof.
  intros Hhs Hn after.
  destruct (update_scene_nth s g idx e Hhs Hn)
    as (_ & e' & gi & gi' & He & Hnth).
  exists e'. split; [ exact Hnth | ].
  destruct (target_reached e) eqn:Hd.
  - destruct (update_drone_reached _ _ _ _ _ _ Hd He)
      as (Hdrone & Htarget & Hin & Hne).
    split; [ | split ]; intros; try discriminate; auto.
    rewrite Hdrone. auto.
  - rewrite (update_drone_moving _ _ _ _ Hd) in He.
    inversion He; subst e'.
    split; [ | split ]; intros; try discriminate; auto.
Qed.

(** C5.  One call of [update_scene] moves all the clouds first: the clouds
    of the scene afterwards are the moved clouds, and a drone that
    [move_drone] moves in that call is moved against those moved clouds. *)
Theorem update_scene_clouds_first (s : Scene) (g : Random) (idx : nat)
  (e : DroneEntry) :
  two_hospitals (hospitals s) ->
  nth_error (drones s) idx = Some e ->
  target_reached e = false ->
  let after := scene_after (update_scene s g) in
  clouds after = move_clouds (hospitals s) (clouds s) /\
  exists e',
    nth_error (drones after) idx = Some e' /\
    entry_drone e'
    = move_drone (entry_drone e) (entry_target e)
        (move_clouds (hospitals s) (clouds s)).
Proof.
  intros Hhs Hn Hd after.
  split; [ apply update_scene_clouds | ].
  destruct (update_scene_nth s g idx e Hhs Hn)
    as (_ & e' & gi & gi' & He & Hnth).
  exists e'. split; [ exact Hnth | ].
  rewrite (update_drone_moving _ _ _ _ Hd) in He.
  inversion He; subst e'. unfold entry_drone at 1; simpl.
  rewrite update_scene_clouds. reflexivity.
Qed.

(** ** Lengths against a bound, for concrete vectors *)

Lemma vlength_lt (a : Vector) (r : R) :
  0 < r -> x a * x a + y a * y a + z a * z a < r * r -> vlength a < r.
Proof.
  intros Hr H. unfold vlength.
  rewrite <- (sqrt_square r) by lra.
  apply sqrt_lt_1_alt. split; [ apply sum_squares_nonneg | exact H ].
Qed.

Lemma vlength_not_lt (a : Vector) (r : R) :
  0 <= r -> r * r <= x a * x a + y a * y a + z a * z a -> ~ vlength a < r.
Proof.
  intros Hr H. apply Rle_not_lt. unfold vlength.
  rewrite <- (sqrt_square r) by lra.
  apply sqrt_le_1_alt. exact H.
Qed.

Ltac settings :=
  unfold CITY_BOUNDARY_X, CITY_BOUNDARY_Y, CITY_GRID_SIZE, BUILDING_SPACING,
    DRONE_AVOIDANCE_RADIUS, DRONE_SPEED, DRONE_ALTITUDE, CLOUD_SPEED,
    CLOUD_ALTITUDE, CLOUD_RADIUS, HOSPITAL_RADIUS, HOSPITAL_HEIGHT in *.

(** Decides [vlength a < r] and its negation for a concrete vector. *)
Ltac length_bound :=
  first
    [ apply vlength_lt; simpl; settings; lra
    | apply vlength_not_lt; simpl; settings; lra ].

Lemma two_hospitals_A_B : two_hospitals [hospital_A; hospital_B].
Proof.
  split; [ | simpl; lia ].
  simpl. constructor; [ | constructor; [ | constructor ] ]; simpl;
    intuition lia.
Qed.

Lemma arriving_entry_close :
  vlength (drone_location (entry_drone arriving_entry)
           - entry_target arriving_entry) < DRONE_SPEED * 2.
Proof. length_bound. Qed.

Lemma leaving_entry_far :
  ~ vlength (drone_location (entry_drone leaving_entry)
             - entry_target leaving_entry) < DRONE_SPEED * 2.
Proof. length_bound. Qed.

(** The scenario of the specification: the drone that reaches B. *)
Lemma update_scene_retargets_witness :
  two_hospitals (hospitals arrival_scene) /\
  exception_of (update_scene arrival_scene steady) = None /\
  exists e',
    nth_error (drones (scene_after (update_scene arrival_scene steady))) 0
    = Some e' /\
    drone_location (entry_drone e')
    = set_z (hospital_location hospital_A) DRONE_ALTITUDE /\
    exists new_hospital,
      In new_hospital (hospitals arrival_scene) /\
      hospital_id new_hospital <> hospital_id hospital_A /\
      entry_target e'
      = set_z (hospital_location new_hospital) DRONE_ALTITUDE.
Proof.
  split; [ exact two_hospitals_A_B | ].
  destruct (update_scene_retargets arrival_scene steady 0 arriving_entry
              two_hospitals_A_B eq_refl) as (Hnone & e' & Hn & Hclose & _).
  split; [ exact Hnone | ]. exists e'. split; [ exact Hn | ].
  exact (Hclose arriving_entry_close).
Defined.

(** The drone that has just left A for B, with the cloud drifting south. *)
Lemma update_scene_moves_as_specified_witness :
  two_hospitals (hospitals leaving_scene) /\
  exists e',
    nth_error (drones (scene_after (update_scene leaving_scene steady))) 0
    = Some e' /\
    drone_location (entry_drone e')
    = spec_advance_drone (mkVector 0 0 DRONE_ALTITUDE)
        (mkVector 10 0 DRONE_ALTITUDE)
        (clouds (scene_after (update_scene leaving_scene steady)))
        DRONE_SPEED DRONE_AVOIDANCE_RADIUS DRONE_ALTITUDE.
Proof.
  split; [ exact two_hospitals_A_B | ].
  exact (proj1 (update_scene_moves_as_specified leaving_scene steady 0
                  leaving_entry two_hospitals_A_B eq_refl leaving_entry_far)).
Defined.

(** ** The scenario of the specification, evaluated *)

Lemma update_drone_reached_eq (hs : list Hospital) (cs : list Cloud)
  (e : DroneEntry) (g : Random) :
  target_reached e = true ->
  update_drone hs cs e g
  = bind (choice (filter (fun h => hospital_neqb h (entry_hospital e)) hs))
         (fun new_hospital =>
            ret (mkDrone (set_z (hospital_location (entry_hospital e))
                                DRONE_ALTITUDE),
                 set_z (hospital_location new_hospital) DRONE_ALTITUDE,
                 new_hospital)) g.
Proof.
  intros H. destruct e as [[drone target] current_hospital].
  unfold update_drone. rewrite H. reflexivity.
Qed.

Lemma arriving_entry_reached : target_reached arriving_entry = true.
Proof. apply Rltb_true. exact arriving_entry_close. Qed.

Lemma leaving_entry_not_reached : target_reached leaving_entry = false.
Proof. apply Rltb_false. exact leaving_entry_far. Qed.

(** The drone that reaches B is put back at A, and its entry now stores B,
    which is also its new target. *)
Lemma arrival_scene_drones :
  drones (scene_after (update_scene arrival_scene steady))
  = [(mkDrone (set_z (hospital_location hospital_A) DRONE_ALTITUDE),
      set_z (hospital_location hospital_B) DRONE_ALTITUDE, hospital_B)].
Proof.
  unfold update_scene, scene_after, arrival_scene.
  cbn [hospitals clouds drones update_drones].
  rewrite update_drone_reached_eq by exact arriving_entry_reached.
  reflexivity.
Qed.

(** C4, as stated, fails.  In the scenario the drone left from A, and the
    call in which it reaches B puts it at A's position, from where it
    departs again; the hospital its entry stores afterwards is B. *)
Lemma stored_hospital_is_not_departure :
  exists e',
    nth_error (drones (scene_after (update_scene arrival_scene steady))) 0
    = Some e' /\
    drone_location (entry_drone e')
    = set_z (hospital_location hospital_A) DRONE_ALTITUDE /\
    departed_after arriving_entry (entry_hospital arriving_entry)
    = hospital_A /\
    entry_hospital e' = hospital_B /\
    hospital_id (entry_hospital e')
    <> hospital_id
         (departed_after arriving_entry (entry_hospital arriving_entry)).
Proof.
  rewrite arrival_scene_drones. eexists. split; [ reflexivity | ].
  unfold departed_after. rewrite arriving_entry_reached.
  repeat split. simpl. discriminate.
Qed.

(** The scenario of the specification: the entry stores the hospital the
    drone flies to next. *)
Lemma stored_hospital_is_next_target_witness :
  two_hospitals (hospitals arrival_scene) /\
  exists e',
    nth_error (drones (scene_after (update_scene arrival_scene steady))) 0
    = Some e' /\
    In (entry_hospital e') (hospitals arrival_scene) /\
    hospital_id (entry_hospital e') <> hospital_id hospital_A /\
    drone_location (entry_drone e')
    = set_z (hospital_location hospital_A) DRONE_ALTITUDE /\
    entry_target e'
    = set_z (hospital_location (entry_hospital e')) DRONE_ALTITUDE.
Proof.
  split; [ exact two_hospitals_A_B | ].
  destruct (stored_hospital_is_next_target arrival_scene steady 0
              arriving_entry two_hospitals_A_B eq_refl)
    as (e' & Hn & Hreached & _).
  exists e'. split; [ exact Hn | ].
  exact (Hreached arriving_entry_reached).
Defined.

(** The drone that has just left A is moved against the moved cloud. *)
Lemma update_scene_clouds_first_witness :
  two_hospitals (hospitals leaving_scene) /\
  target_reached leaving_entry = false /\
  clouds (scene_after (update_scene leaving_scene steady))
  = move_clouds [hospital_A; hospital_B] [south_cloud] /\
  exists e',
    nth_error (drones (scene_after (update_scene leaving_scene steady))) 0
    = Some e' /\
    entry_drone e'
    = move_drone (entry_drone leaving_entry) (entry_target leaving_entry)
        (move_clouds [hospital_A; hospital_B] [south_cloud]).
Proof.
  split; [ exact two_hospitals_A_B | ].
  split; [ exact leaving_entry_not_reached | ].
  exact (update_scene_clouds_first leaving_scene steady 0 leaving_entry
           two_hospitals_A_B eq_refl leaving_entry_not_reached).
Defined.

(** ** Frames *)

Lemma run_frames_succ (n : nat) (s : Scene) (g : Random) :
  run_frames (S n) s g
  = update_scene_frame (run_frames n s g).
Proof.
  revert s g. induction n as [ | n IH]; intros s g.
  - reflexivity.
  - change (run_frames (S (S n)) s g)
      with (run_frames (S n) (scene_after (update_scene s g))
                       (random_after (update_scene s g))).
    rewrite IH. reflexivity.
Qed.

Lemma run_frames_hospitals (n : nat) (s : Scene) (g : Random) :
  hospitals (fst (run_frames n s g)) = hospitals s.
Proof.
  revert s g. induction n as [ | n IH]; intros s g; simpl.
  - reflexivity.
  - rewrite IH. apply update_scene_hospitals.
Qed.

(** The clouds of a frame are the moved clouds of the frame before. *)
Lemma run_frames_clouds_succ (n : nat) (s : Scene) (g : Random) :
  clouds (fst (run_frames (S n) s g))
  = move_clouds (hospitals s) (clouds (fst (run_frames n s g))).
Proof.
  rewrite run_frames_succ. unfold update_scene_frame.
  destruct (run_frames n s g) as [sn gn] eqn:E. simpl.
  change (fst (fst (update_scene sn gn)))
    with (scene_after (update_scene sn gn)).
  rewrite update_scene_clouds.
  replace (hospitals sn) with (hospitals (fst (run_frames n s g)))
    by (rewrite E; reflexivity).
  rewrite run_frames_hospitals. reflexivity.
Qed.

(** What every call of [move_cloud] keeps, every frame keeps, cloud by
    cloud. *)
Lemma run_frames_cloud_invariant (P : Cloud -> Prop) :
  (forall hs c, P c -> P (move_cloud hs c)) ->
  forall n s g i c,
    nth_error (clouds s) i = Some c -> P c ->
    exists c', nth_error (clouds (fst (run_frames n s g))) i = Some c' /\ P c'.
Proof.
  intros Hkeep n. induction n as [ | n IH]; intros s g i c Hn Hc.
  - exists c. auto.
  - destruct (IH s g i c Hn Hc) as (c' & Hn' & Hc').
    exists (move_cloud (hospitals s) c'). split.
    + rewrite run_frames_clouds_succ. apply move_clouds_nth. exact Hn'.
    + apply Hkeep. exact Hc'.
Qed.

(** After the loop of [update_scene], the entry at [idx] is the entry of
    before, or what the body of the loop returned for it. *)
Lemma update_drones_entry (hs : list Hospital) (cs : list Cloud)
  (ds : list DroneEntry) (g : Random) (idx : nat) (e : DroneEntry) :
  nth_error ds idx = Some e ->
  exists e',
    nth_error (fst (fst (update_drones hs cs ds g))) idx = Some e' /\
    (e' = e \/
     exists gi gi', update_drone hs cs e gi = (Returned e', gi')).
Proof.
  revert g idx. induction ds as [ | d ds' IH]; intros g idx Hn.
  - destruct idx; discriminate.
  - simpl. destruct (update_drone hs cs d g) as [[d' | exn] g1] eqn:Hd.
    + destruct idx as [ | idx']; simpl in Hn.
      * inversion Hn; subst d. exists d'.
        destruct (update_drones hs cs ds' g1) as [[rest' r] g2]; simpl.
        split; [ reflexivity | ]. right. exists g, g1. exact Hd.
      * destruct (IH g1 idx' Hn) as (e' & Hnth & He').
        exists e'.
        destruct (update_drones hs cs ds' g1) as [[rest' r] g2]; simpl.
        auto.
    + exists e. split; [ exact Hn | ]. left. reflexivity.
Qed.

Lemma update_scene_entry (s : Scene) (g : Random) (idx : nat)
  (e : DroneEntry) :
  nth_error (drones s) idx = Some e ->
  exists e',
    nth_error (drones (scene_after (update_scene s g))) idx = Some e' /\
    (e' = e \/
     exists cs gi gi',
       update_drone (hospitals s) cs e gi = (Returned e', gi')).
Proof.
  intros Hn. pose proof (update_scene_drones s g) as Hd.
  destruct (update_drones_entry (hospitals s)
              (clouds (scene_after (update_scene s g))) (drones s) g idx e Hn)
    as (e' & Hnth & He').
  rewrite <- Hd in Hnth. simpl in Hnth.
  exists e'. split; [ exact Hnth | ].
  destruct He' as [He' | (gi & gi' & He')]; [ left; exact He' | ].
  right. eexists. eexists. eexists. exact He'.
Qed.

(** What the body of the loop keeps, every frame keeps, drone by drone,
    whether or not an exception leaves a frame. *)
Lemma run_frames_drone_invariant (P : DroneEntry -> Prop) :
  (forall hs cs e gi e' gi',
      update_drone hs cs e gi = (Returned e', gi') -> P e -> P e') ->
  forall n s g idx e,
    nth_error (drones s) idx = Some e -> P e ->
    exists e',
      nth_error (drones (fst (run_frames n s g))) idx = Some e' /\ P e'.
Proof.
  intros Hkeep n. induction n as [ | n IH]; intros s g idx e Hn He.
  - exists e. auto.
  - simpl.
    destruct (update_scene_entry s g idx e Hn) as (e1 & Hn1 & H1).
    apply (IH _ _ idx e1 Hn1).
    destruct H1 as [H1 | (cs & gi & gi' & H1)].
    + subst e1. exact He.
    + apply (Hkeep _ _ _ _ _ _ H1 He).
Qed.

(** ** Altitude *)

Lemma move_cloud_z (hs : list Hospital) (c : Cloud) :
  z (cloud_direction (move_cloud hs c)) = z (cloud_direction c) /\
  z (cloud_location (move_cloud hs c))
  = z (cloud_location c) + z (cloud_direction c) * CLOUD_SPEED.
Proof.
  unfold move_cloud.
  destruct (_ || _); destruct (_ || _); simpl; split; reflexivity.
Qed.

Lemma update_drone_z (hs : list Hospital) (cs : list Cloud)
  (e e' : DroneEntry) (g g' : Random) :
  update_drone hs cs e g = (Returned e', g') ->
  z (drone_location (entry_drone e')) = DRONE_ALTITUDE.
Proof.
  intros He. destruct (target_reached e) eqn:Hd.
  - destruct (update_drone_reached _ _ _ _ _ _ Hd He) as (Hdrone & _).
    rewrite Hdrone. reflexivity.
  - rewrite (update_drone_moving _ _ _ _ Hd) in He.
    inversion He; subst e'. reflexivity.
Qed.

(** C6.  A cloud created by the set-up has z equal to [CLOUD_ALTITUDE] and
    a heading in the plane (the third component of the heading is the
    literal [0] of line 231); a drone is created at [DRONE_ALTITUDE], which
    is [CLOUD_ALTITUDE].  After any number of frames the z of the position
    of such a cloud is still [CLOUD_ALTITUDE], and the z of the position of
    such a drone is still [DRONE_ALTITUDE]. *)
Theorem altitude_is_kept (n : nat) (s : Scene) (g : Random) :
  DRONE_ALTITUDE = CLOUD_ALTITUDE /\
  (forall i c,
      nth_error (clouds s) i = Some c ->
      z (cloud_location c) = CLOUD_ALTITUDE ->
      z (cloud_direction c) = 0 ->
      exists c',
        nth_error (clouds (fst (run_frames n s g))) i = Some c' /\
        z (cloud_location c') = CLOUD_ALTITUDE) /\
  (forall idx e,
      nth_error (drones s) idx = Some e ->
      z (drone_location (entry_drone e)) = DRONE_ALTITUDE ->
      exists e',
        nth_error (drones (fst (run_frames n s g))) idx = Some e' /\
        z (drone_location (entry_drone e')) = DRONE_ALTITUDE).
Proof.
  split; [ reflexivity | ]. split.
  - intros i c Hn Hz Hd.
    destruct (run_frames_cloud_invariant
                (fun c => z (cloud_location c) = CLOUD_ALTITUDE
                          /\ z (cloud_direction c) = 0)) with
      (n := n) (s := s) (g := g) (i := i) (c := c) as (c' & Hn' & Hz' & _);
      auto.
    + intros hs c0 [H1 H2]. destruct (move_cloud_z hs c0) as [Hd' Hl'].
      rewrite Hd', Hl', H1, H2. split; [ ring | reflexivity ].
    + exists c'. auto.
  - intros idx e Hn Hz.
    apply (run_frames_drone_invariant
             (fun e => z (drone_location (entry_drone e)) = DRONE_ALTITUDE))
      with (e := e); auto.
    intros hs cs e0 gi e' gi' He _. apply (update_drone_z _ _ _ _ _ _ He).
Qed.

(** ** What the set-up establishes *)

Lemma place_cloud_z (fuel : nat) (cs : list Cloud) (hp : list Vector)
  (g g' : Random) (pos : Vector) :
  place_cloud fuel cs hp g = Some (pos, g') -> z pos = CLOUD_ALTITUDE.
Proof.
  revert g. induction fuel as [ | fuel IH]; intros g H;
    cbn [place_cloud] in H.
  - discriminate.
  - destruct (uniform (- CITY_BOUNDARY_X) CITY_BOUNDARY_X g) as [px g1].
    destruct (uniform (- CITY_BOUNDARY_Y) CITY_BOUNDARY_Y g1) as [py g2].
    destruct (cloud_fits _ cs hp).
    + inversion H; subst. reflexivity.
    + apply (IH _ H).
Qed.

Lemma normalized_planar (dx dy : R) : z (normalized (mkVector dx dy 0)) = 0.
Proof.
  unfold normalized. destruct (_ >? _); simpl; [ | reflexivity ].
  unfold Rdiv. ring.
Qed.

Lemma cloud_heading_z (g : Random) : z (fst (cloud_heading g)) = 0.
Proof.
  unfold cloud_heading.
  destruct (uniform (-1) 1 g) as [dx g1].
  destruct (uniform (-1) 1 g1) as [dy g2]. simpl.
  apply normalized_planar.
Qed.

(** Every cloud the set-up creates is at [CLOUD_ALTITUDE], with a heading
    in the plane. *)
Lemma create_clouds_altitude (fuel n : nat) (cs cs' : list Cloud)
  (hp : list Vector) (g g' : Random) :
  create_clouds fuel n cs hp g = Some (cs', g') ->
  Forall (fun c => z (cloud_location c) = CLOUD_ALTITUDE
                   /\ z (cloud_direction c) = 0) cs ->
  Forall (fun c => z (cloud_location c) = CLOUD_ALTITUDE
                   /\ z (cloud_direction c) = 0) cs'.
Proof.
  revert cs g. induction n as [ | n IH]; intros cs g H Hcs;
    cbn [create_clouds] in H.
  - inversion H; subst. exact Hcs.
  - destruct (place_cloud fuel cs hp g) as [[pos g1] | ] eqn:Hp;
      [ | discriminate ].
    pose proof (cloud_heading_z g1) as Hz.
    destruct (cloud_heading g1) as [direction g2]. simpl in Hz.
    apply (IH _ _ H). apply Forall_app. split; [ exact Hcs | ].
    constructor; [ | constructor ]. simpl. split; [ | exact Hz ].
    apply (place_cloud_z _ _ _ _ _ _ Hp).
Qed.

Lemma create_drone_entry_returned (hs : list Hospital) (e : DroneEntry)
  (g g' : Random) :
  create_drone_entry hs g = (Returned e, g') ->
  drone_location (entry_drone e)
  = set_z (hospital_location (entry_hospital e)) DRONE_ALTITUDE /\
  In (entry_hospital e) hs /\
  exists end_hospital,
    In end_hospital hs /\
    hospital_id end_hospital <> hospital_id (entry_hospital e) /\
    entry_target e = set_z (hospital_location end_hospital) DRONE_ALTITUDE.
Proof.
  unfold create_drone_entry, bind. intros H.
  destruct hs as [ | h0 hs0]; [ simpl in H; discriminate | ].
  destruct (choice_returned (h0 :: hs0) g) as (start & g1 & Hc & Hin);
    [ discriminate | ].
  rewrite Hc in H.
  destruct (filter (fun h => hospital_neqb h start) (h0 :: hs0))
    as [ | h l] eqn:Hf; [ simpl in H; discriminate | ].
  destruct (choice_returned (h :: l) g1) as (end_ & g2 & Hc2 & Hin2);
    [ discriminate | ].
  rewrite Hc2 in H. unfold ret in H. inversion H; subst e g'.
  rewrite <- Hf in Hin2. apply filter_In in Hin2.
  destruct Hin2 as [Hin2 Hne]. apply hospital_neqb_true in Hne.
  unfold entry_drone, entry_target, entry_hospital; simpl.
  split; [ reflexivity | ]. split; [ exact Hin | ].
  exists end_. auto.
Qed.

(** Every drone the set-up creates is at [DRONE_ALTITUDE]. *)
Lemma create_drones_altitude (n : nat) (hs : list Hospital)
  (ds ds' : list DroneEntry) (g g' : Random) :
  create_drones n hs ds g = (Returned ds', g') ->
  Forall (fun e => z (drone_location (entry_drone e)) = DRONE_ALTITUDE) ds ->
  Forall (fun e => z (drone_location (entry_drone e)) = DRONE_ALTITUDE) ds'.
Proof.
  revert ds g. induction n as [ | n IH]; intros ds g H Hds;
    cbn [create_drones] in H.
  - inversion H; subst. exact Hds.
  - unfold bind in H.
    destruct (create_drone_entry hs g) as [[e | exn] g1] eqn:He;
      [ | discriminate ].
    apply (IH _ _ H). apply Forall_app. split; [ exact Hds | ].
    constructor; [ | constructor ].
    destruct (create_drone_entry_returned _ _ _ _ He) as (Hl & _).
    rewrite Hl. reflexivity.
Qed.

(** The hospitals the set-up creates are numbered in the order of their
    creation: they are distinct objects, [NUM_HOSPITALS] of them. *)
Lemma create_hospitals_ids (fuel n : nat) (hs hs' : list Hospital)
  (hp hp' : list Vector) (g g' : Random) :
  create_hospitals fuel n hs hp g = Some (hs', hp', g') ->
  map hospital_id hs = seq 0 (length hs) ->
  map hospital_id hs' = seq 0 (length hs')
  /\ length hs' = (length hs + n)%nat.
Proof.
  revert hs hp g. induction n as [ | n IH]; intros hs hp g H Hids;
    cbn [create_hospitals] in H.
  - inversion H; subst. split; [ exact Hids | lia ].
  - destruct (place_hospital fuel hp g) as [[pos g1] | ]; [ | discriminate ].
    apply IH in H.
    + destruct H as [H1 H2]. split; [ exact H1 | ].
      rewrite H2, length_app. simpl. lia.
    + rewrite map_app, length_app, Hids. simpl.
      rewrite Nat.add_1_r, seq_S. reflexivity.
Qed.

(** A scene the set-up returns has at least two distinct hospitals when
    [NUM_HOSPITALS] is at least two (it is at least five), and its clouds
    and drones are at the common altitude, the clouds heading in the
    plane. *)
Lemma setup_scene (fuel nd nh : nat) (g g' : Random) (s : Scene) :
  setup fuel nd nh g = Some (Returned s, g') ->
  ((2 <= nh)%nat -> two_hospitals (hospitals s)) /\
  Forall (fun c => z (cloud_location c) = CLOUD_ALTITUDE
                   /\ z (cloud_direction c) = 0) (clouds s) /\
  Forall (fun e => z (drone_location (entry_drone e)) = DRONE_ALTITUDE)
         (drones s).
Proof.
  unfold setup. intros H.
  destruct (create_hospitals fuel nh [] [] g) as [[[hs hp] g1] | ] eqn:Hh;
    [ | discriminate ].
  destruct (create_clouds fuel (nh * 2) [] hp g1) as [[cs g2] | ] eqn:Hc;
    [ | discriminate ].
  destruct (create_drones nd hs [] g2) as [[ds | exn] g3] eqn:Hd;
    [ | discriminate ].
  inversion H; subst s g'. simpl.
  destruct (create_hospitals_ids _ _ _ _ _ _ _ _ Hh eq_refl) as [Hids Hlen].
  split; [ | split ].
  - intros Hnh. split; [ | simpl in Hlen; lia ].
    rewrite Hids. apply seq_NoDup.
  - apply (create_clouds_altitude _ _ _ _ _ _ _ Hc). constructor.
  - apply (create_drones_altitude _ _ _ _ _ _ Hd). constructor.
Qed.

(** Three frames of the scenario of the specification. *)
Lemma altitude_is_kept_witness :
  (exists c',
      nth_error (clouds (fst (run_frames 3 arrival_scene steady))) 0
      = Some c' /\
      z (cloud_location c') = CLOUD_ALTITUDE) /\
  (exists e',
      nth_error (drones (fst (run_frames 3 arrival_scene steady))) 0
      = Some e' /\
      z (drone_location (entry_drone e')) = DRONE_ALTITUDE).
Proof.
  destruct (altitude_is_kept 3 arrival_scene steady) as (_ & Hc & Hd).
  split.
  - exact (Hc 0%nat south_cloud eq_refl eq_refl eq_refl).
  - exact (Hd 0%nat arriving_entry eq_refl eq_refl).
Defined.

(** ** The heading of a cloud *)

(** A sign flip of a component does not change the length. *)
Lemma move_cloud_keeps_length (hs : list Hospital) (c : Cloud) :
  vlength (cloud_direction (move_cloud hs c)) = vlength (cloud_direction c).
Proof.
  unfold move_cloud.
  destruct (_ || _); destruct (_ || _); unfold vlength; simpl;
    f_equal; ring.
Qed.

(** A cloud is displaced by its new heading times [CLOUD_SPEED]. *)
Lemma move_cloud_displacement (hs : list Hospital) (c : Cloud) :
  vlength (cloud_location (move_cloud hs c) - cloud_location c)
  = CLOUD_SPEED * vlength (cloud_direction c).
Proof.
  rewrite <- (move_cloud_keeps_length hs c).
  replace (cloud_location (move_cloud hs c) - cloud_location c)%V
    with (cloud_direction (move_cloud hs c) * CLOUD_SPEED)%V.
  - rewrite vlength_scale. rewrite Rabs_pos_eq by (settings; lra). ring.
  - unfold move_cloud. apply vector_eq; simpl; ring.
Qed.

(** C10, as amended.  Every frame keeps the length of the heading of every
    cloud, and displaces the cloud by [CLOUD_SPEED] times that length.
    The heading the set-up gives a cloud is the normalized sample; when the
    two sampled components are not both zero it has length one, and then
    the heading has length one in every frame and every frame displaces the
    cloud by exactly [CLOUD_SPEED]. *)
Theorem cloud_heading_length_is_kept (n : nat) (s : Scene) (g : Random)
  (i : nat) (c : Cloud) :
  nth_error (clouds s) i = Some c ->
  exists c_n c_next,
    nth_error (clouds (fst (run_frames n s g))) i = Some c_n /\
    nth_error (clouds (fst (run_frames (S n) s g))) i = Some c_next /\
    vlength (cloud_direction c_n) = vlength (cloud_direction c) /\
    vlength (cloud_location c_next - cloud_location c_n)
    = CLOUD_SPEED * vlength (cloud_direction c) /\
    (forall dx dy,
        cloud_direction c = normalized (mkVector dx dy 0) ->
        dx <> 0 \/ dy <> 0 ->
        vlength (cloud_direction c_n) = 1 /\
        vlength (cloud_location c_next - cloud_location c_n) = CLOUD_SPEED).
Proof.
  intros Hn.
  destruct (run_frames_cloud_invariant
              (fun c' => vlength (cloud_direction c')
                         = vlength (cloud_direction c)))
    with (n := n) (s := s) (g := g) (i := i) (c := c)
    as (c_n & Hn' & Hlen); auto.
  { intros hs c0 H. rewrite move_cloud_keeps_length. exact H. }
  exists c_n, (move_cloud (hospitals s) c_n).
  split; [ exact Hn' | ]. split.
  { rewrite run_frames_clouds_succ. apply move_clouds_nth. exact Hn'. }
  split; [ exact Hlen | ].
  assert (Hd : vlength (cloud_location (move_cloud (hospitals s) c_n)
                        - cloud_location c_n)
               = CLOUD_SPEED * vlength (cloud_direction c)).
  { rewrite move_cloud_displacement, Hlen. reflexivity. }
  split; [ exact Hd | ].
  intros dx dy Hc Hxy.
  assert (Hunit : vlength (cloud_direction c) = 1).
  { rewrite Hc. apply vlength_normalized. intros Hz.
    apply (f_equal x) in Hz as Hx. apply (f_equal y) in Hz as Hy.
    simpl in Hx, Hy. tauto. }
  rewrite Hd, Hlen, Hunit. split; [ reflexivity | ring ].
Qed.

(** C10, as stated, fails.  When both calls of [random.uniform(-1, 1)] of
    line 231 return zero (both calls of [random()] return one half), the
    heading is the zero vector: its length is not one, and a frame does not
    displace the cloud. *)
Lemma zero_sample_heading_is_not_unit :
  fst (cloud_heading steady) = vzero /\
  vlength (fst (cloud_heading steady)) <> 1 /\
  vlength
    (cloud_location
       (move_cloud [hospital_A; hospital_B]
          (mkCloud (mkVector 0 0 CLOUD_ALTITUDE) (fst (cloud_heading steady))))
     - mkVector 0 0 CLOUD_ALTITUDE) <> CLOUD_SPEED.
Proof.
  assert (H : fst (cloud_heading steady) = vzero).
  { unfold cloud_heading, uniform, random, steady; simpl.
    replace (mkVector (-1 + (1 - -1) * (1 / 2)) (-1 + (1 - -1) * (1 / 2)) 0)
      with vzero by (apply vector_eq; simpl; lra).
    apply normalized_vzero. }
  split; [ exact H | ]. split.
  - rewrite H, vlength_vzero. lra.
  - change (mkVector 0 0 CLOUD_ALTITUDE)
      with (cloud_location
              (mkCloud (mkVector 0 0 CLOUD_ALTITUDE)
                       (fst (cloud_heading steady)))) at 2.
    rewrite move_cloud_displacement. cbn [cloud_direction].
    rewrite H, vlength_vzero. settings. lra.
Qed.

Lemma vlength_y_axis (a : R) : vlength (mkVector 0 a 0) = Rabs a.
Proof.
  unfold vlength; simpl.
  replace (0 * 0 + a * a + 0 * 0) with (Rsqr a) by (unfold Rsqr; ring).
  apply sqrt_Rsqr_abs.
Qed.

Lemma south_is_normalized :
  mkVector 0 (-1) 0 = normalized (mkVector 0 (-1) 0).
Proof.
  assert (Hl : vlength (mkVector 0 (-1) 0) = 1).
  { rewrite vlength_y_axis. unfold Rabs. destruct (Rcase_abs (-1)); lra. }
  unfold normalized. rewrite Hl.
  destruct (1 >? 0) eqn:H.
  - apply vector_eq; simpl; field.
  - apply Rgtb_false in H. lra.
Qed.

(** The cloud heading south keeps a heading of length one, and its third
    frame displaces it by [CLOUD_SPEED]. *)
Lemma cloud_heading_length_is_kept_witness :
  exists c_n c_next,
    nth_error (clouds (fst (run_frames 2 arrival_scene steady))) 0
    = Some c_n /\
    nth_error (clouds (fst (run_frames 3 arrival_scene steady))) 0
    = Some c_next /\
    vlength (cloud_direction c_n) = 1 /\
    vlength (cloud_location c_next - cloud_location c_n) = CLOUD_SPEED.
Proof.
  destruct (cloud_heading_length_is_kept 2 arrival_scene steady 0 south_cloud
              eq_refl) as (c_n & c_next & Hn & Hnext & _ & _ & Hunit).
  exists c_n, c_next. split; [ exact Hn | ]. split; [ exact Hnext | ].
  apply (Hunit 0 (-1) south_is_normalized). right. lra.
Defined.

(** The cloud drifting south, with the two hospitals of the scenario. *)
Lemma move_clouds_bounce_witness :
  exists c',
    nth_error (move_clouds [hospital_A; hospital_B] [south_cloud]) 0
    = Some c' /\
    z (cloud_direction c') = z (cloud_direction south_cloud) /\
    cloud_location c'
    = (cloud_location south_cloud + cloud_direction c' * CLOUD_SPEED)%V.
Proof.
  destruct (move_clouds_bounce [hospital_A; hospital_B] [south_cloud] 0
              south_cloud eq_refl)
    as (c' & Hn & _ & _ & _ & _ & Hz & Hl).
  exists c'. split; [ exact Hn | ]. split; [ exact Hz | exact Hl ].
Defined.

(** ** The repulsion of one cloud *)

(** What one cloud adds to [repulsion] does not depend on what is there
    already. *)
Lemma repel_adds (position repulsion : Vector) (c : Cloud) :
  repel position repulsion c = (repulsion + repel position vzero c)%V.
Proof.
  rewrite !repel_spec.
  destruct (spec_repels position DRONE_AVOIDANCE_RADIUS c).
  - rewrite vadd_vzero_l. reflexivity.
  - symmetry. apply vadd_vzero_r.
Qed.

Lemma planar_distance_pos (a b : Vector) :
  0 < planar_distance a b -> (planar a - planar b)%V <> vzero.
Proof.
  unfold planar_distance. intros H. apply vlength_pos. exact H.
Qed.

(** At planar distance zero the direction is the normalized zero vector:
    the cloud adds nothing. *)
Lemma repel_at_zero_distance (position : Vector) (c : Cloud) :
  planar_distance position (cloud_location c) = 0 ->
  repel position vzero c = vzero.
Proof.
  intros Hz. rewrite repel_spec.
  destruct (spec_repels position DRONE_AVOIDANCE_RADIUS c); [ | reflexivity ].
  rewrite vadd_vzero_l. unfold spec_contribution.
  assert (H0 : (planar position - planar (cloud_location c))%V = vzero).
  { apply vlength_zero_inv. exact Hz. }
  rewrite H0, normalized_vzero. apply vector_eq; simpl; ring.
Qed.

(** C7, as amended.  For a planar distance [d] between the drone and the
    cloud with [0 < d < DRONE_AVOIDANCE_RADIUS], what the cloud adds to the
    repulsion has length [1.5 * (DRONE_AVOIDANCE_RADIUS - d) /
    DRONE_AVOIDANCE_RADIUS]: linear in [d], zero at the radius, below 1.5.
    From the radius on the cloud adds nothing.  At distance exactly zero
    the normalized direction is the zero vector, and the cloud adds
    nothing either. *)
Theorem repulsion_of_one_cloud (position : Vector) (c : Cloud) :
  let d := planar_distance position (cloud_location c) in
  (0 < d -> d < DRONE_AVOIDANCE_RADIUS ->
   vlength (repel position vzero c)
   = (15 / 10) * (DRONE_AVOIDANCE_RADIUS - d) / DRONE_AVOIDANCE_RADIUS /\
   0 < vlength (repel position vzero c) < 15 / 10) /\
  (DRONE_AVOIDANCE_RADIUS <= d -> repel position vzero c = vzero) /\
  (d = 0 -> repel position vzero c = vzero).
Proof.
  intros d.
  assert (HR : DRONE_AVOIDANCE_RADIUS = 6) by (settings; lra).
  split; [ | split ];
    [ rewrite repel_spec; unfold spec_repels; fold d
    | rewrite repel_spec; unfold spec_repels; fold d
    | apply repel_at_zero_distance ].
  - intros Hpos Hlt.
    destruct (d <? DRONE_AVOIDANCE_RADIUS) eqn:E;
      [ | apply Rltb_false in E; contradiction ].
    rewrite vadd_vzero_l. unfold spec_contribution. fold d.
    rewrite vlength_scale, vlength_normalized
      by (apply planar_distance_pos; exact Hpos).
    assert (Hs : 0 < (15 / 10) * (DRONE_AVOIDANCE_RADIUS - d)
                     / DRONE_AVOIDANCE_RADIUS).
    { rewrite HR. lra. }
    rewrite Rabs_pos_eq by lra.
    split; [ ring | ]. rewrite HR in *. lra.
  - intros Hge.
    destruct (d <? DRONE_AVOIDANCE_RADIUS) eqn:E; [ | reflexivity ].
    apply Rltb_true in E. lra.
Qed.

Lemma overhead_cloud_distance :
  planar_distance (drone_location (entry_drone leaving_entry))
                  (cloud_location overhead_cloud) = 0.
Proof.
  unfold planar_distance, planar; simpl.
  replace (mkVector 0 0 0 - mkVector 0 0 0)%V with vzero
    by (apply vector_eq; simpl; ring).
  apply vlength_vzero.
Qed.

(** C7, as stated, fails.  A cloud right above the drone is at planar
    distance zero, and it adds the zero vector to the repulsion: the
    length of what it adds is zero, not 1.5. *)
Lemma repulsion_at_zero_distance_is_not_strongest :
  planar_distance (drone_location (entry_drone leaving_entry))
                  (cloud_location overhead_cloud) = 0 /\
  repel (drone_location (entry_drone leaving_entry)) vzero overhead_cloud
  = vzero /\
  vlength (repel (drone_location (entry_drone leaving_entry)) vzero
                 overhead_cloud) <> 15 / 10.
Proof.
  split; [ exact overhead_cloud_distance | ].
  rewrite (repel_at_zero_distance _ _ overhead_cloud_distance).
  split; [ reflexivity | ]. rewrite vlength_vzero. lra.
Qed.

Lemma near_cloud_distance :
  planar_distance (drone_location (entry_drone leaving_entry))
                  (cloud_location near_cloud) = 3.
Proof.
  unfold planar_distance, planar; simpl.
  replace (mkVector 0 0 0 - mkVector 0 3 0)%V with (mkVector 0 (-3) 0)
    by (apply vector_eq; simpl; ring).
  rewrite vlength_y_axis. unfold Rabs. destruct (Rcase_abs (-3)); lra.
Qed.

(** A cloud at planar distance three, half the avoidance radius, adds a
    vector of length [1.5 / 2]. *)
Lemma repulsion_of_one_cloud_witness :
  vlength (repel (drone_location (entry_drone leaving_entry)) vzero
                 near_cloud) = 3 / 4.
Proof.
  destruct (repulsion_of_one_cloud
              (drone_location (entry_drone leaving_entry)) near_cloud)
    as (Hin & _ & _).
  destruct Hin as [Hlen _].
  - rewrite near_cloud_distance. lra.
  - rewrite near_cloud_distance. settings. lra.
  - rewrite Hlen, near_cloud_distance. settings. lra.
Defined.

(** ** The placement searches *)

Lemma vlength_gtb_true (a : Vector) (r : R) :
  0 <= r -> r * r < x a * x a + y a * y a + z a * z a ->
  (vlength a >? r) = true.
Proof.
  intros Hr H. apply Rgtb_true. unfold vlength, Rgt.
  rewrite <- (sqrt_square r) by exact Hr.
  apply sqrt_lt_1_alt. split; [ nra | exact H ].
Qed.

Lemma vlength_gtb_false (a : Vector) (r : R) :
  0 <= r -> x a * x a + y a * y a + z a * z a <= r * r ->
  (vlength a >? r) = false.
Proof.
  intros Hr H. apply Rgtb_false. unfold vlength, Rgt. apply Rle_not_lt.
  rewrite <- (sqrt_square r) by exact Hr.
  apply sqrt_le_1_alt. exact H.
Qed.

(** One iteration of the search of a hospital position. *)
Lemma place_hospital_step (fuel : nat) (hp : list Vector) (g : Random) :
  place_hospital (S fuel) hp g
  = if hospital_fits (hospital_candidate g 0) hp
    then Some (hospital_candidate g 0, after_floats 2 g)
    else place_hospital fuel hp (after_floats 2 g).
Proof. reflexivity. Qed.

Lemma hospital_candidate_shift (g : Random) (j : nat) :
  hospital_candidate (after_floats 2 g) j = hospital_candidate g (S j).
Proof.
  unfold hospital_candidate, after_floats; cbn [floats].
  replace (2 + 2 * j)%nat with (2 * S j)%nat by lia.
  replace (2 + (2 * j + 1))%nat with (2 * S j + 1)%nat by lia.
  reflexivity.
Qed.

(** The search of a hospital position returns the first candidate that
    fits, in the iteration that samples it, and is still running before. *)
Lemma place_hospital_first_fit (hp : list Vector) (k : nat) :
  forall g,
    (forall j,
        (j < k)%nat -> hospital_fits (hospital_candidate g j) hp = false) ->
    hospital_fits (hospital_candidate g k) hp = true ->
    forall fuel,
      ((fuel <= k)%nat -> place_hospital fuel hp g = None) /\
      ((k < fuel)%nat ->
       exists g', place_hospital fuel hp g = Some (hospital_candidate g k, g')).
Proof.
  induction k as [ | k IH]; intros g Hbefore Hfit fuel.
  - split; intros Hf.
    + replace fuel with 0%nat by lia. reflexivity.
    + destruct fuel as [ | fuel]; [ lia | ].
      rewrite place_hospital_step, Hfit. eexists. reflexivity.
  - destruct fuel as [ | fuel].
    + split; intros Hf; [ reflexivity | lia ].
    + rewrite place_hospital_step, (Hbefore 0%nat) by lia.
      destruct (IH (after_floats 2 g)) with (fuel := fuel) as [Hnone Hsome].
      * intros j Hj. rewrite hospital_candidate_shift. apply Hbefore. lia.
      * rewrite hospital_candidate_shift. exact Hfit.
      * rewrite hospital_candidate_shift in Hsome.
        split; intros Hf; [ apply Hnone | apply Hsome ]; lia.
Qed.

(** When no candidate ever fits, the search of a hospital position is
    still running after any number of iterations. *)
Lemma place_hospital_never (hp : list Vector) (fuel : nat) :
  forall g,
    (forall j, hospital_fits (hospital_candidate g j) hp = false) ->
    place_hospital fuel hp g = None.
Proof.
  induction fuel as [ | fuel IH]; intros g Hnever.
  - reflexivity.
  - rewrite place_hospital_step, (Hnever 0%nat). apply IH.
    intros j. rewrite hospital_candidate_shift. apply Hnever.
Qed.

(** One iteration of the search of a cloud position. *)
Lemma place_cloud_step (fuel : nat) (cs : list Cloud) (hp : list Vector)
  (g : Random) :
  place_cloud (S fuel) cs hp g
  = if cloud_fits (cloud_candidate g 0) cs hp
    then Some (cloud_candidate g 0, after_floats 2 g)
    else place_cloud fuel cs hp (after_floats 2 g).
Proof. reflexivity. Qed.

Lemma cloud_candidate_shift (g : Random) (j : nat) :
  cloud_candidate (after_floats 2 g) j = cloud_candidate g (S j).
Proof.
  unfold cloud_candidate, after_floats; cbn [floats].
  replace (2 + 2 * j)%nat with (2 * S j)%nat by lia.
  replace (2 + (2 * j + 1))%nat with (2 * S j + 1)%nat by lia.
  reflexivity.
Qed.

Lemma place_cloud_first_fit (cs : list Cloud) (hp : list Vector) (k : nat) :
  forall g,
    (forall j, (j < k)%nat -> cloud_fits (cloud_candidate g j) cs hp = false) ->
    cloud_fits (cloud_candidate g k) cs hp = true ->
    forall fuel,
      ((fuel <= k)%nat -> place_cloud fuel cs hp g = None) /\
      ((k < fuel)%nat ->
       exists g', place_cloud fuel cs hp g = Some (cloud_candidate g k, g')).
Proof.
  induction k as [ | k IH]; intros g Hbefore Hfit fuel.
  - split; intros Hf.
    + replace fuel with 0%nat by lia. reflexivity.
    + destruct fuel as [ | fuel]; [ lia | ].
      rewrite place_cloud_step, Hfit. eexists. reflexivity.
  - destruct fuel as [ | fuel].
    + split; intros Hf; [ reflexivity | lia ].
    + rewrite place_cloud_step, (Hbefore 0%nat) by lia.
      destruct (IH (after_floats 2 g)) with (fuel := fuel) as [Hnone Hsome].
      * intros j Hj. rewrite cloud_candidate_shift. apply Hbefore. lia.
      * rewrite cloud_candidate_shift. exact Hfit.
      * rewrite cloud_candidate_shift in Hsome.
        split; intros Hf; [ apply Hnone | apply Hsome ]; lia.
Qed.

Lemma place_cloud_never (cs : list Cloud) (hp : list Vector) (fuel : nat) :
  forall g,
    (forall j, cloud_fits (cloud_candidate g j) cs hp = false) ->
    place_cloud fuel cs hp g = None.
Proof.
  induction fuel as [ | fuel IH]; intros g Hnever.
  - reflexivity.
  - rewrite place_cloud_step, (Hnever 0%nat). apply IH.
    intros j. rewrite cloud_candidate_shift. apply Hnever.
Qed.

(** C8, as amended.  Neither placement search has a retry budget or raises
    an error.  A search returns the first candidate that fits, in the
    iteration that samples it, however many candidates collided before;
    until then it is still running, and when no candidate ever fits it
    runs for ever. *)
Theorem placement_returns_first_fit (g : Random) (hp : list Vector)
  (cs : list Cloud) (k : nat) :
  ((forall j,
       (j < k)%nat -> hospital_fits (hospital_candidate g j) hp = false) ->
   hospital_fits (hospital_candidate g k) hp = true ->
   forall fuel,
     ((fuel <= k)%nat -> place_hospital fuel hp g = None) /\
     ((k < fuel)%nat ->
      exists g',
        place_hospital fuel hp g = Some (hospital_candidate g k, g'))) /\
  ((forall j, (j < k)%nat -> cloud_fits (cloud_candidate g j) cs hp = false) ->
   cloud_fits (cloud_candidate g k) cs hp = true ->
   forall fuel,
     ((fuel <= k)%nat -> place_cloud fuel cs hp g = None) /\
     ((k < fuel)%nat ->
      exists g',
        place_cloud fuel cs hp g = Some (cloud_candidate g k, g'))) /\
  ((forall j, hospital_fits (hospital_candidate g j) hp = false) ->
   forall fuel, place_hospital fuel hp g = None) /\
  ((forall j, cloud_fits (cloud_candidate g j) cs hp = false) ->
   forall fuel, place_cloud fuel cs hp g = None).
Proof.
  split; [ | split; [ | split ] ].
  - intros Hbefore Hfit fuel. apply place_hospital_first_fit; assumption.
  - intros Hbefore Hfit fuel. apply place_cloud_first_fit; assumption.
  - intros Hnever fuel. apply place_hospital_never. exact Hnever.
  - intros Hnever fuel. apply place_cloud_never. exact Hnever.
Qed.

(** With the generator [steady] every candidate of a search is the same
    position. *)
Lemma steady_hospital_candidate (n j : nat) :
  hospital_candidate (after_floats n steady) j = hospital_candidate steady 0.
Proof. reflexivity. Qed.

Lemma steady_cloud_candidate (n j : nat) :
  cloud_candidate (after_floats n steady) j = cloud_candidate steady 0.
Proof. reflexivity. Qed.

Lemma steady_second_hospital_never_fits (j : nat) :
  hospital_fits (hospital_candidate (after_floats 2 steady) j)
                [hospital_candidate steady 0] = false.
Proof.
  rewrite steady_hospital_candidate. unfold hospital_fits. cbn [forallb].
  rewrite vlength_gtb_false; [ reflexivity | settings; lra | ].
  unfold hospital_candidate, steady; simpl; settings. lra.
Qed.

Lemma steady_hospitals_never_placed (fuel : nat) :
  create_hospitals fuel 5 [] [] steady = None.
Proof.
  destruct fuel as [ | fuel]; [ reflexivity | ].
  cbn [create_hospitals]. rewrite place_hospital_step.
  change (hospital_fits (hospital_candidate steady 0) []) with true.
  cbv iota. cbn [app length].
  rewrite place_hospital_never; [ reflexivity | ].
  exact steady_second_hospital_never_fits.
Qed.

Lemma steady_cloud_never_fits (j : nat) :
  cloud_fits (cloud_candidate steady j) [overhead_cloud]
             (map hospital_location [hospital_A; hospital_B]) = false.
Proof.
  unfold cloud_fits. cbn [map forallb cloud_location overhead_cloud].
  rewrite vlength_gtb_false; [ reflexivity | settings; lra | ].
  unfold cloud_candidate, steady; simpl; settings. lra.
Qed.

(** C8, as stated, fails.  With a generator that returns the same numbers
    again and again the first hospital is placed, the second candidate and
    all that follow collide with it, and the set-up is still searching
    after any number of iterations: no position, and no error.  The search
    of a cloud position does the same when a cloud is where the candidates
    fall. *)
Lemma placement_search_never_ends :
  (forall fuel, setup fuel 3 5 steady = None) /\
  (forall fuel,
      place_cloud fuel [overhead_cloud]
        (map hospital_location [hospital_A; hospital_B]) steady = None).
Proof.
  split; intros fuel.
  - unfold setup. rewrite steady_hospitals_never_placed. reflexivity.
  - apply place_cloud_never. exact steady_cloud_never_fits.
Qed.

Lemma second_try_collides_first (j : nat) :
  (j < 1)%nat ->
  hospital_fits (hospital_candidate second_try j)
                [hospital_location hospital_A] = false.
Proof.
  intros Hj. replace j with 0%nat by lia.
  unfold hospital_fits. cbn [forallb].
  rewrite vlength_gtb_false; [ reflexivity | settings; lra | ].
  unfold hospital_candidate, second_try; simpl; settings. lra.
Qed.

Lemma second_try_fits_second :
  hospital_fits (hospital_candidate second_try 1)
                [hospital_location hospital_A] = true.
Proof.
  unfold hospital_fits. cbn [forallb].
  rewrite vlength_gtb_true; [ reflexivity | settings; lra | ].
  unfold hospital_candidate, second_try; simpl; settings. lra.
Qed.

(** A first candidate on the hospital at the origin, a second one that is
    free: the search is still running after one iteration and returns the
    second candidate in the next. *)
Lemma placement_returns_first_fit_witness :
  place_hospital 1 [hospital_location hospital_A] second_try = None /\
  exists g',
    place_hospital 2 [hospital_location hospital_A] second_try
    = Some (hospital_candidate second_try 1, g').
Proof.
  destruct (placement_returns_first_fit second_try
              [hospital_location hospital_A] [] 1) as (Hh & _).
  split.
  - apply (Hh second_try_collides_first second_try_fits_second 1%nat). lia.
  - apply (Hh second_try_collides_first second_try_fits_second 2%nat). lia.
Defined.

(** ** The set-up with fewer than two hospitals *)

Lemma create_drone_entry_raises (hs : list Hospital) (g : Random) :
  (length hs < 2)%nat ->
  exists g', create_drone_entry hs g = (Raised IndexError, g').
Proof.
  intros Hlen. unfold create_drone_entry, bind.
  destruct hs as [ | h [ | h' hs']]; simpl in Hlen; try lia.
  - eexists. reflexivity.
  - cbn [choice length nth]. rewrite Nat.mod_1_r. cbn [nth filter].
    unfold hospital_neqb. rewrite Nat.eqb_refl. cbn [negb choice].
    eexists. reflexivity.
Qed.

Lemma create_drones_raises (n : nat) (hs : list Hospital)
  (ds : list DroneEntry) (g : Random) :
  (length hs < 2)%nat -> (1 <= n)%nat ->
  exists g', create_drones n hs ds g = (Raised IndexError, g').
Proof.
  intros Hlen Hn. destruct n as [ | n]; [ lia | ].
  cbn [create_drones]. unfold bind.
  destruct (create_drone_entry_raises hs g Hlen) as (g' & H).
  rewrite H. exists g'. reflexivity.
Qed.

(** C9, as amended.  The script does not check the number of hospitals.
    With fewer than two hospitals and at least one drone to create (the
    script creates at least three), the initialization of the drones raises
    [IndexError] at its first drone, whatever the generator: the list from
    which the hospital is chosen is empty.  The set-up therefore never
    returns a scene, and as soon as its two placement searches have
    returned it ends with that exception, before the handler is
    registered. *)
Theorem setup_needs_two_hospitals (NUM_DRONES NUM_HOSPITALS : nat) :
  (NUM_HOSPITALS < 2)%nat ->
  (1 <= NUM_DRONES)%nat ->
  (forall hs g,
      length hs = NUM_HOSPITALS ->
      exists g', create_drones NUM_DRONES hs [] g = (Raised IndexError, g')) /\
  (forall fuel g hs hp g1 cs g2,
      create_hospitals fuel NUM_HOSPITALS [] [] g = Some (hs, hp, g1) ->
      create_clouds fuel (NUM_HOSPITALS * 2) [] hp g1 = Some (cs, g2) ->
      exists g',
        setup fuel NUM_DRONES NUM_HOSPITALS g = Some (Raised IndexError, g')) /\
  (forall fuel g s g',
      setup fuel NUM_DRONES NUM_HOSPITALS g <> Some (Returned s, g')).
Proof.
  intros Hnh Hnd.
  assert (Hraise : forall fuel g hs hp g1 g2,
             create_hospitals fuel NUM_HOSPITALS [] [] g = Some (hs, hp, g1) ->
             exists g',
               create_drones NUM_DRONES hs [] g2 = (Raised IndexError, g')).
  { intros fuel g hs hp g1 g2 Hh.
    destruct (create_hospitals_ids _ _ _ _ _ _ _ _ Hh eq_refl) as [_ Hlen].
    simpl in Hlen. apply create_drones_raises; [ lia | exact Hnd ]. }
  split; [ | split ].
  - intros hs g Hlen. apply create_drones_raises; lia.
  - intros fuel g hs hp g1 cs g2 Hh Hc. unfold setup. rewrite Hh, Hc.
    destruct (Hraise fuel g hs hp g1 g2 Hh) as (g3 & H).
    rewrite H. exists g3. reflexivity.
  - intros fuel g s g' H. unfold setup in H.
    destruct (create_hospitals fuel NUM_HOSPITALS [] [] g)
      as [[[hs hp] g1] | ] eqn:Hh; [ | discriminate ].
    destruct (create_clouds fuel (NUM_HOSPITALS * 2) [] hp g1)
      as [[cs g2] | ]; [ | discriminate ].
    destruct (Hraise fuel g hs hp g1 g2 Hh) as (g3 & Hd).
    rewrite Hd in H. discriminate.
Qed.

(** With no hospital at all the set-up ends with [IndexError] at the first
    choice of a start hospital. *)
Lemma setup_without_hospitals :
  setup 0 3 0 steady = Some (Raised IndexError, steady).
Proof. reflexivity. Qed.

(** ** The drones read the moved clouds: an observable difference *)

Lemma normalized_y_neg (v : Vector) : y v < 0 -> y (normalized v) < 0.
Proof.
  intros Hy.
  assert (Hv : v <> vzero).
  { intros H. rewrite H in Hy. simpl in Hy. lra. }
  rewrite normalized_scale by exact Hv. simpl.
  apply vlength_pos in Hv. apply Rinv_0_lt_compat in Hv. nra.
Qed.

Lemma normalized_y_zero (v : Vector) : y v = 0 -> y (normalized v) = 0.
Proof.
  intros Hy. unfold normalized. destruct (_ >? _); simpl; [ | reflexivity ].
  rewrite Hy. unfold Rdiv. ring.
Qed.

(** A single cloud within the avoidance radius, north of the drone, pushes
    the drone south. *)
Lemma repulsion_pushes_south (p : Vector) (c : Cloud) :
  planar_distance p (cloud_location c) < DRONE_AVOIDANCE_RADIUS ->
  y p < y (cloud_location c) ->
  y (spec_repulsion p DRONE_AVOIDANCE_RADIUS [c]) < 0.
Proof.
  intros Hd Hy. unfold spec_repulsion. cbn [filter]. unfold spec_repels.
  rewrite (proj2 (Rltb_true _ _) Hd). cbn [map vsum fold_right].
  rewrite vadd_vzero_r. unfold spec_contribution. cbn [vscale y].
  assert (Hn : y (normalized (planar p - planar (cloud_location c))) < 0).
  { apply normalized_y_neg. simpl. lra. }
  assert (HR : DRONE_AVOIDANCE_RADIUS = 6) by (settings; lra).
  assert (Hs : 0 < 15 / 10
                   * (DRONE_AVOIDANCE_RADIUS
                      - planar_distance p (cloud_location c))
                   / DRONE_AVOIDANCE_RADIUS).
  { rewrite HR in *. lra. }
  nra.
Qed.

(** A single cloud at the avoidance radius or beyond does not repel. *)
Lemma no_repulsion_outside (p : Vector) (c : Cloud) :
  ~ planar_distance p (cloud_location c) < DRONE_AVOIDANCE_RADIUS ->
  spec_repulsion p DRONE_AVOIDANCE_RADIUS [c] = vzero.
Proof.
  intros Hd. unfold spec_repulsion. cbn [filter]. unfold spec_repels.
  rewrite (proj2 (Rltb_false _ _) Hd). reflexivity.
Qed.

Lemma spec_attraction_y (p t : Vector) :
  y t = y p -> y (spec_attraction p t) = 0.
Proof.
  intros Hy. unfold spec_attraction.
  destruct (vector_eq_dec t p); [ reflexivity | ].
  apply normalized_y_zero. simpl. lra.
Qed.

(** In [leaving_scene] the cloud drifts south without bouncing. *)
Lemma south_cloud_moved :
  move_cloud [hospital_A; hospital_B] south_cloud
  = mkCloud (cloud_location south_cloud
             + cloud_direction south_cloud * CLOUD_SPEED)%V
            (cloud_direction south_cloud).
Proof.
  unfold move_cloud.
  set (new_pos := (cloud_location south_cloud
                   + cloud_direction south_cloud * CLOUD_SPEED)%V).
  assert (Hnear : existsb (hospital_is_near new_pos)
                          [hospital_A; hospital_B] = false).
  { cbn [existsb]. unfold hospital_is_near.
    rewrite (proj2 (Rltb_false _ _)) by length_bound.
    rewrite (proj2 (Rltb_false _ _)) by length_bound.
    reflexivity. }
  rewrite Hnear.
  assert (Hx : (Rabs (x new_pos) >? CITY_BOUNDARY_X) = false).
  { apply Rgtb_false. simpl. settings. unfold Rabs.
    destruct (Rcase_abs _); lra. }
  assert (Hy : (Rabs (y new_pos) >? CITY_BOUNDARY_Y) = false).
  { apply Rgtb_false. simpl. settings. unfold Rabs.
    destruct (Rcase_abs _); lra. }
  rewrite Hx, Hy. reflexivity.
Qed.

(** The order of [update_scene] can be observed.  In [leaving_scene] the
    cloud is beyond the avoidance radius of the drone before it moves and
    within it afterwards: moved against the moved cloud, as [update_scene]
    does, the drone is pushed south; moved against the cloud of before it
    would fly straight to its target. *)
Lemma moved_clouds_are_read :
  y (drone_location
       (move_drone (entry_drone leaving_entry) (entry_target leaving_entry)
          (move_clouds [hospital_A; hospital_B] [south_cloud]))) < 0 /\
  y (drone_location
       (move_drone (entry_drone leaving_entry) (entry_target leaving_entry)
          [south_cloud])) = 0.
Proof.
  rewrite !move_drone_spec. unfold spec_advance_drone, spec_movement.
  cbn [move_clouds map]. rewrite south_cloud_moved.
  set (p := drone_location (entry_drone leaving_entry)).
  set (t := entry_target leaving_entry).
  assert (Ha : y (spec_attraction p t) = 0)
    by (apply spec_attraction_y; reflexivity).
  split.
  - set (c := mkCloud _ _).
    assert (Hr : y (spec_repulsion p DRONE_AVOIDANCE_RADIUS [c]) < 0).
    { apply repulsion_pushes_south.
      - unfold planar_distance. length_bound.
      - simpl. settings. lra. }
    set (m := (spec_attraction p t
               + spec_repulsion p DRONE_AVOIDANCE_RADIUS [c])%V) in *.
    assert (Hm : y m < 0) by (unfold m; simpl; lra).
    destruct (vector_eq_dec m vzero) as [E | E].
    + rewrite E in Hm. simpl in Hm. lra.
    + pose proof (normalized_y_neg m Hm) as Hn.
      cbn [set_z vadd vscale y]. replace (y p) with 0 by reflexivity.
      settings. lra.
  - rewrite no_repulsion_outside
      by (unfold planar_distance; length_bound).
    rewrite vadd_vzero_r.
    destruct (vector_eq_dec (spec_attraction p t) vzero) as [E | E].
    + cbn [set_z vadd vscale y vzero]. replace (y p) with 0 by reflexivity.
      ring.
    + cbn [set_z vadd vscale y].
      rewrite (normalized_y_zero _ Ha). replace (y p) with 0 by reflexivity.
      ring.
Qed.

(** * Further properties of the script *)

(** ** What the placement searches return *)

Lemma ForallOrdPairs_snoc {A : Type} (R : A -> A -> Prop) (l : list A)
  (a : A) :
  ForallOrdPairs R l -> Forall (fun b => R b a) l ->
  ForallOrdPairs R (l ++ [a]).
Proof.
  induction l as [ | b l IH]; intros Hl Ha; simpl.
  - constructor; constructor.
  - inversion Hl as [ | ? ? Hb Hl']; subst.
    inversion Ha as [ | ? ? Hba Ha']; subst.
    constructor.
    + apply Forall_app. split; [ exact Hb | ]. constructor; [ exact Hba | ].
      constructor.
    + apply IH; assumption.
Qed.

(** A search that returns, returns one of its candidates, and the one that
    passed the test. *)
Lemma place_hospital_returned (fuel : nat) (hp : list Vector) :
  forall g g' pos,
    place_hospital fuel hp g = Some (pos, g') ->
    hospital_fits pos hp = true /\ exists k, pos = hospital_candidate g k.
Proof.
  induction fuel as [ | fuel IH]; intros g g' pos H.
  - discriminate.
  - rewrite place_hospital_step in H.
    destruct (hospital_fits (hospital_candidate g 0) hp) eqn:Hfit.
    + inversion H; subst. split; [ exact Hfit | ]. exists 0%nat. reflexivity.
    + destruct (IH _ _ _ H) as (Hf & k & Hk). split; [ exact Hf | ].
      exists (S k). rewrite <- hospital_candidate_shift. exact Hk.
Qed.

Lemma place_cloud_returned (fuel : nat) (cs : list Cloud) (hp : list Vector) :
  forall g g' pos,
    place_cloud fuel cs hp g = Some (pos, g') ->
    cloud_fits pos cs hp = true /\ exists k, pos = cloud_candidate g k.
Proof.
  induction fuel as [ | fuel IH]; intros g g' pos H.
  - discriminate.
  - rewrite place_cloud_step in H.
    destruct (cloud_fits (cloud_candidate g 0) cs hp) eqn:Hfit.
    + inversion H; subst. split; [ exact Hfit | ]. exists 0%nat. reflexivity.
    + destruct (IH _ _ _ H) as (Hf & k & Hk). split; [ exact Hf | ].
      exists (S k). rewrite <- cloud_candidate_shift. exact Hk.
Qed.

Lemma hospital_fits_apart (pos : Vector) (hs : list Hospital) :
  hospital_fits pos (map hospital_location hs) = true ->
  Forall (fun h => vlength (hospital_location h - pos) > HOSPITAL_RADIUS * 2)
         hs.
Proof.
  unfold hospital_fits. rewrite forallb_forall. intros H.
  apply Forall_forall. intros h Hin.
  rewrite vlength_sub_sym. apply Rgtb_true. apply H.
  apply in_map. exact Hin.
Qed.

(** The loop that creates the hospitals keeps its two lists in step, and
    keeps the hospitals apart and at half their height. *)
Lemma create_hospitals_invariant (fuel n : nat) :
  forall hs hp g hs' hp' g',
    create_hospitals fuel n hs hp g = Some (hs', hp', g') ->
    hp = map hospital_location hs ->
    hospitals_apart hs ->
    Forall (fun h => z (hospital_location h) = HOSPITAL_HEIGHT / 2) hs ->
    hp' = map hospital_location hs' /\
    hospitals_apart hs' /\
    Forall (fun h => z (hospital_location h) = HOSPITAL_HEIGHT / 2) hs'.
Proof.
  induction n as [ | n IH]; intros hs hp g hs' hp' g' H Hhp Hapart Hz;
    cbn [create_hospitals] in H.
  - inversion H; subst. auto.
  - destruct (place_hospital fuel hp g) as [[pos g1] | ] eqn:Hp;
      [ | discriminate ].
    destruct (place_hospital_returned _ _ _ _ _ Hp) as (Hfit & k & Hk).
    apply (IH _ _ _ _ _ _ H).
    + rewrite map_app, Hhp. reflexivity.
    + apply ForallOrdPairs_snoc; [ exact Hapart | ].
      apply hospital_fits_apart. rewrite <- Hhp. exact Hfit.
    + apply Forall_app. split; [ exact Hz | ].
      constructor; [ | constructor ]. simpl. rewrite Hk. reflexivity.
Qed.

(** X1.  When the loop that creates the hospitals returns, it has created
    [NUM_HOSPITALS] hospitals, numbered in the order of their creation, the
    list of positions holds their locations in that order, any two of them
    are more than [2 * HOSPITAL_RADIUS] apart, and each is at half the
    hospital height. *)
Theorem hospitals_are_placed_apart (fuel n : nat) (g g' : Random)
  (hs : list Hospital) (hp : list Vector) :
  create_hospitals fuel n [] [] g = Some (hs, hp, g') ->
  length hs = n /\
  map hospital_id hs = seq 0 n /\
  hp = map hospital_location hs /\
  hospitals_apart hs /\
  Forall (fun h => z (hospital_location h) = HOSPITAL_HEIGHT / 2) hs.
Proof.
  intros H.
  destruct (create_hospitals_ids _ _ _ _ _ _ _ _ H eq_refl) as [Hids Hlen].
  simpl in Hlen. rewrite Hlen in Hids.
  destruct (create_hospitals_invariant _ _ _ _ _ _ _ _ H eq_refl)
    as (Hhp & Hapart & Hz);
    [ unfold hospitals_apart; constructor | constructor | ].
  auto.
Qed.

Lemma second_try_places_two_hospitals :
  exists hs hp g', create_hospitals 1 2 [] [] second_try = Some (hs, hp, g').
Proof.
  cbn [create_hospitals]. rewrite place_hospital_step.
  change (hospital_fits (hospital_candidate second_try 0) []) with true.
  cbv iota. cbn [app length]. rewrite place_hospital_step.
  assert (Hfit : hospital_fits
                   (hospital_candidate (after_floats 2 second_try) 0)
                   [hospital_candidate second_try 0] = true).
  { unfold hospital_fits. cbn [forallb].
    rewrite vlength_gtb_true; [ reflexivity | settings; lra | ].
    unfold hospital_candidate, second_try; simpl; settings. lra. }
  rewrite Hfit. eexists. eexists. eexists. reflexivity.
Qed.

(** Two hospitals placed with the generator [second_try]. *)
Lemma hospitals_are_placed_apart_witness :
  exists hs hp g',
    create_hospitals 1 2 [] [] second_try = Some (hs, hp, g') /\
    length hs = 2%nat /\ hospitals_apart hs.
Proof.
  destruct second_try_places_two_hospitals as (hs & hp & g' & H).
  exists hs, hp, g'. split; [ exact H | ].
  destruct (hospitals_are_placed_apart 1 2 second_try g' hs hp H)
    as (Hlen & _ & _ & Hapart & _).
  split; [ exact Hlen | exact Hapart ].
Defined.

(** A position at cloud altitude is more than [CLOUD_RADIUS +
    HOSPITAL_RADIUS] away from any position at half the hospital height:
    the two heights differ by six. *)
Lemma hospital_test_passes (pos : Vector) (hp : list Vector) :
  z pos = CLOUD_ALTITUDE ->
  Forall (fun p => z p = HOSPITAL_HEIGHT / 2) hp ->
  forallb (fun p => vlength (pos - p) >? CLOUD_RADIUS + HOSPITAL_RADIUS) hp
  = true.
Proof.
  intros Hz Hhp. apply forallb_forall. intros p Hin.
  rewrite Forall_forall in Hhp. specialize (Hhp p Hin).
  apply vlength_gtb_true; [ settings; lra | ].
  simpl. rewrite Hz, Hhp. settings.
  pose proof (sum_squares_nonneg (x pos - x p) (y pos - y p) 0). lra.
Qed.

Lemma cloud_fits_ignores_hospitals (pos : Vector) (cs : list Cloud)
  (hp : list Vector) :
  z pos = CLOUD_ALTITUDE ->
  Forall (fun p => z p = HOSPITAL_HEIGHT / 2) hp ->
  cloud_fits pos cs hp = cloud_fits_clouds pos cs.
Proof.
  intros Hz Hhp. unfold cloud_fits, cloud_fits_clouds.
  rewrite (hospital_test_passes pos hp Hz Hhp). apply andb_true_r.
Qed.

Lemma place_cloud_ignores_hospitals (fuel : nat) (cs : list Cloud)
  (hp : list Vector) :
  Forall (fun p => z p = HOSPITAL_HEIGHT / 2) hp ->
  forall g, place_cloud fuel cs hp g = place_cloud fuel cs [] g.
Proof.
  intros Hhp. induction fuel as [ | fuel IH]; intros g.
  - reflexivity.
  - rewrite !place_cloud_step.
    rewrite !cloud_fits_ignores_hospitals
      by (try reflexivity; try exact Hhp; constructor).
    rewrite IH. reflexivity.
Qed.

(** X3.  The search of a cloud position tests its candidate against the
    hospital positions at half the hospital height, while the candidate is
    at cloud altitude.  With the hospital positions the script creates the
    test never rejects a candidate: the search, and the whole loop that
    creates the clouds, return what they return when there is no hospital
    at all. *)
Theorem cloud_search_ignores_hospitals (fuel n : nat) (cs : list Cloud)
  (hp : list Vector) (g : Random) :
  Forall (fun p => z p = HOSPITAL_HEIGHT / 2) hp ->
  place_cloud fuel cs hp g = place_cloud fuel cs [] g /\
  create_clouds fuel n cs hp g = create_clouds fuel n cs [] g.
Proof.
  intros Hhp. split; [ apply place_cloud_ignores_hospitals; exact Hhp | ].
  revert cs g. induction n as [ | n IH]; intros cs g.
  - reflexivity.
  - cbn [create_clouds].
    rewrite (place_cloud_ignores_hospitals fuel cs hp Hhp g).
    destruct (place_cloud fuel cs [] g) as [[pos g1] | ]; [ | reflexivity ].
    destruct (cloud_heading g1) as [direction g2]. apply IH.
Qed.

(** With hospital A at the origin, the first cloud of the generator
    [steady] is put right above it. *)
Lemma cloud_search_ignores_hospitals_witness :
  place_cloud 1 [] [hospital_location hospital_A] steady
  = Some (set_z (hospital_location hospital_A) CLOUD_ALTITUDE, steady).
Proof.
  destruct (cloud_search_ignores_hospitals 1 0 []
              [hospital_location hospital_A] steady) as [H _].
  - constructor; [ reflexivity | constructor ].
  - rewrite H. rewrite place_cloud_step.
    change (cloud_fits (cloud_candidate steady 0) [] []) with true.
    cbv iota. f_equal. f_equal.
    unfold cloud_candidate, steady; simpl; settings.
    apply vector_eq; simpl; lra.
Defined.

(** ** The clouds the set-up creates *)

Lemma cloud_heading_eq (g : Random) :
  cloud_heading g
  = (normalized (mkVector (-1 + (1 - -1) * floats g 0)
                          (-1 + (1 - -1) * floats g 1) 0),
     after_floats 2 g).
Proof. reflexivity. Qed.

Lemma normalized_length (v : Vector) :
  vlength (normalized v) = 1 \/ normalized v = vzero.
Proof.
  destruct (vector_eq_dec v vzero) as [E | E].
  - right. rewrite E. apply normalized_vzero.
  - left. apply vlength_normalized. exact E.
Qed.

Lemma cloud_fits_apart (pos : Vector) (cs : list Cloud) (hp : list Vector) :
  cloud_fits pos cs hp = true ->
  Forall (fun c => vlength (cloud_location c - pos) > CLOUD_RADIUS * 2) cs.
Proof.
  unfold cloud_fits. rewrite andb_true_iff, forallb_forall. intros [H _].
  apply Forall_forall. intros c Hin.
  rewrite vlength_sub_sym. apply Rgtb_true. apply H.
  apply in_map. exact Hin.
Qed.

Lemma create_clouds_invariant (fuel n : nat) (hp : list Vector) :
  forall cs g cs' g',
    create_clouds fuel n cs hp g = Some (cs', g') ->
    clouds_apart cs ->
    Forall (fun c => vlength (cloud_direction c) = 1
                     \/ cloud_direction c = vzero) cs ->
    length cs' = (length cs + n)%nat /\
    clouds_apart cs' /\
    Forall (fun c => vlength (cloud_direction c) = 1
                     \/ cloud_direction c = vzero) cs'.
Proof.
  induction n as [ | n IH]; intros cs g cs' g' H Hapart Hdir;
    cbn [create_clouds] in H.
  - inversion H; subst. split; [ lia | auto ].
  - destruct (place_cloud fuel cs hp g) as [[pos g1] | ] eqn:Hp;
      [ | discriminate ].
    rewrite cloud_heading_eq in H.
    destruct (place_cloud_returned _ _ _ _ _ _ Hp) as (Hfit & _).
    apply IH in H.
    + destruct H as (Hlen & H). split; [ | exact H ].
      rewrite Hlen, length_app. simpl. lia.
    + apply ForallOrdPairs_snoc; [ exact Hapart | ].
      apply (cloud_fits_apart pos cs hp Hfit).
    + apply Forall_app. split; [ exact Hdir | ].
      constructor; [ | constructor ]. simpl. apply normalized_length.
Qed.

(** X2.  When the loop that creates the clouds returns, it has created
    [NUM_CLOUDS] clouds, any two of them more than [2 * CLOUD_RADIUS]
    apart, each at cloud altitude, with a heading in the plane that is a
    unit vector or the zero vector. *)
Theorem clouds_are_placed_apart (fuel n : nat) (hp : list Vector)
  (g g' : Random) (cs : list Cloud) :
  create_clouds fuel n [] hp g = Some (cs, g') ->
  length cs = n /\
  clouds_apart cs /\
  Forall (fun c => z (cloud_location c) = CLOUD_ALTITUDE
                   /\ z (cloud_direction c) = 0
                   /\ (vlength (cloud_direction c) = 1
                       \/ cloud_direction c = vzero)) cs.
Proof.
  intros H.
  destruct (create_clouds_invariant _ _ _ _ _ _ _ H) as (Hlen & Hapart & Hdir);
    [ unfold clouds_apart; constructor | constructor | ].
  pose proof (create_clouds_altitude _ _ _ _ _ _ _ H (Forall_nil _)) as Hz.
  split; [ exact Hlen | ]. split; [ exact Hapart | ].
  rewrite Forall_forall in *. intros c Hin.
  destruct (Hz c Hin) as [Hz1 Hz2]. auto.
Qed.

(** ** A set-up that returns: two hospitals, four clouds, two drones *)

Lemma create_clouds_step (fuel n : nat) (cs : list Cloud) (hp : list Vector)
  (g : Random) :
  cloud_fits (cloud_candidate g 0) cs hp = true ->
  create_clouds (S fuel) (S n) cs hp g
  = create_clouds (S fuel) n
      (cs ++ [mkCloud (cloud_candidate g 0)
                      (fst (cloud_heading (after_floats 2 g)))])
      hp (after_floats 4 g).
Proof.
  intros H. cbn [create_clouds].
  rewrite place_cloud_step, H, cloud_heading_eq. reflexivity.
Qed.

(** Proves that a concrete candidate passes the test of a search. *)
Ltac candidate_fits :=
  unfold cloud_fits, hospital_fits;
  cbn [map app forallb cloud_location];
  repeat rewrite vlength_gtb_true
    by (first
          [ solve [ settings; lra ]
          | solve [ unfold cloud_candidate, hospital_candidate, after_floats,
                      spread; simpl; settings; lra ] ]);
  reflexivity.

Lemma spread_hospitals_placed :
  create_hospitals 1 2 [] [] spread
  = Some ([mkHospital 0 (hospital_candidate spread 0);
           mkHospital 1 (hospital_candidate spread 1)],
          [hospital_candidate spread 0; hospital_candidate spread 1],
          after_floats 4 spread).
Proof.
  cbn [create_hospitals]. rewrite place_hospital_step.
  change (hospital_fits (hospital_candidate spread 0) []) with true.
  cbv iota. cbn [app length]. rewrite place_hospital_step.
  assert (Hfit : hospital_fits
                   (hospital_candidate (after_floats 2 spread) 0)
                   [hospital_candidate spread 0] = true)
    by candidate_fits.
  rewrite Hfit. reflexivity.
Qed.

Lemma spread_clouds_placed :
  exists cs,
    create_clouds 1 4 []
      [hospital_candidate spread 0; hospital_candidate spread 1]
      (after_floats 4 spread)
    = Some (cs, after_floats 20 spread).
Proof.
  eexists.
  rewrite create_clouds_step by candidate_fits. cbn [app].
  rewrite create_clouds_step by candidate_fits. cbn [app].
  rewrite create_clouds_step by candidate_fits. cbn [app].
  rewrite create_clouds_step by candidate_fits. cbn [app].
  reflexivity.
Qed.

Lemma spread_setup_returns :
  exists s g', setup 1 2 2 spread = Some (Returned s, g').
Proof.
  unfold setup. rewrite spread_hospitals_placed. cbv iota beta.
  destruct spread_clouds_placed as (cs & Hcs).
  change (2 * 2)%nat with 4%nat. rewrite Hcs. cbv iota beta.
  eexists. eexists. reflexivity.
Qed.

(** Four clouds placed with the generator [spread]. *)
Lemma clouds_are_placed_apart_witness :
  exists cs,
    create_clouds 1 4 []
      [hospital_candidate spread 0; hospital_candidate spread 1]
      (after_floats 4 spread)
    = Some (cs, after_floats 20 spread) /\
    length cs = 4%nat /\ clouds_apart cs.
Proof.
  destruct spread_clouds_placed as (cs & H).
  exists cs. split; [ exact H | ].
  destruct (clouds_are_placed_apart 1 4 _ _ _ cs H) as (Hlen & Hapart & _).
  split; [ exact Hlen | exact Hapart ].
Defined.

(** ** The parts of a set-up that returns *)

Lemma setup_returned (fuel nd nh : nat) (g g' : Random) (s : Scene) :
  setup fuel nd nh g = Some (Returned s, g') ->
  exists hp g1 g2,
    create_hospitals fuel nh [] [] g = Some (hospitals s, hp, g1) /\
    create_clouds fuel (nh * 2) [] hp g1 = Some (clouds s, g2) /\
    create_drones nd (hospitals s) [] g2 = (Returned (drones s), g').
Proof.
  unfold setup. intros H.
  destruct (create_hospitals fuel nh [] [] g) as [[[hs hp] g1] | ] eqn:Hh;
    [ | discriminate ].
  destruct (create_clouds fuel (nh * 2) [] hp g1) as [[cs g2] | ] eqn:Hc;
    [ | discriminate ].
  destruct (create_drones nd hs [] g2) as [[ds | exn] g3] eqn:Hd;
    [ | discriminate ].
  inversion H; subst s g'. simpl. exists hp, g1, g2. auto.
Qed.

(** ** The drones the set-up creates *)

Lemma create_drone_entry_returns (hs : list Hospital) (g : Random) :
  two_hospitals hs ->
  exists e g', create_drone_entry hs g = (Returned e, g').
Proof.
  intros Hhs. unfold create_drone_entry, bind.
  destruct (choice_returned hs g) as (start & g1 & Hc & _).
  { destruct Hhs as [_ Hlen]. destruct hs; simpl in Hlen; [ lia | ].
    discriminate. }
  rewrite Hc.
  destruct (choice_returned
              (filter (fun h => hospital_neqb h start) hs) g1
              (other_hospital_exists hs start Hhs)) as (end_ & g2 & Hc2 & _).
  rewrite Hc2. unfold ret. eexists. eexists. reflexivity.
Qed.

Lemma create_drones_returns (n : nat) (hs : list Hospital) :
  two_hospitals hs ->
  forall ds g,
  exists ds' g',
    create_drones n hs ds g = (Returned ds', g') /\
    length ds' = (length ds + n)%nat.
Proof.
  intros Hhs. induction n as [ | n IH]; intros ds g.
  - exists ds, g. split; [ reflexivity | lia ].
  - cbn [create_drones]. unfold bind.
    destruct (create_drone_entry_returns hs g Hhs) as (e & g1 & He).
    rewrite He.
    destruct (IH (ds ++ [e]) g1) as (ds' & g' & Hd & Hlen).
    exists ds', g'. split; [ exact Hd | ].
    rewrite Hlen, length_app. simpl. lia.
Qed.

(** What holds of every entry the body of the loop returns, holds of every
    entry of the list the loop returns. *)
Lemma create_drones_forall (P : DroneEntry -> Prop) (hs : list Hospital) :
  (forall e g g', create_drone_entry hs g = (Returned e, g') -> P e) ->
  forall n ds g ds' g',
    create_drones n hs ds g = (Returned ds', g') ->
    Forall P ds -> Forall P ds'.
Proof.
  intros HP n. induction n as [ | n IH]; intros ds g ds' g' H Hds;
    cbn [create_drones] in H.
  - inversion H; subst. exact Hds.
  - unfold bind in H.
    destruct (create_drone_entry hs g) as [[e | exn] g1] eqn:He;
      [ | discriminate ].
    apply (IH _ _ _ _ H). apply Forall_app. split; [ exact Hds | ].
    constructor; [ | constructor ]. apply (HP _ _ _ He).
Qed.

(** X5.  With at least two distinct hospitals the loop that initializes the
    drones never raises: it returns [NUM_DRONES] entries, each with a drone
    at the position, at drone altitude, of the hospital of the list the
    entry stores, and with the position of another hospital of the list,
    at drone altitude, as its target. *)
Theorem drones_are_created (n : nat) (hs : list Hospital) (g : Random) :
  two_hospitals hs ->
  exists ds g',
    create_drones n hs [] g = (Returned ds, g') /\
    length ds = n /\
    Forall
      (fun e =>
         In (entry_hospital e) hs /\
         drone_location (entry_drone e)
         = set_z (hospital_location (entry_hospital e)) DRONE_ALTITUDE /\
         exists end_hospital,
           In end_hospital hs /\
           hospital_id end_hospital <> hospital_id (entry_hospital e) /\
           entry_target e
           = set_z (hospital_location end_hospital) DRONE_ALTITUDE) ds.
Proof.
  intros Hhs.
  destruct (create_drones_returns n hs Hhs [] g) as (ds & g' & Hd & Hlen).
  exists ds, g'. split; [ exact Hd | ]. split; [ exact Hlen | ].
  apply (create_drones_forall _ hs) with (n := n) (ds := []) (g := g)
                                         (g' := g'); auto.
  intros e g0 g0' He.
  destruct (create_drone_entry_returned _ _ _ _ He) as (Hl & Hin & Hend).
  auto.
Qed.

(** Three drones between the hospitals A and B. *)
Lemma drones_are_created_witness :
  exists ds g',
    create_drones 3 [hospital_A; hospital_B] [] steady = (Returned ds, g') /\
    length ds = 3%nat.
Proof.
  destruct (drones_are_created 3 [hospital_A; hospital_B] steady
              two_hospitals_A_B) as (ds & g' & Hd & Hlen & _).
  exists ds, g'. split; [ exact Hd | exact Hlen ].
Defined.

Lemma create_drones_length (n : nat) (hs : list Hospital) :
  forall ds g ds' g',
    create_drones n hs ds g = (Returned ds', g') ->
    length ds' = (length ds + n)%nat.
Proof.
  induction n as [ | n IH]; intros ds g ds' g' H; cbn [create_drones] in H.
  - inversion H; subst. lia.
  - unfold bind in H.
    destruct (create_drone_entry hs g) as [[e | exn] g1]; [ | discriminate ].
    rewrite (IH _ _ _ _ H), length_app. simpl. lia.
Qed.

Lemma vlength_set_z (a b : Vector) (c : R) :
  z a = z b -> vlength (set_z a c - set_z b c) = vlength (a - b).
Proof.
  intros Hz. unfold vlength; simpl. rewrite Hz. f_equal. ring.
Qed.

Lemma hospitals_apart_in (hs : list Hospital) (h h' : Hospital) :
  hospitals_apart hs -> In h hs -> In h' hs ->
  hospital_id h <> hospital_id h' ->
  vlength (hospital_location h - hospital_location h') > HOSPITAL_RADIUS * 2.
Proof.
  intros Hapart Hin Hin' Hne.
  destruct (ForallOrdPairs_In Hapart h h' Hin Hin') as [E | [H | H]].
  - subst h'. contradiction.
  - exact H.
  - rewrite vlength_sub_sym. exact H.
Qed.

(** The hospitals of a scene the set-up returns. *)
Lemma setup_hospitals (fuel nd nh : nat) (g g' : Random) (s : Scene) :
  setup fuel nd nh g = Some (Returned s, g') ->
  length (hospitals s) = nh /\
  hospitals_apart (hospitals s) /\
  Forall (fun h => z (hospital_location h) = HOSPITAL_HEIGHT / 2)
         (hospitals s).
Proof.
  intros H. destruct (setup_returned _ _ _ _ _ _ H) as (hp & g1 & g2 & Hh & _).
  destruct (create_hospitals_ids _ _ _ _ _ _ _ _ Hh eq_refl) as [_ Hlen].
  destruct (create_hospitals_invariant _ _ _ _ _ _ _ _ Hh eq_refl)
    as (_ & Hapart & Hz);
    [ unfold hospitals_apart; constructor | constructor | ].
  simpl in Hlen. auto.
Qed.

(** X6.  In a scene the set-up returns, every drone is more than
    [2 * HOSPITAL_RADIUS] away from its target, so that no drone has
    reached its target before the first frame: the first call of the
    handler moves every drone. *)
Theorem new_drones_are_on_their_way (fuel nd nh : nat) (g g' : Random)
  (s : Scene) :
  setup fuel nd nh g = Some (Returned s, g') ->
  length (drones s) = nd /\
  Forall
    (fun e =>
       vlength (drone_location (entry_drone e) - entry_target e)
       > HOSPITAL_RADIUS * 2 /\
       target_reached e = false) (drones s).
Proof.
  intros H.
  destruct (setup_hospitals _ _ _ _ _ _ H) as (_ & Hapart & Hz).
  destruct (setup_returned _ _ _ _ _ _ H) as (hp & g1 & g2 & _ & _ & Hd).
  split; [ apply (create_drones_length _ _ _ _ _ _ Hd) | ].
  apply (create_drones_forall _ (hospitals s)) with
    (n := nd) (ds := []) (g := g2) (g' := g'); auto.
  intros e g0 g0' He.
  destruct (create_drone_entry_returned _ _ _ _ He)
    as (Hl & Hin & end_ & Hin' & Hne & Ht).
  rewrite Forall_forall in Hz.
  assert (Hfar : vlength (drone_location (entry_drone e) - entry_target e)
                 > HOSPITAL_RADIUS * 2).
  { rewrite Hl, Ht, vlength_set_z
      by (rewrite (Hz _ Hin), (Hz _ Hin'); reflexivity).
    apply (hospitals_apart_in (hospitals s)); auto. }
  split; [ exact Hfar | ].
  apply Rltb_false. settings. lra.
Qed.

(** The two drones of the set-up with the generator [spread]. *)
Lemma new_drones_are_on_their_way_witness :
  exists s g',
    setup 1 2 2 spread = Some (Returned s, g') /\
    length (drones s) = 2%nat /\
    Forall (fun e => target_reached e = false) (drones s).
Proof.
  destruct spread_setup_returns as (s & g' & H).
  exists s, g'. split; [ exact H | ].
  destruct (new_drones_are_on_their_way 1 2 2 spread g' s H) as [Hlen Hall].
  split; [ exact Hlen | ].
  apply (Forall_impl _ (fun e He => proj2 He) Hall).
Defined.

(** ** Inside the boundary *)

Lemma unit_floats_after (n : nat) (g : Random) :
  unit_floats g -> unit_floats (after_floats n g).
Proof. intros H i. apply H. Qed.

Lemma uniform_between (a b u : R) :
  a <= b -> 0 <= u <= 1 -> a <= a + (b - a) * u <= b.
Proof. intros Hab Hu. nra. Qed.

Lemma hospital_candidate_within (g : Random) (k : nat) :
  unit_floats g -> within_boundary (hospital_candidate g k).
Proof.
  intros Hg. unfold within_boundary, hospital_candidate; simpl.
  split; apply Rabs_le;
    match goal with
    | |- context [floats g ?i] =>
        pose proof (uniform_between (- CITY_BOUNDARY_X) CITY_BOUNDARY_X
                      (floats g i)) as H;
        pose proof (Hg i); settings; lra
    end.
Qed.

Lemma cloud_candidate_within (g : Random) (k : nat) :
  unit_floats g -> within_boundary (cloud_candidate g k).
Proof. apply (hospital_candidate_within g k). Qed.

Lemma place_hospital_unit_floats (fuel : nat) (hp : list Vector) :
  forall g g' pos,
    place_hospital fuel hp g = Some (pos, g') ->
    unit_floats g -> unit_floats g'.
Proof.
  induction fuel as [ | fuel IH]; intros g g' pos H Hg.
  - discriminate.
  - rewrite place_hospital_step in H.
    destruct (hospital_fits (hospital_candidate g 0) hp).
    + inversion H; subst. apply unit_floats_after. exact Hg.
    + apply (IH _ _ _ H). apply unit_floats_after. exact Hg.
Qed.

Lemma place_cloud_unit_floats (fuel : nat) (cs : list Cloud)
  (hp : list Vector) :
  forall g g' pos,
    place_cloud fuel cs hp g = Some (pos, g') ->
    unit_floats g -> unit_floats g'.
Proof.
  induction fuel as [ | fuel IH]; intros g g' pos H Hg.
  - discriminate.
  - rewrite place_cloud_step in H.
    destruct (cloud_fits (cloud_candidate g 0) cs hp).
    + inversion H; subst. apply unit_floats_after. exact Hg.
    + apply (IH _ _ _ H). apply unit_floats_after. exact Hg.
Qed.

Lemma create_hospitals_within (fuel n : nat) :
  forall hs hp g hs' hp' g',
    create_hospitals fuel n hs hp g = Some (hs', hp', g') ->
    unit_floats g ->
    Forall (fun h => within_boundary (hospital_location h)) hs ->
    unit_floats g' /\
    Forall (fun h => within_boundary (hospital_location h)) hs'.
Proof.
  induction n as [ | n IH]; intros hs hp g hs' hp' g' H Hg Hhs;
    cbn [create_hospitals] in H.
  - inversion H; subst. auto.
  - destruct (place_hospital fuel hp g) as [[pos g1] | ] eqn:Hp;
      [ | discriminate ].
    destruct (place_hospital_returned _ _ _ _ _ Hp) as (_ & k & Hk).
    apply (IH _ _ _ _ _ _ H).
    + apply (place_hospital_unit_floats _ _ _ _ _ Hp Hg).
    + apply Forall_app. split; [ exact Hhs | ].
      constructor; [ | constructor ]. simpl. rewrite Hk.
      apply hospital_candidate_within. exact Hg.
Qed.

Lemma create_clouds_within (fuel n : nat) (hp : list Vector) :
  forall cs g cs' g',
    create_clouds fuel n cs hp g = Some (cs', g') ->
    unit_floats g ->
    Forall (fun c => within_boundary (cloud_location c)) cs ->
    Forall (fun c => within_boundary (cloud_location c)) cs'.
Proof.
  induction n as [ | n IH]; intros cs g cs' g' H Hg Hcs;
    cbn [create_clouds] in H.
  - inversion H; subst. auto.
  - destruct (place_cloud fuel cs hp g) as [[pos g1] | ] eqn:Hp;
      [ | discriminate ].
    rewrite cloud_heading_eq in H.
    destruct (place_cloud_returned _ _ _ _ _ _ Hp) as (_ & k & Hk).
    apply (IH _ _ _ _ H).
    + apply unit_floats_after.
      apply (place_cloud_unit_floats _ _ _ _ _ _ Hp Hg).
    + apply Forall_app. split; [ exact Hcs | ].
      constructor; [ | constructor ]. simpl. rewrite Hk.
      apply cloud_candidate_within. exact Hg.
Qed.

(** X4.  When [random.random()] returns numbers between zero and one, every
    hospital and every cloud of a scene the set-up returns is within the
    boundary of the city, and so is every drone and every target. *)
Theorem setup_places_within_boundary (fuel nd nh : nat) (g g' : Random)
  (s : Scene) :
  unit_floats g ->
  setup fuel nd nh g = Some (Returned s, g') ->
  Forall (fun h => within_boundary (hospital_location h)) (hospitals s) /\
  Forall (fun c => within_boundary (cloud_location c)) (clouds s) /\
  Forall (fun e => within_boundary (drone_location (entry_drone e))
                   /\ within_boundary (entry_target e)) (drones s).
Proof.
  intros Hg H.
  destruct (setup_returned _ _ _ _ _ _ H) as (hp & g1 & g2 & Hh & Hc & Hd).
  destruct (create_hospitals_within _ _ _ _ _ _ _ _ Hh Hg (Forall_nil _))
    as [Hg1 Hhs].
  split; [ exact Hhs | ]. split.
  - apply (create_clouds_within _ _ _ _ _ _ _ Hc Hg1 (Forall_nil _)).
  - apply (create_drones_forall _ (hospitals s)) with
      (n := nd) (ds := []) (g := g2) (g' := g'); auto.
    intros e g0 g0' He.
    destruct (create_drone_entry_returned _ _ _ _ He)
      as (Hl & Hin & end_ & Hin' & _ & Ht).
    rewrite Forall_forall in Hhs. rewrite Hl, Ht.
    split; [ apply (Hhs _ Hin) | apply (Hhs _ Hin') ].
Qed.

Lemma spread_unit_floats : unit_floats spread.
Proof.
  intros i. unfold spread; cbn [floats].
  assert (H0 : 0 <= INR (Nat.min i 39)) by apply pos_INR.
  assert (H1 : INR (Nat.min i 39) <= INR 39)
    by (apply le_INR; apply Nat.le_min_r).
  assert (H39 : INR 39 = 39) by (simpl; lra).
  lra.
Qed.

(** The set-up with the generator [spread]. *)
Lemma setup_places_within_boundary_witness :
  exists s g',
    setup 1 2 2 spread = Some (Returned s, g') /\
    Forall (fun h => within_boundary (hospital_location h)) (hospitals s) /\
    Forall (fun c => within_boundary (cloud_location c)) (clouds s).
Proof.
  destruct spread_setup_returns as (s & g' & H).
  exists s, g'. split; [ exact H | ].
  destruct (setup_places_within_boundary 1 2 2 spread g' s
              spread_unit_floats H) as (Hh & Hc & _).
  split; [ exact Hh | exact Hc ].
Defined.

(** ** What the frames keep, and when they raise *)

Lemma update_drones_length (hs : list Hospital) (cs : list Cloud)
  (ds : list DroneEntry) :
  forall g, length (fst (fst (update_drones hs cs ds g))) = length ds.
Proof.
  induction ds as [ | d ds' IH]; intros g; simpl.
  - reflexivity.
  - destruct (update_drone hs cs d g) as [[d' | exn] g1]; [ | reflexivity ].
    specialize (IH g1).
    destruct (update_drones hs cs ds' g1) as [[rest' r] g2]. simpl in *.
    rewrite IH. reflexivity.
Qed.

Lemma update_scene_lengths (s : Scene) (g : Random) :
  length (clouds (scene_after (update_scene s g))) = length (clouds s) /\
  length (drones (scene_after (update_scene s g))) = length (drones s).
Proof.
  split.
  - rewrite update_scene_clouds. apply move_clouds_length.
  - pose proof (update_scene_drones s g) as Hd.
    pose proof (update_drones_length (hospitals s)
                  (clouds (scene_after (update_scene s g))) (drones s) g)
      as Hlen.
    rewrite <- Hd in Hlen. exact Hlen.
Qed.

(** X9.  The handler creates and deletes nothing: after any number of
    frames, whether or not a frame raised, the hospitals are the same, and
    there are as many clouds and as many drones as before. *)
Theorem frames_keep_the_objects (n : nat) (s : Scene) (g : Random) :
  hospitals (fst (run_frames n s g)) = hospitals s /\
  length (clouds (fst (run_frames n s g))) = length (clouds s) /\
  length (drones (fst (run_frames n s g))) = length (drones s).
Proof.
  split; [ apply run_frames_hospitals | ].
  revert s g. induction n as [ | n IH]; intros s g.
  - split; reflexivity.
  - cbn [run_frames].
    destruct (IH (scene_after (update_scene s g))
                 (random_after (update_scene s g))) as [Hc Hd].
    destruct (update_scene_lengths s g) as [Hc1 Hd1].
    rewrite Hc, Hd. auto.
Qed.

Lemma update_drones_no_exception (hs : list Hospital) (cs : list Cloud)
  (ds : list DroneEntry) :
  two_hospitals hs ->
  forall g, snd (fst (update_drones hs cs ds g)) = None.
Proof.
  intros Hhs. induction ds as [ | d ds' IH]; intros g; simpl.
  - reflexivity.
  - destruct (update_drone_returns hs cs d g Hhs) as (d' & g1 & Hd).
    rewrite Hd. specialize (IH g1).
    destruct (update_drones hs cs ds' g1) as [[rest' r] g2]. exact IH.
Qed.

Lemma update_scene_no_exception (s : Scene) (g : Random) :
  two_hospitals (hospitals s) -> exception_of (update_scene s g) = None.
Proof.
  intros Hhs. pose proof (update_scene_drones s g) as Hd.
  pose proof (update_drones_no_exception (hospitals s)
                (clouds (scene_after (update_scene s g))) (drones s) Hhs g)
    as Hnone.
  rewrite <- Hd in Hnone. exact Hnone.
Qed.

(** X10.  With at least two distinct hospitals no frame raises: the call of
    the handler that follows any number of frames returns without an
    exception. *)
Theorem no_frame_raises (n : nat) (s : Scene) (g : Random) :
  two_hospitals (hospitals s) ->
  exception_of
    (update_scene (fst (run_frames n s g)) (snd (run_frames n s g))) = None.
Proof.
  intros Hhs. apply update_scene_no_exception.
  rewrite run_frames_hospitals. exact Hhs.
Qed.

(** The sixth frame of the scenario of the specification. *)
Lemma no_frame_raises_witness :
  exception_of
    (update_scene (fst (run_frames 5 arrival_scene steady))
                  (snd (run_frames 5 arrival_scene steady))) = None.
Proof.
  exact (no_frame_raises 5 arrival_scene steady two_hospitals_A_B).
Defined.

(** The loop is left at the first drone that has arrived, when no other
    hospital can be chosen for it. *)
Lemma update_drones_raises (hs : list Hospital) (cs : list Cloud) :
  forall (ds : list DroneEntry) (idx : nat) (e : DroneEntry) (g : Random),
    nth_error ds idx = Some e ->
    target_reached e = true ->
    filter (fun h => hospital_neqb h (entry_hospital e)) hs = [] ->
    (forall j ej,
        (j < idx)%nat -> nth_error ds j = Some ej ->
        target_reached ej = false) ->
    update_drones hs cs ds g
    = (map (fun d => (move_drone (entry_drone d) (entry_target d) cs,
                      entry_target d, entry_hospital d)) (firstn idx ds)
       ++ skipn idx ds,
       Some IndexError, g).
Proof.
  induction ds as [ | d ds' IH]; intros idx e g Hn Hr Hf Hbefore.
  - destruct idx; discriminate.
  - destruct idx as [ | idx']; simpl in Hn.
    + inversion Hn; subst d. cbn [update_drones firstn skipn map app].
      rewrite update_drone_reached_eq by exact Hr.
      rewrite Hf. reflexivity.
    + cbn [update_drones firstn skipn map app].
      rewrite update_drone_moving
        by (apply (Hbefore 0%nat d); [ lia | reflexivity ]).
      rewrite (IH idx' e g Hn Hr Hf).
      * reflexivity.
      * intros j ej Hj Hnj. apply (Hbefore (S j) ej); [ lia | exact Hnj ].
Qed.

(** X8.  When a drone has reached its target and every hospital of the
    list is the one its entry stores (a list of one hospital), the handler
    raises [IndexError] at that drone, the first such drone of the list:
    the clouds are moved, the drones before it are moved, that drone and
    the drones after it are left as they were, and no random number is
    drawn. *)
Theorem update_scene_raises_without_other_hospital (s : Scene) (g : Random)
  (idx : nat) (e : DroneEntry) :
  nth_error (drones s) idx = Some e ->
  target_reached e = true ->
  (forall h, In h (hospitals s) ->
             hospital_id h = hospital_id (entry_hospital e)) ->
  (forall j ej,
      (j < idx)%nat -> nth_error (drones s) j = Some ej ->
      target_reached ej = false) ->
  let moved_clouds := move_clouds (hospitals s) (clouds s) in
  update_scene s g
  = (mkScene (hospitals s) moved_clouds
       (map (fun d => (move_drone (entry_drone d) (entry_target d)
                         moved_clouds,
                       entry_target d, entry_hospital d))
            (firstn idx (drones s))
        ++ skipn idx (drones s)),
     Some IndexError, g).
Proof.
  intros Hn Hr Hall Hbefore moved_clouds. unfold update_scene.
  fold moved_clouds.
  rewrite (update_drones_raises (hospitals s) moved_clouds (drones s) idx e g
             Hn Hr); [ reflexivity | | exact Hbefore ].
  induction (hospitals s) as [ | h hs IH]; [ reflexivity | ].
  simpl. unfold hospital_neqb at 1.
  rewrite (Hall h (or_introl eq_refl)), Nat.eqb_refl. simpl.
  apply IH. intros h' Hin. apply Hall. right. exact Hin.
Qed.

(** One hospital, and the second drone of the list has arrived. *)
Lemma update_scene_raises_without_other_hospital_witness :
  update_scene one_hospital_scene steady
  = (mkScene [hospital_A] (move_clouds [hospital_A] [south_cloud])
       [(move_drone (entry_drone leaving_entry) (entry_target leaving_entry)
           (move_clouds [hospital_A] [south_cloud]),
         entry_target leaving_entry, hospital_A);
        arriving_entry; arriving_entry],
     Some IndexError, steady).
Proof.
  apply (update_scene_raises_without_other_hospital one_hospital_scene steady
           1 arriving_entry).
  - reflexivity.
  - exact arriving_entry_reached.
  - intros h [Hh | []]. subst h. reflexivity.
  - intros j ej Hj Hnj. destruct j as [ | j]; [ | lia ].
    inversion Hnj; subst ej. exact leaving_entry_not_reached.
Defined.

(** ** Two hospitals *)

Lemma update_drone_other_hospital (h1 h2 : Hospital) (cs : list Cloud)
  (e : DroneEntry) (g : Random) :
  hospital_id h1 <> hospital_id h2 ->
  target_reached e = true ->
  hospital_id (entry_hospital e) = hospital_id h1 ->
  fst (update_drone [h1; h2] cs e g)
  = Returned (mkDrone (set_z (hospital_location (entry_hospital e))
                             DRONE_ALTITUDE),
              set_z (hospital_location h2) DRONE_ALTITUDE, h2) /\
  fst (update_drone [h2; h1] cs e g)
  = Returned (mkDrone (set_z (hospital_location (entry_hospital e))
                             DRONE_ALTITUDE),
              set_z (hospital_location h2) DRONE_ALTITUDE, h2).
Proof.
  intros Hne Hr Hid.
  rewrite !update_drone_reached_eq by exact Hr.
  unfold bind. cbn [filter]. unfold hospital_neqb. rewrite Hid.
  rewrite Nat.eqb_refl.
  assert (E : Nat.eqb (hospital_id h2) (hospital_id h1) = false)
    by (apply Nat.eqb_neq; auto).
  rewrite E. cbn [negb choice length nth]. rewrite Nat.mod_1_r.
  split; reflexivity.
Qed.

(** X7.  With exactly two hospitals the choice of the new hospital is no
    choice: whatever the generator, a drone that has reached its target is
    put at the hospital its entry stores, and the entry then stores the
    other hospital and targets it.  Retarget after retarget, the stored
    hospital alternates between the two. *)
Theorem two_hospitals_alternate (s : Scene) (g : Random) (idx : nat)
  (e : DroneEntry) (here other : Hospital) :
  hospitals s = [here; other] \/ hospitals s = [other; here] ->
  hospital_id here <> hospital_id other ->
  nth_error (drones s) idx = Some e ->
  target_reached e = true ->
  hospital_id (entry_hospital e) = hospital_id here ->
  nth_error (drones (scene_after (update_scene s g))) idx
  = Some (mkDrone (set_z (hospital_location (entry_hospital e))
                         DRONE_ALTITUDE),
          set_z (hospital_location other) DRONE_ALTITUDE, other).
Proof.
  intros Hhs Hne Hn Hr Hid.
  assert (H2 : two_hospitals (hospitals s)).
  { split.
    - destruct Hhs as [E | E]; rewrite E; simpl;
        (constructor; [ | constructor; [ | constructor ] ]); simpl;
        intuition congruence.
    - destruct Hhs as [E | E]; rewrite E; simpl; lia. }
  destruct (update_scene_nth s g idx e H2 Hn)
    as (_ & e' & gi & gi' & He & Hnth).
  rewrite Hnth. f_equal.
  destruct (update_drone_other_hospital here other
              (clouds (scene_after (update_scene s g))) e gi Hne Hr Hid)
    as [H1 H1'].
  destruct Hhs as [E | E]; rewrite E, He in *; simpl in *; congruence.
Qed.

(** The scenario of the specification: the drone stored A, and stores B
    after its arrival. *)
Lemma two_hospitals_alternate_witness :
  nth_error (drones (scene_after (update_scene arrival_scene steady))) 0
  = Some (mkDrone (set_z (hospital_location hospital_A) DRONE_ALTITUDE),
          set_z (hospital_location hospital_B) DRONE_ALTITUDE, hospital_B).
Proof.
  apply (two_hospitals_alternate arrival_scene steady 0 arriving_entry
           hospital_A hospital_B).
  - left. reflexivity.
  - simpl. discriminate.
  - reflexivity.
  - exact arriving_entry_reached.
  - reflexivity.
Defined.

(** ** How far a drone flies in a frame *)

Lemma spec_movement_length (p t : Vector) (r : R) (cs : list Cloud) :
  vlength (spec_movement p t r cs) = 1 \/ spec_movement p t r cs = vzero.
Proof.
  unfold spec_movement.
  destruct (vector_eq_dec _ vzero) as [E | E].
  - right. reflexivity.
  - left. apply vlength_normalized. exact E.
Qed.

Lemma planar_step_length (p m : Vector) (s c : R) :
  0 <= s ->
  vlength (planar (set_z (p + m * s) c) - planar p) <= vlength m * s.
Proof.
  intros Hs. unfold vlength at 1; simpl.
  rewrite <- (sqrt_square (vlength m * s))
    by (apply Rmult_le_pos; [ apply vlength_nonneg | exact Hs ]).
  apply sqrt_le_1_alt.
  replace (vlength m * s * (vlength m * s))
    with (vlength m * vlength m * (s * s)) by ring.
  unfold vlength. rewrite sqrt_sqrt by apply sum_squares_nonneg.
  pose proof (Rle_0_sqr (z m * s)) as Hz. unfold Rsqr in Hz.
  nra.
Qed.

(** X11.  [move_drone] never moves a drone by more than [DRONE_SPEED] in
    the plane, whatever the clouds and the target, and it leaves the drone
    at drone altitude. *)
Theorem drone_step_is_bounded (drone : Drone) (target : Vector)
  (cs : list Cloud) :
  vlength (planar (drone_location (move_drone drone target cs))
           - planar (drone_location drone)) <= DRONE_SPEED /\
  z (drone_location (move_drone drone target cs)) = DRONE_ALTITUDE.
Proof.
  split; [ | reflexivity ].
  rewrite move_drone_spec. unfold spec_advance_drone.
  assert (Hs : 0 <= DRONE_SPEED) by (settings; lra).
  eapply Rle_trans; [ apply planar_step_length; exact Hs | ].
  destruct (spec_movement_length (drone_location drone) target
              DRONE_AVOIDANCE_RADIUS cs) as [H | H]; rewrite H.
  - lra.
  - rewrite vlength_vzero. lra.
Qed.

(** ** A drone with no cloud in range *)

Lemma spec_repulsion_none (p : Vector) (r : R) (cs : list Cloud) :
  (forall c, In c cs -> ~ planar_distance p (cloud_location c) < r) ->
  spec_repulsion p r cs = vzero.
Proof.
  intros H. unfold spec_repulsion.
  replace (filter (spec_repels p r) cs) with (@nil Cloud); [ reflexivity | ].
  symmetry. induction cs as [ | c cs IH]; [ reflexivity | ].
  simpl. unfold spec_repels at 1.
  rewrite (proj2 (Rltb_false _ _) (H c (or_introl eq_refl))).
  apply IH. intros c' Hin. apply H. right. exact Hin.
Qed.

Lemma normalized_unit (v : Vector) : vlength v = 1 -> normalized v = v.
Proof.
  intros H. unfold normalized. rewrite H.
  destruct (1 >? 0) eqn:E; [ | apply Rgtb_false in E; lra ].
  destruct v as [vx vy vz]. apply vector_eq; simpl; field.
Qed.

Lemma vsub_nonzero (t p : Vector) : 0 < vlength (t - p) -> t <> p.
Proof.
  intros H E. subst t.
  replace (p - p)%V with vzero in H by (apply vector_eq; simpl; ring).
  rewrite vlength_vzero in H. lra.
Qed.

(** Without a cloud in range the drone flies one step straight to its
    target. *)
Lemma move_drone_free (drone : Drone) (target : Vector) (cs : list Cloud) :
  (forall c, In c cs ->
             ~ planar_distance (drone_location drone) (cloud_location c)
               < DRONE_AVOIDANCE_RADIUS) ->
  0 < vlength (target - drone_location drone) ->
  drone_location (move_drone drone target cs)
  = set_z (drone_location drone
           + normalized (target - drone_location drone) * DRONE_SPEED)%V
          DRONE_ALTITUDE.
Proof.
  intros Hfree Hd. rewrite move_drone_spec.
  unfold spec_advance_drone, spec_movement.
  rewrite (spec_repulsion_none _ _ _ Hfree), vadd_vzero_r.
  unfold spec_attraction.
  destruct (vector_eq_dec target (drone_location drone)) as [E | E];
    [ exfalso; apply (vsub_nonzero _ _ Hd); exact E | ].
  assert (Hu : vlength (normalized (target - drone_location drone)) = 1)
    by (apply vlength_normalized; apply vlength_pos; exact Hd).
  destruct (vector_eq_dec (normalized (target - drone_location drone)) vzero)
    as [E0 | E0].
  - rewrite E0, vlength_vzero in Hu. lra.
  - rewrite (normalized_unit _ Hu). reflexivity.
Qed.

Lemma move_drone_free_distance (drone : Drone) (target : Vector)
  (cs : list Cloud) :
  (forall c, In c cs ->
             ~ planar_distance (drone_location drone) (cloud_location c)
               < DRONE_AVOIDANCE_RADIUS) ->
  z (drone_location drone) = DRONE_ALTITUDE ->
  z target = DRONE_ALTITUDE ->
  DRONE_SPEED <= vlength (drone_location drone - target) ->
  vlength (drone_location (move_drone drone target cs) - target)
  = vlength (drone_location drone - target) - DRONE_SPEED.
Proof.
  intros Hfree Hz Hzt Hd.
  rewrite (vlength_sub_sym (drone_location drone)) in *.
  set (p := drone_location drone) in *.
  set (d := vlength (target - p)) in *.
  assert (Hs : 0 < DRONE_SPEED) by (settings; lra).
  assert (Hpos : 0 < d) by lra.
  rewrite (move_drone_free drone target cs Hfree Hpos). fold p.
  assert (Hne : (target - p)%V <> vzero) by (apply vlength_pos; exact Hpos).
  rewrite (normalized_scale _ Hne). fold d.
  replace (set_z (p + (target - p) * / d * DRONE_SPEED) DRONE_ALTITUDE
           - target)%V
    with ((target - p) * (DRONE_SPEED / d - 1))%V.
  - rewrite vlength_scale. fold d.
    assert (Hq : DRONE_SPEED / d <= 1).
    { apply (Rmult_le_reg_r d); [ exact Hpos | ].
      unfold Rdiv. rewrite Rmult_assoc, Rinv_l by lra. lra. }
    rewrite Rabs_left1 by lra. field. lra.
  - apply vector_eq; simpl; try (field; lra).
    rewrite Hzt. fold p in Hz. rewrite Hz. field. lra.
Qed.

(** X12.  A drone at drone altitude with a target at drone altitude at a
    distance of at least [DRONE_SPEED], and with no cloud within the
    avoidance radius, is moved straight towards its target: [move_drone]
    shortens its distance to the target by exactly [DRONE_SPEED]. *)
Theorem free_drone_approaches_target (drone : Drone) (target : Vector)
  (cs : list Cloud) :
  (forall c, In c cs ->
             ~ planar_distance (drone_location drone) (cloud_location c)
               < DRONE_AVOIDANCE_RADIUS) ->
  z (drone_location drone) = DRONE_ALTITUDE ->
  z target = DRONE_ALTITUDE ->
  DRONE_SPEED <= vlength (drone_location drone - target) ->
  vlength (drone_location (move_drone drone target cs) - target)
  = vlength (drone_location drone - target) - DRONE_SPEED.
Proof.
  intros Hfree Hz Hzt Hd. apply move_drone_free_distance; assumption.
Qed.

(** The drone that has just left A, ten away from B, with the cloud beyond
    the avoidance radius. *)
Lemma free_drone_approaches_target_witness :
  vlength (drone_location
             (move_drone (entry_drone leaving_entry)
                (entry_target leaving_entry) [south_cloud])
           - entry_target leaving_entry)
  = vlength (drone_location (entry_drone leaving_entry)
             - entry_target leaving_entry) - DRONE_SPEED.
Proof.
  apply free_drone_approaches_target.
  - intros c [Hc | []]. subst c. unfold planar_distance. length_bound.
  - reflexivity.
  - reflexivity.
  - apply Rnot_lt_le. length_bound.
Defined.

(** ** Frames under an open sky *)

(** X13.  In a scene without clouds, with at least two distinct hospitals,
    a drone at drone altitude flies straight to its target, one
    [DRONE_SPEED] per frame: as long as [(n + 1) * DRONE_SPEED] does not
    exceed its distance to the target, after [n] frames it is [n *
    DRONE_SPEED] nearer, with its target and its stored hospital
    unchanged. *)
Theorem open_sky_drone_flies_straight (n : nat) (s : Scene) (g : Random)
  (idx : nat) (e : DroneEntry) :
  two_hospitals (hospitals s) ->
  clouds s = [] ->
  nth_error (drones s) idx = Some e ->
  z (drone_location (entry_drone e)) = DRONE_ALTITUDE ->
  z (entry_target e) = DRONE_ALTITUDE ->
  (INR n + 1) * DRONE_SPEED
  <= vlength (drone_location (entry_drone e) - entry_target e) ->
  exists e',
    nth_error (drones (fst (run_frames n s g))) idx = Some e' /\
    entry_target e' = entry_target e /\
    entry_hospital e' = entry_hospital e /\
    vlength (drone_location (entry_drone e') - entry_target e)
    = vlength (drone_location (entry_drone e) - entry_target e)
      - INR n * DRONE_SPEED.
Proof.
  revert s g idx e.
  assert (Hs : 0 < DRONE_SPEED) by (settings; lra).
  induction n as [ | n IH]; intros s g idx e Hhs Hcs Hn Hz Hzt Hd.
  - exists e. cbn [run_frames fst INR]. repeat split; auto. ring.
  - rewrite S_INR in Hd. pose proof (pos_INR n) as Hpos.
    set (d := vlength (drone_location (entry_drone e) - entry_target e)) in *.
    assert (Hfar : target_reached e = false).
    { apply Rltb_false. fold d. nra. }
    destruct (update_scene_nth s g idx e Hhs Hn)
      as (_ & e1 & gi & gi' & He & Hnth).
    rewrite (update_drone_moving _ _ _ _ Hfar) in He.
    rewrite update_scene_clouds, Hcs in He. cbn [move_clouds map] in He.
    inversion He as [[He1 Hg1]]. clear He.
    assert (Hd1 : vlength (drone_location (entry_drone e1) - entry_target e)
                  = d - DRONE_SPEED).
    { rewrite <- He1. unfold entry_drone at 1; cbn [fst].
      apply move_drone_free_distance;
        [ intros c [] | exact Hz | exact Hzt | fold d; nra ]. }
    cbn [run_frames].
    destruct (IH (scene_after (update_scene s g))
                 (random_after (update_scene s g)) idx e1)
      as (e' & Hn' & Ht' & Hh' & Hd').
    + rewrite update_scene_hospitals. exact Hhs.
    + rewrite update_scene_clouds, Hcs. reflexivity.
    + exact Hnth.
    + rewrite <- He1. reflexivity.
    + rewrite <- He1. exact Hzt.
    + replace (entry_target e1) with (entry_target e)
        by (rewrite <- He1; reflexivity).
      rewrite Hd1. nra.
    + assert (Ht1 : entry_target e1 = entry_target e)
        by (rewrite <- He1; reflexivity).
      assert (Hh1 : entry_hospital e1 = entry_hospital e)
        by (rewrite <- He1; reflexivity).
      exists e'. split; [ exact Hn' | ].
      rewrite Ht1 in Ht', Hd'. rewrite Hh1 in Hh'.
      split; [ exact Ht' | ]. split; [ exact Hh' | ].
      rewrite Hd', Hd1, S_INR. ring.
Qed.

(** Three frames of the drone that has just left A for B. *)
Lemma open_sky_drone_flies_straight_witness :
  exists e',
    nth_error (drones (fst (run_frames 3 open_sky_scene steady))) 0
    = Some e' /\
    vlength (drone_location (entry_drone e') - entry_target leaving_entry)
    = vlength (drone_location (entry_drone leaving_entry)
               - entry_target leaving_entry) - INR 3 * DRONE_SPEED.
Proof.
  destruct (open_sky_drone_flies_straight 3 open_sky_scene steady 0
              leaving_entry two_hospitals_A_B eq_refl eq_refl eq_refl
              eq_refl) as (e' & Hn & _ & _ & Hd).
  - apply Rnot_lt_le. apply vlength_not_lt; simpl; settings; lra.
  - exists e'. split; [ exact Hn | exact Hd ].
Defined.

(** ** Clouds at the boundary and at a hospital *)

Lemma Rabs_le_between (a b : R) : Rabs a <= b <-> - b <= a <= b.
Proof. unfold Rabs. destruct (Rcase_abs a); lra. Qed.

Lemma Rabs_gt_outside (a b : R) : Rabs a > b <-> a > b \/ a < - b.
Proof. unfold Rabs. destruct (Rcase_abs a); lra. Qed.

(** One axis of a bounce off the boundary. *)
Lemma bounce_stays_inside (b p d s : R) :
  0 <= s <= b -> - b <= p <= b -> - 1 <= d <= 1 ->
  (if Rabs (p + d * s) >? b
   then - b <= p + d * -1 * s <= b
   else - b <= p + d * s <= b).
Proof.
  intros Hs Hp Hd.
  assert (Hds : - s <= d * s <= s) by nra.
  destruct (Rabs (p + d * s) >? b) eqn:E.
  - apply Rgtb_true, Rabs_gt_outside in E. lra.
  - apply Rgtb_false in E. apply Rabs_le_between. lra.
Qed.

(** X14.  A cloud within the boundary whose candidate is not near a
    hospital, and whose heading components are at most one in absolute
    value (the heading is a unit vector), is still within the boundary
    after [move_clouds]: a bounce off the boundary keeps the cloud in. *)
Theorem boundary_bounce_keeps_cloud_inside (hs : list Hospital) (c : Cloud) :
  bounces_off_hospital hs c = false ->
  Rabs (x (cloud_direction c)) <= 1 ->
  Rabs (y (cloud_direction c)) <= 1 ->
  within_boundary (cloud_location c) ->
  within_boundary (cloud_location (move_cloud hs c)).
Proof.
  unfold bounces_off_hospital, within_boundary. intros Hnear Hdx Hdy [Hx Hy].
  apply Rabs_le_between in Hdx, Hdy, Hx, Hy.
  assert (Hs : 0 <= CLOUD_SPEED <= CITY_BOUNDARY_X) by (settings; lra).
  assert (Hs' : 0 <= CLOUD_SPEED <= CITY_BOUNDARY_Y) by (settings; lra).
  pose proof (bounce_stays_inside _ _ _ _ Hs Hx Hdx) as Bx.
  pose proof (bounce_stays_inside _ _ _ _ Hs' Hy Hdy) as By.
  unfold move_cloud. rewrite Hnear, !orb_false_r.
  cbn [vadd vscale x y] in *.
  destruct (Rabs (x (cloud_location c) + x (cloud_direction c) * CLOUD_SPEED)
            >? CITY_BOUNDARY_X);
    destruct (Rabs (y (cloud_location c)
                    + y (cloud_direction c) * CLOUD_SPEED)
              >? CITY_BOUNDARY_Y);
    cbn [cloud_location vadd vscale x y];
    split; apply Rabs_le_between; assumption.
Qed.

Lemma south_cloud_free :
  bounces_off_hospital [hospital_A; hospital_B] south_cloud = false.
Proof.
  unfold bounces_off_hospital. cbn [existsb]. unfold hospital_is_near.
  rewrite (proj2 (Rltb_false _ _)) by length_bound.
  rewrite (proj2 (Rltb_false _ _)) by length_bound.
  reflexivity.
Qed.

(** The cloud drifting south, away from both hospitals. *)
Lemma boundary_bounce_keeps_cloud_inside_witness :
  within_boundary (cloud_location south_cloud) /\
  within_boundary
    (cloud_location (move_cloud [hospital_A; hospital_B] south_cloud)).
Proof.
  assert (H : within_boundary (cloud_location south_cloud)).
  { split; apply Rabs_le_between; simpl; settings; lra. }
  split; [ exact H | ].
  apply (boundary_bounce_keeps_cloud_inside _ _ south_cloud_free);
    [ | | exact H ]; apply Rabs_le_between; simpl; lra.
Defined.







(** ** The propellers of a drone *)

Lemma propeller_offset_length (location : Vector) (i : nat) :
  vlength (propeller_location location i - location) = DRONE_SIZE / 2.
Proof.
  unfold propeller_location.
  set (a := radians (90 * INR i)).
  replace (location + mkVector (cos a) (sin a) 0 * DRONE_SIZE * (5 / 10)
           - location)%V
    with (mkVector (cos a) (sin a) 0 * (DRONE_SIZE / 2))%V
    by (apply vector_eq; simpl; field).
  rewrite vlength_scale.
  assert (H1 : vlength (mkVector (cos a) (sin a) 0) = 1).
  { unfold vlength; simpl.
    replace (cos a * cos a + sin a * sin a + 0 * 0)
      with (Rsqr (sin a) + Rsqr (cos a)) by (unfold Rsqr; ring).
    rewrite sin2_cos2. apply sqrt_1. }
  rewrite H1, Rabs_pos_eq by (unfold DRONE_SIZE; lra). ring.
Qed.

(** X16.  [create_drone] puts four propellers around the body, each at the
    altitude of the body and [DRONE_SIZE / 2] away from it: east, north,
    west and south of it, in this order. *)
Theorem propellers_surround_body (location : Vector) :
  fst (create_drone location) = mkDrone location /\
  length (snd (create_drone location)) = 4%nat /\
  (forall p, In p (snd (create_drone location)) ->
             vlength (p - location) = DRONE_SIZE / 2 /\
             z p = z location) /\
  snd (create_drone location)
  = [(location + mkVector (DRONE_SIZE / 2) 0 0)%V;
     (location + mkVector 0 (DRONE_SIZE / 2) 0)%V;
     (location + mkVector (- (DRONE_SIZE / 2)) 0 0)%V;
     (location + mkVector 0 (- (DRONE_SIZE / 2)) 0)%V].
Proof.
  split; [ reflexivity | ]. split; [ reflexivity | ]. split.
  - unfold create_drone. cbn [snd]. intros p Hin.
    apply in_map_iff in Hin. destruct Hin as (i & Hp & _). subst p.
    split; [ apply propeller_offset_length | ].
    unfold propeller_location; simpl. ring.
  - unfold create_drone, propeller_location. cbn [snd map seq].
    replace (radians (90 * INR 0)) with 0
      by (unfold radians; simpl; field).
    replace (radians (90 * INR 1)) with (PI / 2)
      by (unfold radians; simpl; field).
    replace (radians (90 * INR 2)) with PI
      by (unfold radians; simpl; field).
    replace (radians (90 * INR 3)) with (3 * (PI / 2))
      by (unfold radians; simpl; field).
    rewrite cos_0, sin_0, cos_PI2, sin_PI2, cos_PI, sin_PI, cos_3PI2,
      sin_3PI2.
    repeat f_equal; apply vector_eq; simpl; unfold DRONE_SIZE; field.
Qed.

(** The north propeller of a drone created above hospital A. *)
Lemma propellers_surround_body_witness :
  vlength (propeller_location (mkVector 0 0 DRONE_ALTITUDE) 1
           - mkVector 0 0 DRONE_ALTITUDE) = DRONE_SIZE / 2.
Proof.
  destruct (propellers_surround_body (mkVector 0 0 DRONE_ALTITUDE))
    as (_ & _ & H & _).
  apply H. unfold create_drone. cbn [snd map seq]. right. left. reflexivity.
Defined.

(** ** The city grid *)

Lemma for_each_length {A B : Type} (body : A -> Random -> B * Random)
  (l : list A) :
  forall g, length (fst (for_each body l g)) = length l.
Proof.
  induction l as [ | a l IH]; intros g; cbn [for_each].
  - reflexivity.
  - destruct (body a g) as [b g1]. specialize (IH g1).
    destruct (for_each body l g1) as [bs g2]. simpl in *. rewrite IH.
    reflexivity.
Qed.

(** What the body establishes for every element, under a condition on the
    generator that it keeps, the loop establishes for every result. *)
Lemma for_each_forall {A B : Type} (body : A -> Random -> B * Random)
  (Inv : Random -> Prop) (Q : B -> Prop) (l : list A) :
  (forall a g, In a l -> Inv g ->
               Q (fst (body a g)) /\ Inv (snd (body a g))) ->
  forall g, Inv g ->
            Forall Q (fst (for_each body l g))
            /\ Inv (snd (for_each body l g)).
Proof.
  induction l as [ | a l IH]; intros Hbody g Hg; cbn [for_each].
  - split; [ constructor | exact Hg ].
  - destruct (Hbody a g (or_introl eq_refl) Hg) as [Hq Hg1].
    destruct (body a g) as [b g1]. cbn [fst snd] in Hq, Hg1.
    destruct (IH (fun a' g' Hin => Hbody a' g' (or_intror Hin)) g1 Hg1)
      as [Hqs Hg2].
    destruct (for_each body l g1) as [bs g2]. cbn [fst snd] in *.
    split; [ constructor; assumption | exact Hg2 ].
Qed.

(** A loop whose body draws [k] floats and no integer draws [k] floats for
    every element. *)
Lemma for_each_draws {A B : Type} (body : A -> Random -> B * Random)
  (k : nat) (l : list A) :
  (forall a g, snd (body a g) = after_floats k g) ->
  forall g,
    ints (snd (for_each body l g)) = ints g /\
    forall i,
      floats (snd (for_each body l g)) i = floats g (k * length l + i).
Proof.
  intros Hbody. induction l as [ | a l IH]; intros g; cbn [for_each].
  - split; [ reflexivity | ]. intros i. cbn [snd length].
    rewrite Nat.mul_0_r. reflexivity.
  - pose proof (Hbody a g) as Hg1.
    destruct (body a g) as [b g1]. cbn [snd] in Hg1. subst g1.
    destruct (IH (after_floats k g)) as [Hi Hf].
    destruct (for_each body l (after_floats k g)) as [bs g2].
    cbn [snd length] in *. split; [ exact Hi | ].
    intros i. rewrite Hf. cbn [after_floats floats]. f_equal. lia.
Qed.

Lemma create_grid_building_draws (cell : nat * nat) (g : Random) :
  snd (create_grid_building cell g) = after_floats 6 g.
Proof. reflexivity. Qed.

Lemma create_grid_building_fields (cell : nat * nat) (g : Random) :
  let b := fst (create_grid_building cell g) in
  x (building_location b)
  = (INR (fst cell) - CITY_GRID_SIZE / 2) * BUILDING_SPACING /\
  y (building_location b)
  = (INR (snd cell) - CITY_GRID_SIZE / 2) * BUILDING_SPACING /\
  z (building_location b) = z (building_scale b) /\
  x (building_scale b) = 1 + (3 - 1) * floats g 0 /\
  y (building_scale b) = 1 + (3 - 1) * floats g 1 /\
  z (building_scale b)
  = (MIN_FLOORS + (MAX_FLOORS - MIN_FLOORS) * floats g 2) / 2.
Proof. repeat split; reflexivity. Qed.

(** X17.  The two loops of the city grid create [CITY_GRID_SIZE *
    CITY_GRID_SIZE] buildings and draw six random numbers for each.  Every
    building stands on a node of the grid, from [-CITY_BOUNDARY_X] up to
    [CITY_BOUNDARY_X - BUILDING_SPACING] on both axes, and the height of
    its centre is the third component of its scale, half its height; when
    [random.random()] returns numbers between zero and one that is between
    [MIN_FLOORS / 2] and [MAX_FLOORS / 2], and width and depth are between
    one and three. *)
Theorem city_grid_is_regular (g : Random) :
  let buildings := fst (create_city_grid g) in
  let g' := snd (create_city_grid g) in
  length buildings = 400%nat /\
  (ints g' = ints g /\ forall i, floats g' i = floats g (2400 + i)%nat) /\
  Forall
    (fun b =>
       (exists i j,
           (i < CITY_GRID_CELLS)%nat /\ (j < CITY_GRID_CELLS)%nat /\
           x (building_location b) = (INR i - 10) * 5 /\
           y (building_location b) = (INR j - 10) * 5) /\
       - CITY_BOUNDARY_X <= x (building_location b)
       <= CITY_BOUNDARY_X - BUILDING_SPACING /\
       - CITY_BOUNDARY_Y <= y (building_location b)
       <= CITY_BOUNDARY_Y - BUILDING_SPACING /\
       z (building_location b) = z (building_scale b)) buildings /\
  (unit_floats g ->
   Forall
     (fun b =>
        1 <= x (building_scale b) <= 3 /\
        1 <= y (building_scale b) <= 3 /\
        MIN_FLOORS / 2 <= z (building_location b) <= MAX_FLOORS / 2)
     buildings).
Proof.
  intros buildings g'. unfold buildings, g', create_city_grid.
  split; [ | split; [ | split ] ].
  - rewrite for_each_length, length_prod, !length_seq. reflexivity.
  - destruct (for_each_draws create_grid_building 6
                (list_prod (seq 0 CITY_GRID_CELLS) (seq 0 CITY_GRID_CELLS))
                create_grid_building_draws g) as [Hi Hf].
    split; [ exact Hi | ]. intros i. rewrite Hf.
    rewrite length_prod, !length_seq. reflexivity.
  - apply (for_each_forall create_grid_building (fun _ => True)); auto.
    intros [i j] g0 Hin _. split; [ | exact I ].
    apply in_prod_iff in Hin. destruct Hin as [Hi Hj].
    apply in_seq in Hi, Hj. cbn [Nat.add] in Hi, Hj.
    destruct (create_grid_building_fields (i, j) g0)
      as (Hx & Hy & Hz & _).
    cbn [fst snd] in Hx, Hy.
    assert (Hi' : 0 <= INR i <= 19).
    { split; [ apply pos_INR | ].
      replace 19 with (INR 19) by (simpl; lra). apply le_INR.
      unfold CITY_GRID_CELLS in Hi. lia. }
    assert (Hj' : 0 <= INR j <= 19).
    { split; [ apply pos_INR | ].
      replace 19 with (INR 19) by (simpl; lra). apply le_INR.
      unfold CITY_GRID_CELLS in Hj. lia. }
    split; [ | split; [ | split ] ].
    + exists i, j. repeat split; try lia.
      * rewrite Hx. settings. lra.
      * rewrite Hy. settings. lra.
    + rewrite Hx. settings. lra.
    + rewrite Hy. settings. lra.
    + exact Hz.
  - intros Hg.
    apply (for_each_forall create_grid_building unit_floats); auto.
    intros cell g0 _ Hg0. split.
    + destruct (create_grid_building_fields cell g0)
        as (_ & _ & Hz & Hw & Hd & Hh).
      rewrite Hz, Hw, Hd, Hh.
      pose proof (Hg0 0%nat). pose proof (Hg0 1%nat). pose proof (Hg0 2%nat).
      unfold MIN_FLOORS, MAX_FLOORS. lra.
    + rewrite create_grid_building_draws. apply unit_floats_after.
      exact Hg0.
Qed.

(** The grid drawn with the generator [spread]. *)
Lemma city_grid_is_regular_witness :
  Forall
    (fun b =>
       1 <= x (building_scale b) <= 3 /\
       1 <= y (building_scale b) <= 3 /\
       MIN_FLOORS / 2 <= z (building_location b) <= MAX_FLOORS / 2)
    (fst (create_city_grid spread)).
Proof.
  destruct (city_grid_is_regular spread) as (_ & _ & _ & H).
  exact (H spread_unit_floats).
Defined.

(** ** The whole script *)

Lemma randint_between (a b : nat) (g : Random) :
  (a <= b)%nat -> (a <= fst (randint a b g) <= b)%nat.
Proof.
  intros Hab. unfold randint; cbn [fst].
  pose proof (Nat.mod_upper_bound (ints g 0%nat) (b - a + 1)). lia.
Qed.

(** With at least two hospitals to create, the set-up does not raise: it is
    still searching, or it returns a scene with the numbers of objects
    asked for. *)
Lemma setup_counts (fuel nd nh : nat) (g : Random) :
  (2 <= nh)%nat ->
  setup fuel nd nh g = None \/
  exists s g',
    setup fuel nd nh g = Some (Returned s, g') /\
    length (hospitals s) = nh /\
    length (clouds s) = (nh * 2)%nat /\
    length (drones s) = nd /\
    two_hospitals (hospitals s).
Proof.
  intros Hnh. unfold setup.
  destruct (create_hospitals fuel nh [] [] g) as [[[hs hp] g1] | ] eqn:Hh;
    [ | left; reflexivity ].
  destruct (create_clouds fuel (nh * 2) [] hp g1) as [[cs g2] | ] eqn:Hc;
    [ | left; reflexivity ].
  destruct (create_hospitals_ids _ _ _ _ _ _ _ _ Hh eq_refl) as [Hids Hlen].
  simpl in Hlen.
  assert (H2 : two_hospitals hs).
  { split; [ rewrite Hids; apply seq_NoDup | lia ]. }
  destruct (create_drones_returns nd hs H2 [] g2) as (ds & g3 & Hd & Hdl).
  rewrite Hd. right. exists (mkScene hs cs ds), g3. simpl.
  split; [ reflexivity | ]. split; [ exact Hlen | ].
  destruct (create_clouds_invariant _ _ _ _ _ _ _ Hc) as (Hcl & _);
    [ unfold clouds_apart; constructor | constructor | ].
  simpl in Hcl. auto.
Qed.

(** X18.  The script never raises [IndexError], in its set-up or in any
    frame: as long as its placement searches have not returned it is still
    searching, and once they have, the scene holds the 400 buildings,
    five to ten hospitals, twice as many clouds, three to seven drones,
    and every call of the handler returns without an exception. *)
Theorem script_never_raises (fuel : nat) (g : Random) :
  script fuel g = None \/
  exists buildings s g',
    script fuel g = Some (Returned (buildings, s), g') /\
    length buildings = 400%nat /\
    (5 <= length (hospitals s) <= 10)%nat /\
    length (clouds s) = (length (hospitals s) * 2)%nat /\
    (3 <= length (drones s) <= 7)%nat /\
    forall n g0,
      exception_of
        (update_scene (fst (run_frames n s g0)) (snd (run_frames n s g0)))
      = None.
Proof.
  unfold script.
  pose proof (randint_between 3 7 g) as Hnd.
  destruct (randint 3 7 g) as [nd g1]. cbn [fst] in Hnd.
  pose proof (randint_between 5 10 g1) as Hnh.
  destruct (randint 5 10 g1) as [nh g2]. cbn [fst] in Hnh.
  assert (Hlen : length (fst (create_city_grid g2)) = 400%nat).
  { unfold create_city_grid.
    rewrite for_each_length, length_prod, !length_seq. reflexivity. }
  destruct (create_city_grid g2) as [buildings g3]. cbn [fst] in Hlen.
  destruct (setup_counts fuel nd nh g3)
    as [H | (s & g4 & H & Hh & Hc & Hd & H2)];
    [ lia | rewrite H; left; reflexivity | ].
  rewrite H. right. exists buildings, s, g4.
  split; [ reflexivity | ]. split; [ exact Hlen | ].
  split; [ lia | ]. split; [ lia | ]. split; [ lia | ].
  intros n g0. apply update_scene_no_exception.
  rewrite run_frames_hospitals. exact H2.
Qed.

(** ** The first arrival of a drone *)

(** X19.  The first flight of a drone ends where it began.  The entry of a
    new drone stores its start hospital, at whose position the drone is
    created; as long as the entry still stores that hospital, the frame in
    which the drone reaches its target puts it back at the position where
    it was created. *)
Theorem first_arrival_returns_to_start (s : Scene) (g g0 g1 : Random)
  (idx : nat) (e0 e : DroneEntry) :
  two_hospitals (hospitals s) ->
  create_drone_entry (hospitals s) g0 = (Returned e0, g1) ->
  nth_error (drones s) idx = Some e ->
  entry_hospital e = entry_hospital e0 ->
  target_reached e = true ->
  exists e',
    nth_error (drones (scene_after (update_scene s g))) idx = Some e' /\
    drone_location (entry_drone e') = drone_location (entry_drone e0).
Proof.
  intros Hhs Hcreate Hn Hsame Hr.
  destruct (update_scene_nth s g idx e Hhs Hn)
    as (_ & e' & gi & gi' & He & Hnth).
  exists e'. split; [ exact Hnth | ].
  destruct (update_drone_reached _ _ _ _ _ _ Hr He) as (Hdrone & _).
  destruct (create_drone_entry_returned _ _ _ _ Hcreate) as (Hl & _).
  rewrite Hdrone, Hl, Hsame. reflexivity.
Qed.

(** The scenario of the specification: the drone that was created at A
    with B as its target reaches B, and is put back at A. *)
Lemma first_arrival_returns_to_start_witness :
  exists e',
    nth_error (drones (scene_after (update_scene arrival_scene steady))) 0
    = Some e' /\
    drone_location (entry_drone e')
    = drone_location (entry_drone leaving_entry).
Proof.
  apply (first_arrival_returns_to_start arrival_scene steady steady
           (mkRandom (floats steady) (fun n => ints steady (S (S n))))
           0 leaving_entry arriving_entry).
  - exact two_hospitals_A_B.
  - reflexivity.
  - reflexivity.
  - reflexivity.
  - exact arriving_entry_reached.
Defined.

(** ** The random numbers of a frame *)

Lemma update_drone_draws (hs : list Hospital) (cs : list Cloud)
  (e e' : DroneEntry) (g g' : Random) :
  update_drone hs cs e g = (Returned e', g') ->
  floats g' = floats g /\
  forall i,
    ints g' i = ints g ((if target_reached e then 1 else 0) + i)%nat.
Proof.
  intros He. destruct (target_reached e) eqn:Hr.
  - rewrite update_drone_reached_eq in He by exact Hr. unfold bind in He.
    destruct (filter (fun h => hospital_neqb h (entry_hospital e)) hs)
      as [ | h l]; [ discriminate | ].
    cbn [choice] in He. unfold ret in He. inversion He; subst.
    split; [ reflexivity | ]. intros i. reflexivity.
  - rewrite update_drone_moving in He by exact Hr. inversion He; subst.
    split; [ reflexivity | ]. intros i. reflexivity.
Qed.

Lemma update_drones_draws (hs : list Hospital) (cs : list Cloud) :
  two_hospitals hs ->
  forall ds g,
    floats (snd (update_drones hs cs ds g)) = floats g /\
    forall i,
      ints (snd (update_drones hs cs ds g)) i
      = ints g (length (filter target_reached ds) + i)%nat.
Proof.
  intros Hhs. induction ds as [ | d ds' IH]; intros g.
  - split; reflexivity.
  - cbn [update_drones filter].
    destruct (update_drone_returns hs cs d g Hhs) as (d' & g1 & Hd).
    rewrite Hd. destruct (update_drone_draws _ _ _ _ _ _ Hd) as [Hf Hi].
    destruct (IH g1) as [Hf' Hi'].
    destruct (update_drones hs cs ds' g1) as [[rest' r] g2].
    cbn [snd] in *. split; [ congruence | ].
    intros i. rewrite Hi', Hi.
    destruct (target_reached d); cbn [length]; f_equal; lia.
Qed.

(** X20.  The handler never calls [random.random()]: the motion of the
    clouds and of the drones is determined by the scene.  With at least two
    distinct hospitals a frame draws one integer for every drone that has
    reached its target, and nothing else. *)
Theorem frame_draws_only_choices (s : Scene) (g : Random) :
  two_hospitals (hospitals s) ->
  floats (random_after (update_scene s g)) = floats g /\
  forall i,
    ints (random_after (update_scene s g)) i
    = ints g (length (filter target_reached (drones s)) + i)%nat.
Proof.
  intros Hhs. pose proof (update_scene_drones s g) as Hd.
  destruct (update_drones_draws (hospitals s)
              (clouds (scene_after (update_scene s g))) Hhs (drones s) g)
    as [Hf Hi].
  rewrite <- Hd in Hf, Hi. exact (conj Hf Hi).
Qed.

(** The scenario of the specification: one drone arrives, one integer is
    drawn. *)
Lemma frame_draws_only_choices_witness :
  floats (random_after (update_scene arrival_scene steady)) = floats steady /\
  forall i,
    ints (random_after (update_scene arrival_scene steady)) i
    = ints steady
        (length (filter target_reached (drones arrival_scene)) + i)%nat.
Proof.
  exact (frame_draws_only_choices arrival_scene steady two_hospitals_A_B).
Defined.

(** ** A cloud right above a drone *)

(** C3, as stated, fails.  The drone that has just left A is not
    retargeting, and the cloud right above it is within the avoidance
    radius, at planar distance zero.  The repulsion [move_drone] computes
    from that cloud is the zero vector: it is not a unit vector times
    [1.5 * (DRONE_AVOIDANCE_RADIUS - 0) / DRONE_AVOIDANCE_RADIUS], whatever
    the unit vector. *)
Lemma cloud_above_drone_adds_no_unit_vector :
  target_reached leaving_entry = false /\
  planar_distance (drone_location (entry_drone leaving_entry))
                  (cloud_location overhead_cloud)
  < DRONE_AVOIDANCE_RADIUS /\
  fold_left (repel (drone_location (entry_drone leaving_entry)))
            [overhead_cloud] vzero = vzero /\
  ~ (exists u,
        vlength u = 1 /\
        fold_left (repel (drone_location (entry_drone leaving_entry)))
                  [overhead_cloud] vzero
        = (u * ((15 / 10)
                * (DRONE_AVOIDANCE_RADIUS
                   - planar_distance
                       (drone_location (entry_drone leaving_entry))
                       (cloud_location overhead_cloud))
                / DRONE_AVOIDANCE_RADIUS))%V).
Proof.
  split; [ exact leaving_entry_not_reached | ].
  assert (Hrep : fold_left (repel (drone_location (entry_drone leaving_entry)))
                           [overhead_cloud] vzero = vzero).
  { cbn [fold_left]. apply repel_at_zero_distance.
    exact overhead_cloud_distance. }
  rewrite Hrep, overhead_cloud_distance.
  split; [ settings; lra | ]. split; [ reflexivity | ].
  intros (u & Hu & H). apply (f_equal vlength) in H.
  rewrite vlength_vzero, vlength_scale, Hu in H.
  rewrite Rabs_pos_eq in H by (settings; lra).
  settings. lra.
Qed.

(** ** The set-up with one hospital *)

Lemma spread_one_hospital_placed :
  create_hospitals 1 1 [] [] spread
  = Some ([mkHospital 0 (hospital_candidate spread 0)],
          [hospital_candidate spread 0], after_floats 2 spread).
Proof.
  cbn [create_hospitals]. rewrite place_hospital_step.
  change (hospital_fits (hospital_candidate spread 0) []) with true.
  reflexivity.
Qed.

Lemma spread_two_clouds_placed :
  exists cs,
    create_clouds 1 2 [] [hospital_candidate spread 0] (after_floats 2 spread)
    = Some (cs, after_floats 10 spread).
Proof.
  eexists.
  rewrite create_clouds_step by candidate_fits. cbn [app].
  rewrite create_clouds_step by candidate_fits. cbn [app].
  reflexivity.
Qed.

(** One hospital, two clouds, and three drones to create, with the
    generator [spread]: the placement searches return, and the set-up ends
    with [IndexError]. *)
Lemma setup_needs_two_hospitals_witness :
  (exists g',
      create_drones 3 [hospital_A] [] steady = (Raised IndexError, g')) /\
  (exists g', setup 1 3 1 spread = Some (Raised IndexError, g')).
Proof.
  destruct (setup_needs_two_hospitals 3 1) as (Hdrones & Hsetup & _);
    [ lia | lia | ].
  split.
  - apply Hdrones. reflexivity.
  - destruct spread_two_clouds_placed as (cs & Hcs).
    apply (Hsetup 1%nat spread _ _ _ _ _ spread_one_hospital_placed Hcs).
Defined.

Lemma steady_one_hospital_placed (fuel : nat) :
  create_hospitals (S fuel) 1 [] [] steady
  = Some ([mkHospital 0 (hospital_candidate steady 0)],
          [hospital_candidate steady 0], steady).
Proof.
  cbn [create_hospitals]. rewrite place_hospital_step.
  change (hospital_fits (hospital_candidate steady 0) []) with true.
  reflexivity.
Qed.

Lemma steady_first_cloud_fits :
  cloud_fits (cloud_candidate steady 0) [] [hospital_candidate steady 0]
  = true.
Proof.
  rewrite cloud_fits_ignores_hospitals; [ reflexivity | reflexivity | ].
  constructor; [ reflexivity | constructor ].
Qed.

Lemma steady_second_cloud_never_fits (j : nat) :
  cloud_fits (cloud_candidate (after_floats 4 steady) j)
    [mkCloud (cloud_candidate steady 0)
             (fst (cloud_heading (after_floats 2 steady)))]
    [hospital_candidate steady 0] = false.
Proof.
  rewrite steady_cloud_candidate. unfold cloud_fits.
  cbn [map forallb cloud_location].
  rewrite vlength_gtb_false; [ reflexivity | settings; lra | ].
  unfold cloud_candidate, steady; simpl; settings. lra.
Qed.

(** C9, as stated, fails.  With one hospital and three drones to create,
    and a generator that returns the same numbers again and again, the
    hospital and the first cloud are placed, the second cloud never is:
    the set-up is still searching after any number of iterations, and
    nothing is raised.  With no hospital and no drone to create the
    set-up returns an empty scene without any error. *)
Lemma fewer_hospitals_need_not_fail :
  (forall fuel, setup fuel 3 1 steady = None) /\
  setup 0 0 0 steady = Some (Returned (mkScene [] [] []), steady).
Proof.
  split; [ | reflexivity ].
  intros fuel. destruct fuel as [ | fuel]; [ reflexivity | ].
  unfold setup. rewrite steady_one_hospital_placed. cbv iota beta.
  change (1 * 2)%nat with 2%nat.
  rewrite create_clouds_step by exact steady_first_cloud_fits.
  cbn [app create_clouds].
  rewrite place_cloud_never; [ reflexivity | ].
  exact steady_second_cloud_never_fits.
Qed.
